(** * nursepy.preproc: a shallow embedding and its verified properties

    The package has one function, [preproc] (src/nursepy/preproc.py).  It
    checks the run-time types of its arguments, copies its input tables,
    builds a scikit-learn [ColumnTransformer], fits it on the train table,
    rebuilds a pandas [DataFrame] from the transformed matrix with reconciled
    column names, and finally runs a [LabelEncoder] over the columns named in
    [label_encode].

    The embedding follows the function statement by statement.  Python objects
    that are mutated or copied (the data frames) live in an explicit heap, and
    the function is a program in a state-and-exception monad over that heap.

    Library code that [preproc] calls is modelled at two levels.
    - The orchestration the properties below depend on is written out:
      [ColumnTransformer] (column selection, [fit] as [fit_transform], order
      of the stacked blocks, remainder selected by label, sparse or dense
      output), the conversion of a frame to a numpy array and of the
      remainder to the dtype of the stacked array, the [DataFrame]
      constructor, column read and assignment, [select_dtypes], and
      [LabelEncoder] (the classes are the sorted distinct labels; an array
      of objects is looked up, a numeric array is not).  It follows
      scikit-learn 1.1, the last release line that has
      [OneHotEncoder.get_feature_names].
    - The value-level kernels of the estimators placed in the transformer
      (imputers, scalers, one-hot encoder) are the methods of the class
      [Estimators]: nothing is assumed about what they compute, and the
      theorems hold for every instance, unless a theorem names the law it
      assumes.  A block an estimator returns is taken as it is: the
      estimators of [preproc] return float64 or object arrays, which
      stacking does not change.  [Example.estimators] is one instance, used
      to evaluate the model on concrete tables.

    Outside the model: rows are not counted (blocks of different heights
    are stacked as they come), and datetime cells have no representation
    (the dtype exists, to be told from the dtypes automatic mode selects). *)

From Stdlib Require Import ZArith List Bool Floats.
From Stdlib Require Import String Ascii.
From Stdlib Require OrderedTypeEx.
From stdpp Require Import base tactics option list strings.

Open Scope string_scope.
Open Scope list_scope.

(** ** Tables *)

(** pandas dtypes.  [select_dtypes] at lines 79-82 of the source tells
    [float64] and [int64] from [object], [bool] and [category]; the other
    constructors are dtypes that neither selection includes. *)
Inductive dtype : Type :=
| float64 | int64 | object | bool_ | category
| float32 | int32 | datetime64.

#[global] Instance dtype_eq_dec : EqDecision dtype.
Proof. solve_decision. Defined.

Definition dtype_eqb (a b : dtype) : bool :=
  match a, b with
  | float64, float64 | int64, int64 | object, object | bool_, bool_
  | category, category | float32, float32 | int32, int32
  | datetime64, datetime64 => true
  | _, _ => false
  end.

(** A cell of a table: a Python scalar. *)
Inductive cell : Type :=
| CStr (s : string)
| CInt (z : Z)
| CBool (b : bool)
| CFloat (f : float)
| CNone.

(** A pandas Series inside a frame: label, dtype and values. *)
Record column : Type := Column {
  cname : string;
  cdtype : dtype;
  cvalues : list cell
}.

(** A pandas DataFrame: its columns, in order. *)
Abbreviation DataFrame := (list column).

(** [df.columns] *)
Definition columns (df : DataFrame) : list string := map cname df.

(** The values of a frame, column by column, without labels or dtypes. *)
Definition values (df : DataFrame) : list (list cell) := map cvalues df.

(** A two-dimensional numpy array, stored column by column. *)
Abbreviation ndarray := (list (list cell)).

(** ** Python values, types and exceptions *)

(** Addresses of data frames in the heap. *)
Abbreviation loc := nat.

(** The values an argument of [preproc] can be bound to.  Sequences hold
    column names; the dict maps a column name to its list of labels. *)
Inductive pyval : Type :=
| PyNone
| PyBool (b : bool)
| PyInt (z : Z)
| PyStr (s : string)
| PyList (xs : list string)
| PyTuple (xs : list string)
| PyNdarray (xs : list string)
| PyDict (kvs : list (string * list string))
| PyDataFrame (l : loc).

(** The result of Python's [type(...)] on those values. *)
Inductive pytype : Type :=
| T_NoneType | T_bool | T_int | T_str | T_list | T_tuple | T_ndarray
| T_dict | T_DataFrame.

Definition pytype_eqb (a b : pytype) : bool :=
  match a, b with
  | T_NoneType, T_NoneType | T_bool, T_bool | T_int, T_int | T_str, T_str
  | T_list, T_list | T_tuple, T_tuple | T_ndarray, T_ndarray
  | T_dict, T_dict | T_DataFrame, T_DataFrame => true
  | _, _ => false
  end.

Definition type (v : pyval) : pytype :=
  match v with
  | PyNone => T_NoneType
  | PyBool _ => T_bool
  | PyInt _ => T_int
  | PyStr _ => T_str
  | PyList _ => T_list
  | PyTuple _ => T_tuple
  | PyNdarray _ => T_ndarray
  | PyDict _ => T_dict
  | PyDataFrame _ => T_DataFrame
  end.

(** Exceptions, one constructor per raise site.  The first three are raised
    by [preproc] itself, the others by pandas and scikit-learn. *)
Inductive exn : Type :=
(* line 58: ValueError("Arg type error. {arg_key} needs to be one of
   {arg_types[arg_key]}. You passed in type of: {argument_type}") *)
| ValueError_arg_type (arg_key : string) (permitted : list pytype)
                      (argument_type : pytype)
(* line 73: Exception("You cannot manually set {element} when setting auto
   to true"); the message prints the list itself *)
| Exception_manual_with_auto (element : list string)
(* line 77: Exception("You cannot manually set categorical_impute when
   setting auto to true"), raised for a non-empty label_encode *)
| Exception_label_with_auto
(* LabelEncoder.transform: ValueError("y contains previously unseen
   labels") *)
| ValueError_unseen_labels (label : cell)
(* LabelEncoder.transform on a numeric array when the classes are strings:
   TypeError("ufunc 'isnan' not supported for the input types") *)
| TypeError_isnan
(* LabelEncoder.transform on a two-dimensional selection:
   ValueError("bad input shape") *)
| ValueError_bad_input_shape
(* DataFrame.__getitem__ and DataFrame.loc on a label that is not a
   column *)
| KeyError (column : string)
(* ColumnTransformer: a listed column is not a column of the frame *)
| ValueError_not_a_column (column : string)
(* ColumnTransformer: a listed column is not unique in the frame *)
| ValueError_not_unique (column : string)
(* DataFrame.iloc: a position beyond the frame *)
| IndexError_remainder (position : nat)
(* ColumnTransformer.transform: ValueError("columns are missing"), a
   remainder column of the fitted frame is not a label of this frame *)
| ValueError_columns_missing (column : string)
(* np.hstack: TypeError, datetimes and numbers have no common dtype *)
| TypeError_promotion
(* ColumnTransformer.fit_transform: the density nnz / total of an output
   without cells *)
| ZeroDivisionError
(* ColumnTransformer: ValueError("For a sparse output, all columns should
   be a numeric or convertible to a numeric.") *)
| ValueError_sparse_numeric
(* DataFrame(data, columns) on a scipy sparse matrix: ValueError *)
| ValueError_sparse_frame
(* DataFrame(data, columns): the number of labels differs from the number
   of columns of the data *)
| ValueError_shape (passed implied : nat)
(* whatever an estimator kernel raises *)
| EstimatorError (message : string)
(* a variable is used at a type its type check excludes *)
| TypeError_unreachable (arg_key : string)
(* an address that holds no object; Python has no such reference *)
| Dangling (l : nat).

(** The error classes of the specification. *)
Definition TypeMismatch (e : exn) : Prop :=
  match e with ValueError_arg_type _ _ _ => True | _ => False end.

Definition ConfigConflict (e : exn) : Prop :=
  match e with
  | Exception_manual_with_auto _ | Exception_label_with_auto => True
  | _ => False
  end.

Definition UnseenLabel (e : exn) : Prop :=
  match e with ValueError_unseen_labels _ => True | _ => False end.

(** ** Results, the heap and the monad of Python programs *)

(** The outcome of a pure library call: an exception or a value. *)
Inductive result (A : Type) : Type :=
| Raise (e : exn)
| Return (x : A).

Arguments Raise {A} e.
Arguments Return {A} x.

#[global] Instance result_ret : MRet result := fun A x => Return x.

#[global] Instance result_bind : MBind result := fun A B f m =>
  match m with
  | Raise e => Raise e
  | Return x => f x
  end.

(** Every data frame object that exists, by address.  Objects are never
    freed; allocation appends. *)
Abbreviation heap := (list DataFrame).

(** A computation reads and writes the heap and either returns or raises.
    The heap is kept when an exception is raised. *)
Definition py (A : Type) : Type := heap -> result A * heap.

Definition run {A} (m : py A) (h : heap) : result A * heap := m h.

Definition raise {A} (e : exn) : py A := fun h => (Raise e, h).

#[global] Instance py_ret : MRet py := fun A x h => (Return x, h).

#[global] Instance py_bind : MBind py := fun A B f m h =>
  match m h with
  | (Raise e, h') => (Raise e, h')
  | (Return x, h') => f x h'
  end.

#[global] Instance py_fmap : FMap py := fun A B f m =>
  x ← m; mret (f x).

(** A pure library call inside a program. *)
Definition lift {A} (r : result A) : py A := fun h => (r, h).

(** Dereference a frame.  A Python reference always points to an object;
    the exception is the model's answer to an address that does not. *)
Definition deref (l : loc) : py DataFrame := fun h =>
  match h !! l with
  | Some df => (Return df, h)
  | None => (Raise (Dangling l), h)
  end.

(** Allocate a new frame object. *)
Definition alloc (df : DataFrame) : py loc := fun h =>
  (Return (length h), h ++ [df]).

(** Overwrite the frame object at [l]. *)
Definition store (l : loc) (df : DataFrame) : py unit := fun h =>
  (Return tt, <[l := df]> h).

(** [df.copy()]: a new object with the same content. *)
Definition copy (l : loc) : py loc := df ← deref l; alloc df.

(** ** The arguments and their type check (lines 8-17 and 42-59) *)

Record arguments : Type := mk_arguments {
  X_train : pyval;
  X_test : pyval;
  auto : pyval;
  OHE : pyval;
  standard_scale : pyval;
  robust_scale : pyval;
  numerical_impute : pyval;
  categorical_impute : pyval;
  label_encode : pyval
}.

(** The defaults of the signature: [preproc(X_train)]. *)
Definition defaults (X_train X_test : pyval) : arguments :=
  {| X_train := X_train; X_test := X_test; auto := PyBool false;
     OHE := PyList []; standard_scale := PyList [];
     robust_scale := PyList []; numerical_impute := PyList [];
     categorical_impute := PyList []; label_encode := PyDict [] |}.

(** [locals().copy()] at line 42: the parameters, in declaration order. *)
Definition locals (a : arguments) : list (string * pyval) :=
  [ ("X_train", X_train a);
    ("X_test", X_test a);
    ("auto", auto a);
    ("OHE", OHE a);
    ("standard_scale", standard_scale a);
    ("robust_scale", robust_scale a);
    ("numerical_impute", numerical_impute a);
    ("categorical_impute", categorical_impute a);
    ("label_encode", label_encode a) ].

(** Lines 43-53. *)
Definition arg_types : list (string * list pytype) :=
  [ ("X_train", [T_DataFrame]);
    ("X_test", [T_NoneType; T_DataFrame]);
    ("auto", [T_bool]);
    ("OHE", [T_list; T_ndarray]);
    ("standard_scale", [T_list; T_ndarray]);
    ("robust_scale", [T_list; T_ndarray]);
    ("numerical_impute", [T_list; T_ndarray]);
    ("categorical_impute", [T_list; T_ndarray]);
    ("label_encode", [T_dict]) ].

(** [d[key]] on an association list; a missing key gives the default. *)
Fixpoint dict_get {A} (d : list (string * A)) (key : string) (default : A) : A :=
  match d with
  | [] => default
  | (k, v) :: d' => if String.eqb k key then v else dict_get d' key default
  end.

(** [t in ts] on types. *)
Definition type_in (t : pytype) (ts : list pytype) : bool :=
  existsb (pytype_eqb t) ts.

(** Lines 55-59: the loop over [args.keys()]. *)
Fixpoint check_arg_types (args : list (string * pyval)) : result unit :=
  match args with
  | [] => Return tt
  | (arg_key, value) :: rest =>
      let argument_type := type value in
      if negb (type_in argument_type (dict_get arg_types arg_key []))
      then Raise (ValueError_arg_type arg_key (dict_get arg_types arg_key [])
                                      argument_type)
      else check_arg_types rest
  end.

(** After the check each variable is used at its checked type. *)
Definition as_DataFrame (arg_key : string) (v : pyval) : result loc :=
  match v with
  | PyDataFrame l => Return l
  | _ => Raise (TypeError_unreachable arg_key)
  end.

Definition as_optional_DataFrame (arg_key : string) (v : pyval)
  : result (option loc) :=
  match v with
  | PyNone => Return None
  | PyDataFrame l => Return (Some l)
  | _ => Raise (TypeError_unreachable arg_key)
  end.

Definition as_bool (arg_key : string) (v : pyval) : result bool :=
  match v with
  | PyBool b => Return b
  | _ => Raise (TypeError_unreachable arg_key)
  end.

Definition as_names (arg_key : string) (v : pyval) : result (list string) :=
  match v with
  | PyList xs | PyNdarray xs => Return xs
  | _ => Raise (TypeError_unreachable arg_key)
  end.

Definition as_dict (arg_key : string) (v : pyval)
  : result (list (string * list string)) :=
  match v with
  | PyDict kvs => Return kvs
  | _ => Raise (TypeError_unreachable arg_key)
  end.

(** ** pandas *)

(** [x in xs] on column names. *)
Definition name_in (x : string) (xs : list string) : bool :=
  existsb (String.eqb x) xs.

(** [df.select_dtypes(include=...)] *)
Definition select_dtypes (df : DataFrame) (include : list dtype) : DataFrame :=
  filter (fun c => Is_true (existsb (dtype_eqb (cdtype c)) include)) df.

(** The columns of [df] labelled [name]. *)
Definition labelled (name : string) (df : DataFrame) : DataFrame :=
  filter (fun c => Is_true (String.eqb (cname c) name)) df.

(** [df[column]] as the one-dimensional argument of an encoder: the label
    must name exactly one column. *)
Definition getitem (df : DataFrame) (column : string) : result (list cell) :=
  match labelled column df with
  | [] => Raise (KeyError column)
  | [c] => Return (cvalues c)
  | _ :: _ :: _ => Raise ValueError_bad_input_shape
  end.

(** The dtype of the column [df[column]]. *)
Definition series_dtype (df : DataFrame) (column : string) : dtype :=
  match labelled column df with
  | c :: _ => cdtype c
  | [] => object
  end.

(** [df[column] = codes] for an existing label: the column keeps its slot
    and gets the new values, integers here. *)
Definition setitem (df : DataFrame) (column : string) (codes : list cell)
  : DataFrame :=
  map (fun c => if String.eqb (cname c) column
                then Column (cname c) int64 codes else c) df.

(** [df.iloc[:, positions]] *)
Definition iloc (df : DataFrame) (positions : list nat) : result DataFrame :=
  mapM (fun i => match df !! i with
                 | Some c => Return c
                 | None => Raise (IndexError_remainder i)
                 end) positions.

(** [df.loc[:, names]]: for every name, in the order of the list, the
    columns with that label; a name that labels no column raises. *)
Definition df_loc (df : DataFrame) (names : list string) : result DataFrame :=
  cs ← mapM (fun n => match labelled n df with
                      | [] => Raise (KeyError n)
                      | c :: cs => Return (c :: cs)
                      end) names;
  mret (concat cs).

(** *** Conversion of a frame to a numpy array *)

(** The float64 nearest to an integer, ties to even: what numpy stores
    when an int64 column is converted to float64. *)
Definition float_of_Z (z : Z) : float :=
  SF2Prim (binary_normalize prec emax z 0 false).

(** [ndarray.astype(d)] on one cell: an integer or a boolean becomes a
    float in a float array, a boolean becomes 0 or 1 in an integer array;
    an array of objects keeps every cell as it is. *)
Definition astype (d : dtype) (v : cell) : cell :=
  match d, v with
  | (float64 | float32), CInt z => CFloat (float_of_Z z)
  | (float64 | float32), CBool b => CFloat (if b then 1 else 0)
  | (int64 | int32), CBool b => CInt (if b then 1 else 0)
  | _, _ => v
  end.

Definition is_integer_dtype (d : dtype) : bool :=
  match d with int64 | int32 => true | _ => false end.

Definition is_float_dtype (d : dtype) : bool :=
  match d with float64 | float32 => true | _ => false end.

(** pandas [find_common_type]: the dtype of [df.values].  Columns of one
    dtype keep it (an array of categories is an array of objects);
    integer columns of different widths give int64; integer and float
    columns give float64; any other mix, booleans beside numbers
    included, gives object. *)
Definition find_common_type (ds : list dtype) : dtype :=
  match ds with
  | [] => float64
  | d :: rest =>
      if forallb (dtype_eqb d) rest
      then match d with category => object | _ => d end
      else if forallb is_integer_dtype ds then int64
      else if forallb (fun x => is_integer_dtype x || is_float_dtype x) ds
      then float64
      else object
  end.

(** [np.asarray(df)]: the dtype and the cells of the array; a column whose
    dtype is not the common one is converted. *)
Definition to_numpy (df : DataFrame) : dtype * ndarray :=
  let d := find_common_type (map cdtype df) in
  (d, map (fun c => if dtype_eqb (cdtype c) d then cvalues c
                    else map (astype d) (cvalues c)) df).

(** The dtype numpy gives to an array holding these cells. *)
Definition cell_dtype (c : cell) : dtype :=
  match c with
  | CBool _ => bool_
  | CInt _ => int64
  | CFloat _ => float64
  | CStr _ | CNone => object
  end.

Definition promote (a b : dtype) : dtype :=
  match a, b with
  | bool_, d | d, bool_ => d
  | int64, int64 => int64
  | int64, float64 | float64, int64 | float64, float64 => float64
  | _, _ => object
  end.

Definition array_dtype (data : ndarray) : dtype :=
  match concat data with
  | [] => float64
  | c :: cs => foldr (fun x d => promote (cell_dtype x) d) (cell_dtype c) cs
  end.

(** *** numpy: stacking arrays side by side *)

(** [np.result_type] of two dtypes; datetimes and numbers have none. *)
Definition result_type (a b : dtype) : result dtype :=
  if dtype_eqb a b then Return a
  else match a, b with
       | object, _ | _, object | category, _ | _, category => Return object
       | datetime64, _ | _, datetime64 => Raise TypeError_promotion
       | bool_, d | d, bool_ => Return d
       | int32, int64 | int64, int32 => Return int64
       | _, _ => Return float64
       end.

(** The dtype of the array that stacks arrays of these dtypes. *)
Definition result_types (ds : list dtype) : result dtype :=
  match ds with
  | [] => Return float64
  | d :: ds' => foldl (fun acc d' => a ← acc; result_type a d') (Return d) ds'
  end.

(** The cells of an array of dtype [dr] inside a stacked array of dtype
    [d]. *)
Definition converted (dr d : dtype) (data : ndarray) : ndarray :=
  if dtype_eqb dr d then data else map (map (astype d)) data.

(** The result of [ColumnTransformer.transform]: a numpy array with its
    dtype, or a scipy sparse matrix. *)
Inductive matrix : Type :=
| Dense (d : dtype) (data : ndarray)
| Sparse.

(** [np.hstack] of the blocks of the estimators and, last, of the array of
    the remainder columns.  The dtype of a block is the dtype of its cells;
    the remainder is converted to the dtype of the stacked array. *)
Definition np_hstack (Xs : list ndarray) (rest : option (dtype * ndarray))
  : result matrix :=
  match rest with
  | None =>
      d ← result_types (map array_dtype Xs);
      mret (Dense d (concat Xs))
  | Some (dr, Xrem) =>
      d ← result_types (map array_dtype Xs ++ [dr]);
      mret (Dense d (concat Xs ++ converted dr d Xrem))
  end.

(** [pd.DataFrame(data=data, columns=columns)] *)
Definition DataFrame_new (data : matrix) (columns : list string)
  : result DataFrame :=
  match data with
  | Dense d data =>
      if Nat.eqb (length data) (length columns)
      then Return (zip_with (fun name vs => Column name d vs) columns data)
      else Raise (ValueError_shape (length data) (length columns))
  | Sparse => Raise ValueError_sparse_frame
  end.

(** ** scikit-learn: estimators *)

(** The estimators [preproc] constructs, with the keyword arguments it
    passes. *)
Inductive estimator : Type :=
| SimpleImputer (strategy : string) (fill_value : option string)
| OneHotEncoder (drop : option string)
| StandardScaler
| RobustScaler.

(** What the estimators compute is not part of [preproc].  An instance
    gives, per estimator, [fit] on the selected columns of the train frame,
    [transform] of the selected columns of a frame into a block of output
    columns, and the one-hot encoder's [get_feature_names].  Each may raise,
    with a message. *)
Class Estimators : Type := {
  fitted : Type;
  fit : estimator -> DataFrame -> string + fitted;
  transform : fitted -> DataFrame -> string + ndarray;
  get_feature_names : fitted -> list string -> string + list string
}.

Definition estimator_call {A} (r : string + A) : result A :=
  match r with
  | inl message => Raise (EstimatorError message)
  | inr x => Return x
  end.

(** ** scikit-learn: LabelEncoder *)

(** Insertion into a strictly increasing list of labels. *)
Fixpoint insert_label (s : string) (l : list string) : list string :=
  match l with
  | [] => [s]
  | x :: l' =>
      match String.compare s x with
      | Lt => s :: x :: l'
      | Eq => x :: l'
      | Gt => x :: insert_label s l'
      end
  end.

(** [np.unique]: the distinct labels, sorted. *)
Definition np_unique (y : list string) : list string :=
  foldr insert_label [] y.

(** [LabelEncoder().fit(y)]: sets [classes_ = np.unique(y)]. *)
Definition LabelEncoder_fit (y : list string) : list string := np_unique y.

(** Position of a label in [classes_]. *)
Fixpoint class_index (s : string) (classes_ : list string) : option nat :=
  match classes_ with
  | [] => None
  | x :: rest =>
      if String.eqb x s then Some 0
      else option_map S (class_index s rest)
  end.

(** The code of one value. *)
Definition encode_cell (classes_ : list string) (v : cell) : option cell :=
  match v with
  | CStr s => option_map (fun i => CInt (Z.of_nat i)) (class_index s classes_)
  | _ => None
  end.

(** [le.transform(y)] on an array of objects: the position of every value
    in [classes_]; a value that is not a class raises. *)
Definition LabelEncoder_transform (classes_ : list string) (y : list cell)
  : result (list cell) :=
  mapM (fun v => match encode_cell classes_ v with
                 | Some code => Return code
                 | None => Raise (ValueError_unseen_labels v)
                 end) y.

Definition is_number (v : cell) : bool :=
  match v with
  | CInt _ | CFloat _ | CBool _ => true
  | CStr _ | CNone => false
  end.

(** The array of a column of dtype [d] holding [y] is numeric: its dtype is
    not [object] (nor [category], whose array is one of objects), and it
    holds numbers, as every array of such a dtype does. *)
Definition numeric_array (d : dtype) (y : list cell) : bool :=
  match d with
  | object | category => false
  | _ => forallb is_number y
  end.

(** [le.transform(y)] on the column [y] of dtype [d].  An empty column gives
    an empty array.  An array of objects is looked up value by value.  On a
    numeric array the values are compared with the classes as arrays: with
    no class, every value is unseen; with classes, which are strings,
    [np.isnan(classes_)] raises a [TypeError]. *)
Definition LabelEncoder_transform_column (classes_ : list string) (d : dtype)
    (y : list cell) : result (list cell) :=
  match y with
  | [] => Return []
  | v :: _ =>
      if numeric_array d y
      then match classes_ with
           | [] => Raise (ValueError_unseen_labels v)
           | _ :: _ => Raise TypeError_isnan
           end
      else LabelEncoder_transform classes_ y
  end.

(** ** scikit-learn: ColumnTransformer *)

Record ColumnTransformer : Type := mk_ColumnTransformer {
  transformers : list (string * estimator * list string);
  remainder : string
}.

(** The positions of the columns of [X] labelled [name], counted from [i]. *)
Fixpoint get_loc (name : string) (X : DataFrame) (i : nat) : list nat :=
  match X with
  | [] => []
  | c :: X' =>
      (if String.eqb (cname c) name then [i] else []) ++ get_loc name X' (S i)
  end.

(** The position of the one column labelled [name]. *)
Definition column_index (X : DataFrame) (name : string) : result nat :=
  match get_loc name X 0 with
  | [] => Raise (ValueError_not_a_column name)
  | [i] => Return i
  | _ :: _ :: _ => Raise (ValueError_not_unique name)
  end.

(** The columns of [X] a transformer is given: the listed ones, in the order
    of the list. *)
Definition select (X : DataFrame) (names : list string) : result DataFrame :=
  idx ← mapM (column_index X) names; iloc X idx.

(** A transformer whose column list is empty is skipped. *)
Definition nonempty (t : string * estimator * list string) : bool :=
  match t with (_, _, []) => false | _ => true end.

Section Transformer.
Context {E : Estimators}.

Record FittedColumnTransformer : Type := mk_Fitted {
  transformers_ : list (string * fitted * list string);
  remaining_idx : list nat;
  feature_names_in_ : list string;
  sparse_output_ : bool
}.

(** The one-hot encoder returns a scipy sparse matrix (its default
    [sparse=True]); the other estimators return numpy arrays. *)
Definition is_sparse (trans : estimator) : bool :=
  match trans with OneHotEncoder _ => true | _ => false end.

(** [X.size]: the number of cells. *)
Definition size (X : ndarray) : nat := length (concat X).

Definition nonzero (v : cell) : bool :=
  match v with
  | CFloat f => negb (PrimFloat.eqb f 0)
  | CInt z => negb (Z.eqb z 0)
  | CBool b => b
  | CStr _ | CNone => true
  end.

(** [X.nnz] of a sparse block: the number of stored cells. *)
Definition nnz (X : ndarray) : nat := length (List.filter nonzero (concat X)).

(** [sparse_output_]: when some block is sparse, the stacked output is
    sparse if its density [nnz / total] is below the default
    [sparse_threshold] of 0.3 (compared here as [10 * nnz < 3 * total],
    which agrees with the float comparison below 10^15 cells). *)
Definition sparse_output (Xs : list (bool * ndarray))
    (rest : option (dtype * ndarray)) : result bool :=
  if existsb fst Xs then
    let rest_size := match rest with Some (_, R) => size R | None => 0 end in
    let stored :=
      foldr (fun (X : bool * ndarray) n =>
               (if fst X then nnz (snd X) else size (snd X)) + n)
            rest_size Xs in
    let total :=
      foldr (fun (X : bool * ndarray) n => size (snd X) + n) rest_size Xs in
    if Nat.eqb total 0 then Raise ZeroDivisionError
    else Return (Nat.ltb (10 * stored) (3 * total))
  else Return false.

Definition has_string (X : ndarray) : bool :=
  existsb (fun v => match v with CStr _ => true | _ => false end) (concat X).

(** [ColumnTransformer._hstack]: a sparse output needs blocks that convert
    to numbers; a dense output is [np.hstack] of the blocks. *)
Definition ColumnTransformer_hstack (sparse : bool) (Xs : list ndarray)
    (rest : option (dtype * ndarray)) : result matrix :=
  if sparse then
    if existsb has_string
         (Xs ++ match rest with Some (_, R) => [R] | None => [] end)
    then Raise ValueError_sparse_numeric
    else Return Sparse
  else np_hstack Xs rest.

(** [_fit_transform_one]: a transformer is fitted on its columns of the
    frame and transforms them; the result is the fitted entry and the
    block, with its kind. *)
Definition fit_transform_one (X : DataFrame)
    (t : string * estimator * list string)
  : result (string * fitted * list string * (bool * ndarray)) :=
  Xsub ← select X t.2;
  state ← estimator_call (fit t.1.2 Xsub);
  Xt ← estimator_call (transform state Xsub);
  mret (t.1.1, state, t.2, (is_sparse t.1.2, Xt)).

(** [fit], which is [fit_transform] with its result dropped: the positions
    no transformer lists are the remainder; every transformer with a
    non-empty list is fitted on its columns and transforms them; the
    remainder columns pass through; the blocks decide [sparse_output_] and
    are stacked. *)
Definition ColumnTransformer_fit (t : ColumnTransformer) (X : DataFrame)
  : result FittedColumnTransformer :=
  cols ← mapM (column_index X) (concat (map snd (transformers t)));
  let remaining :=
    if String.eqb (remainder t) "passthrough"
    then filter (fun i => i ∉ cols) (seq 0 (length X))
    else [] in
  fitted_list ←
    mapM (fit_transform_one X)
         (filter (fun t => Is_true (nonempty t)) (transformers t));
  rest ← match remaining with
         | [] => mret None
         | idx => Xrem ← iloc X idx; mret (Some (to_numpy Xrem))
         end;
  sparse ← sparse_output (map snd fitted_list) rest;
  _ ← ColumnTransformer_hstack sparse (map (fun x => snd (snd x)) fitted_list)
        rest;
  mret (mk_Fitted (map fst fitted_list) remaining (columns X) sparse).

(** [_transform_one]: a fitted transformer transforms its columns,
    selected by label. *)
Definition transform_one (X : DataFrame) (t : string * fitted * list string)
  : result ndarray :=
  Xsub ← df_loc X t.2;
  estimator_call (transform t.1.2 Xsub).

(** The labels of the remainder columns of the fitted frame. *)
Definition remainder_columns (ft : FittedColumnTransformer) : list string :=
  omap (fun i => feature_names_in_ ft !! i) (remaining_idx ft).

(** [transform] of a frame: the remainder columns must be labels of the
    frame; then the blocks of the fitted transformers, in the order of the
    transformer list, and the remainder columns, all selected by label, are
    stacked side by side. *)
Definition ColumnTransformer_transform (ft : FittedColumnTransformer)
    (X : DataFrame) : result matrix :=
  _ ← match List.filter (fun n => negb (name_in n (columns X)))
                        (remainder_columns ft) with
      | [] => Return tt
      | n :: _ => Raise (ValueError_columns_missing n)
      end;
  Xs ← mapM (transform_one X) (transformers_ ft);
  rest ← match remainder_columns ft with
         | [] => mret None
         | names => Xrem ← df_loc X names; mret (Some (to_numpy Xrem))
         end;
  ColumnTransformer_hstack (sparse_output_ ft) Xs rest.

(** [named_transformers_.<name>] *)
Fixpoint named_transformers_ (l : list (string * fitted * list string))
    (name : string) : option fitted :=
  match l with
  | [] => None
  | (n, state, _) :: l' =>
      if String.eqb n name then Some state else named_transformers_ l' name
  end.

(** ** preproc *)

(** Lines 84-108: the transformer of automatic mode. *)
Definition transformer_auto
    (categorical_impute numerical_impute OHE standard_scale robust_scale
       : list string) : ColumnTransformer :=
  {| transformers :=
       [ ("cat_imputer", SimpleImputer "constant" (Some "missing"),
          categorical_impute);
         ("num_imputer", SimpleImputer "median" None, numerical_impute);
         ("one_hot", OneHotEncoder (Some "first"), OHE);
         ("standard_scalar", StandardScaler, standard_scale);
         ("robust_scalar", RobustScaler, robust_scale) ];
     remainder := "passthrough" |}.

(** Lines 110-134: the transformer of manual mode. *)
Definition transformer_manual
    (categorical_impute numerical_impute OHE standard_scale robust_scale
       : list string) : ColumnTransformer :=
  {| transformers :=
       [ ("cat_imputer", SimpleImputer "constant" (Some "missing"),
          categorical_impute);
         ("num_imputer", SimpleImputer "median" None, numerical_impute);
         ("one_hot", OneHotEncoder None, OHE);
         ("standard_scalar", StandardScaler, standard_scale);
         ("robust_scalar", RobustScaler, robust_scale) ];
     remainder := "passthrough" |}.

(** Lines 66-74: no manual list may be set together with [auto]. *)
Fixpoint check_manual_unset (elements : list (list string)) : result unit :=
  match elements with
  | [] => Return tt
  | element :: rest =>
      if Nat.ltb 0 (length element)
      then Raise (Exception_manual_with_auto element)
      else check_manual_unset rest
  end.

(** Lines 65-134: the column lists that are one-hot encoded and standard
    scaled, and the transformer.  In automatic mode the two calls of
    [select_dtypes] (lines 79 and 81) each create a frame. *)
Definition choose_transformer (X_train : loc) (auto : bool)
    (OHE standard_scale robust_scale numerical_impute categorical_impute
       : list string)
    (label_encode : list (string * list string))
  : py (list string * list string * ColumnTransformer) :=
  if auto then
    _ ← lift (check_manual_unset
                [OHE; standard_scale; robust_scale; numerical_impute;
                 categorical_impute]);
    let label_keys := map fst label_encode in
    _ ← (if Nat.ltb 0 (length label_keys)
         then raise Exception_label_with_auto else mret tt);
    df ← deref X_train;
    X_num ← alloc (select_dtypes df [float64; int64]);
    standard_scale ← columns <$> deref X_num;
    df ← deref X_train;
    X_cat ← alloc (select_dtypes df [object; bool_; category]);
    OHE ← columns <$> deref X_cat;
    mret (OHE, standard_scale,
          transformer_auto categorical_impute numerical_impute OHE
                           standard_scale robust_scale)
  else
    mret (OHE, standard_scale,
          transformer_manual categorical_impute numerical_impute OHE
                             standard_scale robust_scale).

(** Lines 159 and 161: [X[column] = le.transform(X[column])] on the frame
    object at [X]. *)
Definition encode_column (classes_ : list string) (column : string) (X : loc)
  : py unit :=
  df ← deref X;
  y ← lift (getitem df column);
  codes ← lift (LabelEncoder_transform_column classes_
                  (series_dtype df column) y);
  store X (setitem df column codes).

(** Lines 155-161: the loop over the items of [label_encode], in the order
    of the dict. *)
Fixpoint label_encoding (items : list (string * list string))
    (X_train : loc) (X_test : option loc) : py unit :=
  match items with
  | [] => mret tt
  | (column, labels) :: rest =>
      let le := LabelEncoder_fit labels in
      _ ← encode_column le column X_train;
      _ ← match X_test with
          | Some X_test => encode_column le column X_test
          | None => mret tt
          end;
      label_encoding rest X_train X_test
  end.

(** Lines 148-149 and 152-153: a new frame from the transformed matrix. *)
Definition transformed (ft : FittedColumnTransformer) (X : loc)
    (column_names : list string) : py loc :=
  df ← deref X;
  data ← lift (ColumnTransformer_transform ft df);
  new ← lift (DataFrame_new data column_names);
  alloc new.

(** Lines 135-162, after the transformer is chosen. *)
Definition fit_transform_encode (X_train : loc) (X_test : option loc)
    (OHE : list string) (transformer : ColumnTransformer)
    (label_encode : list (string * list string))
  : py (loc * option loc) :=
  df ← deref X_train;
  let column_names := columns df in
  ft ← lift (ColumnTransformer_fit transformer df);
  ohe_columns ←
    (if Nat.ltb 0 (length OHE)
     then match named_transformers_ (transformers_ ft) "one_hot" with
          | Some one_hot => lift (estimator_call (get_feature_names one_hot OHE))
          | None => raise (TypeError_unreachable "one_hot")
          end
     else mret []);
  let column_names :=
    filter (fun x => Is_true (negb (name_in x OHE))) column_names in
  let column_names := ohe_columns ++ column_names in
  X_train ← transformed ft X_train column_names;
  X_test ← match X_test with
           | Some X_test => Some <$> transformed ft X_test column_names
           | None => mret None
           end;
  _ ← label_encoding label_encode X_train X_test;
  mret (X_train, X_test).

(** The function. *)
Definition preproc (a : arguments) : py (loc * option loc) :=
  let args := locals a in
  _ ← lift (check_arg_types args);
  X_train ← lift (as_DataFrame "X_train" (X_train a));
  X_test ← lift (as_optional_DataFrame "X_test" (X_test a));
  auto ← lift (as_bool "auto" (auto a));
  OHE ← lift (as_names "OHE" (OHE a));
  standard_scale ← lift (as_names "standard_scale" (standard_scale a));
  robust_scale ← lift (as_names "robust_scale" (robust_scale a));
  numerical_impute ← lift (as_names "numerical_impute" (numerical_impute a));
  categorical_impute ←
    lift (as_names "categorical_impute" (categorical_impute a));
  label_encode ← lift (as_dict "label_encode" (label_encode a));
  X_train ← copy X_train;
  X_test ← match X_test with
           | Some X_test => Some <$> copy X_test
           | None => mret None
           end;
  '(OHE, standard_scale, transformer) ←
    choose_transformer X_train auto OHE standard_scale robust_scale
                       numerical_impute categorical_impute label_encode;
  fit_transform_encode X_train X_test OHE transformer label_encode.

End Transformer.

(** ** An instance of the estimators, for running examples

    One small instance on which the model can be evaluated.  The one-hot
    encoder is given for columns of strings and the standard scaler for
    columns of floats without NaN; the constant imputer takes an array of
    objects and replaces NaN (not [None]) by the fill value; the median
    imputer and the robust scaler are not given.  On other inputs the
    instance raises.  No general theorem depends on it. *)
Module Example.

Inductive state : Type :=
| FitConstant (fill : string)
| FitOneHot (drop_first : bool) (categories_ : list (list string))
| FitStandard (mean_scale : list (float * float)).

Definition strings (vs : list cell) : string + list string :=
  foldr (fun v acc =>
           match v, acc with
           | CStr s, inr l => inr (s :: l)
           | _, inl m => inl m
           | _, _ => inl "argument must be a string"
           end) (inr []) vs.

Definition floats (vs : list cell) : string + list float :=
  foldr (fun v acc =>
           match v, acc with
           | CFloat f, inr l =>
               if PrimFloat.is_nan f then inl "NaN is not given by the example"
               else inr (f :: l)
           | _, inl m => inl m
           | _, _ => inl "could not convert to float"
           end) (inr []) vs.

(** [check_array]: an array without rows is refused. *)
Definition no_rows (X : DataFrame) : bool :=
  existsb (fun c => match cvalues c with [] => true | _ => false end) X.

Definition collect {A B} (f : A -> string + B) (l : list A) : string + list B :=
  foldr (fun x acc =>
           match f x, acc with
           | inr y, inr ys => inr (y :: ys)
           | inl m, _ => inl m
           | _, inl m => inl m
           end) (inr []) l.

Definition fsum (l : list float) : float := foldl PrimFloat.add 0%float l.

(** The machine epsilon of float64, 2^-52. *)
Definition eps : float := Z.ldexp 1 (-52)%Z.

(** [StandardScaler.fit] on one column: [mean_] and [scale_].  The variance
    is the one of [_incremental_mean_and_var] (sums taken in row order); a
    column that [_is_constant_feature] finds constant is scaled by 1. *)
Definition mean_and_scale (xs : list float) : float * float :=
  let n := fsum (map (fun _ => 1%float) xs) in
  let mean := (fsum xs / n)%float in
  let temp := map (fun x => (x - mean)%float) xs in
  let correction := fsum temp in
  let unnormalized :=
    (fsum (map (fun x => (x * x)%float) temp) - correction * correction / n)%float in
  let var := (unnormalized / n)%float in
  let upper_bound :=
    (n * eps * var + (n * mean * eps) * (n * mean * eps))%float in
  (mean, if PrimFloat.leb var upper_bound then 1%float
         else PrimFloat.sqrt var).

Definition example_fit (e : estimator) (X : DataFrame) : string + state :=
  if no_rows X then inl "Found array with 0 sample(s)" else
  match e with
  | SimpleImputer "constant" (Some fill) =>
      match fst (to_numpy X) with
      | object => inr (FitConstant fill)
      | _ => inl "fill_value is invalid: expected a numerical value"
      end
  | OneHotEncoder drop =>
      match collect (fun c => strings (cvalues c)) X with
      | inr cols =>
          inr (FitOneHot (match drop with
                          | Some d => String.eqb d "first"
                          | None => false
                          end)
                         (map np_unique cols))
      | inl m => inl m
      end
  | StandardScaler =>
      match collect (fun c => floats (cvalues c)) X with
      | inr cols => inr (FitStandard (map mean_and_scale cols))
      | inl m => inl m
      end
  | _ => inl "estimator not provided"
  end.

Definition retained (drop_first : bool) (cats : list string) : list string :=
  if drop_first then tail cats else cats.

Definition indicator (cat : string) (v : cell) : cell :=
  match v with
  | CStr s => if String.eqb s cat then CFloat 1 else CFloat 0
  | _ => CFloat 0
  end.

Definition known (cats : list string) (v : cell) : bool :=
  match v with
  | CStr s => name_in s cats
  | _ => false
  end.

Definition one_hot_block (drop_first : bool) (cats : list string)
    (c : column) : string + ndarray :=
  if forallb (known cats) (cvalues c)
  then inr (map (fun cat => map (indicator cat) (cvalues c))
                (retained drop_first cats))
  else inl "Found unknown categories".

Definition scale (ms : float * float) (x : float) : cell :=
  CFloat ((x - fst ms) / snd ms).

Definition example_transform (s : state) (X : DataFrame) : string + ndarray :=
  if no_rows X then inl "Found array with 0 sample(s)" else
  match s with
  | FitConstant fill =>
      inr (map (map (fun v => match v with
                              | CFloat f => if PrimFloat.is_nan f
                                            then CStr fill else v
                              | _ => v
                              end)) (snd (to_numpy X)))
  | FitOneHot d cats =>
      if negb (Nat.eqb (length X) (length cats))
      then inl "X has another number of features than the encoder expects"
      else
      match collect (fun '(c, k) => one_hot_block d k c) (zip X cats) with
      | inr blocks => inr (concat blocks)
      | inl m => inl m
      end
  | FitStandard ms =>
      if negb (Nat.eqb (length X) (length ms))
      then inl "X has another number of features than the scaler expects"
      else
      match collect (fun c => floats (cvalues c)) X with
      | inr cols => inr (zip_with (fun xs p => map (scale p) xs) cols ms)
      | inl m => inl m
      end
  end.

Definition example_feature_names (s : state) (input_features : list string)
  : string + list string :=
  match s with
  | FitOneHot d cats =>
      if negb (Nat.eqb (length input_features) (length cats))
      then inl "input_features should have one element per feature"
      else
      inr (concat (zip_with (fun name k =>
                               map (fun cat => (name ++ "_" ++ cat)%string)
                                   (retained d k))
                            input_features cats))
  | _ => inl "no attribute get_feature_names"
  end.

#[export] Instance estimators : Estimators :=
  {| fitted := state;
     fit := example_fit;
     transform := example_transform;
     get_feature_names := example_feature_names |}.

End Example.

(** ** Vocabulary of the properties *)

(** The value [v] bound to [arg_key] has one of the permitted types. *)
Definition permitted (arg_key : string) (v : pyval) : bool :=
  type_in (type v) (dict_get arg_types arg_key []).

(** The call passes the type check of lines 55-59. *)
Definition well_typed (a : arguments) : Prop :=
  check_arg_types (locals a) = Return tt.

(** The five column-list parameters. *)
Definition list_arguments : list string :=
  ["OHE"; "standard_scale"; "robust_scale"; "numerical_impute";
   "categorical_impute"].

(** Python's [len]; [None] where it raises. *)
Definition len (v : pyval) : option nat :=
  match v with
  | PyList xs | PyTuple xs | PyNdarray xs => Some (length xs)
  | PyDict kvs => Some (length kvs)
  | PyStr s => Some (String.length s)
  | PyNone | PyBool _ | PyInt _ | PyDataFrame _ => None
  end.

Definition non_empty (v : pyval) : Prop := exists n, len v = Some (S n).

(** Some manual column list, or the label-encoding mapping, is non-empty. *)
Definition manual_set (a : arguments) : Prop :=
  non_empty (OHE a) \/ non_empty (standard_scale a) \/
  non_empty (robust_scale a) \/ non_empty (numerical_impute a) \/
  non_empty (categorical_impute a) \/ non_empty (label_encode a).

(** The frames the call refers to exist. *)
Definition refs_valid (a : arguments) (h : heap) : Prop :=
  (forall l, X_train a = PyDataFrame l -> is_Some (h !! l)) /\
  (forall l, X_test a = PyDataFrame l -> is_Some (h !! l)).

(** The content of the variables of a well-typed call. *)
Definition frame_of (v : pyval) : loc :=
  match v with PyDataFrame l => l | _ => 0 end.

Definition optional_frame_of (v : pyval) : option loc :=
  match v with PyDataFrame l => Some l | _ => None end.

Definition bool_of (v : pyval) : bool :=
  match v with PyBool b => b | _ => false end.

Definition names_of (v : pyval) : list string :=
  match v with PyList xs | PyNdarray xs => xs | _ => [] end.

Definition dict_of (v : pyval) : list (string * list string) :=
  match v with PyDict kvs => kvs | _ => [] end.

(** Lines 61-162 on the variables of a well-typed call. *)
Definition preproc_checked {E : Estimators} (a : arguments)
  : py (loc * option loc) :=
  X_train ← copy (frame_of (X_train a));
  X_test ← match optional_frame_of (X_test a) with
           | Some X_test => Some <$> copy X_test
           | None => mret None
           end;
  '(OHE, standard_scale, transformer) ←
    choose_transformer X_train (bool_of (auto a)) (names_of (OHE a))
      (names_of (standard_scale a)) (names_of (robust_scale a))
      (names_of (numerical_impute a)) (names_of (categorical_impute a))
      (dict_of (label_encode a));
  fit_transform_encode X_train X_test OHE transformer
    (dict_of (label_encode a)).

(** *** The same computation on frames, without the heap

    The programs above act on frame objects.  The functions below compute
    the content of those objects; the refinement lemmas relate the two. *)

(** One assignment of the encoding loop, on the content of the frame. *)
Definition encode_frame (classes_ : list string) (column : string)
    (df : DataFrame) : result DataFrame :=
  y ← getitem df column;
  codes ← LabelEncoder_transform_column classes_ (series_dtype df column) y;
  mret (setitem df column codes).

(** The encoding loop on the content of the train and test frames. *)
Fixpoint encode_frames (items : list (string * list string))
    (train : DataFrame) (test : option DataFrame)
  : result (DataFrame * option DataFrame) :=
  match items with
  | [] => Return (train, test)
  | (column, labels) :: rest =>
      let le := LabelEncoder_fit labels in
      train' ← encode_frame le column train;
      test' ← match test with
              | Some t => t' ← encode_frame le column t; mret (Some t')
              | None => mret None
              end;
      encode_frames rest train' test'
  end.

(** A value is one of the caller's labels. *)
Definition listed (labels : list string) (v : cell) : Prop :=
  exists s, v = CStr s /\ In s labels.

(** The column of [df] labelled [column] holds a value that is not listed. *)
Definition has_unseen (labels : list string) (df : DataFrame)
    (column : string) : Prop :=
  exists y v, getitem df column = Return y /\ In v y /\ ~ listed labels v.

(** Some column named in the mapping holds, in the train frame or in the
    test frame, a value that is not in its list. *)
Definition some_unseen (items : list (string * list string))
    (train : DataFrame) (test : option DataFrame) : Prop :=
  exists column labels,
    In (column, labels) items /\
    (has_unseen labels train column \/
     exists t, test = Some t /\ has_unseen labels t column).

(** Every column named in the mapping is one column of the frame. *)
Definition names_columns_of (items : list (string * list string))
    (df : DataFrame) : Prop :=
  forall column labels,
    In (column, labels) items -> exists y, getitem df column = Return y.

(** An optional address is one of the objects allocated after the first
    [n]. *)
Definition fresh_option (n : nat) (o : option loc) : Prop :=
  forall l, o = Some l -> n <= l.

(** The transformer of lines 65-134, given the content of the train
    frame. *)
Definition chosen (auto : bool) (df : DataFrame)
    (OHE standard_scale robust_scale numerical_impute categorical_impute
       : list string)
    (label_encode : list (string * list string))
  : result (list string * list string * ColumnTransformer) :=
  if auto then
    _ ← check_manual_unset
          [OHE; standard_scale; robust_scale; numerical_impute;
           categorical_impute];
    _ ← (if Nat.ltb 0 (length (map fst label_encode))
         then Raise Exception_label_with_auto else Return tt);
    let standard_scale := columns (select_dtypes df [float64; int64]) in
    let OHE := columns (select_dtypes df [object; bool_; category]) in
    mret (OHE, standard_scale,
          transformer_auto categorical_impute numerical_impute OHE
                           standard_scale robust_scale)
  else
    mret (OHE, standard_scale,
          transformer_manual categorical_impute numerical_impute OHE
                             standard_scale robust_scale).

(** The frames lines 79 and 81 create in automatic mode. *)
Definition temporaries (auto : bool) (df : DataFrame) : heap :=
  if auto
  then [ select_dtypes df [float64; int64];
         select_dtypes df [object; bool_; category] ]
  else [].

(** The objects a call allocates before its outputs: the copies of its
    inputs and, in automatic mode, the two selections. *)
Definition allocated (auto : bool) (df : DataFrame) (dft : option DataFrame)
  : heap :=
  (df :: match dft with Some t => [t] | None => [] end) ++ temporaries auto df.

(** The entries of a transformer that are fitted: those that list a
    column. *)
Definition fitted_entries (t : ColumnTransformer)
  : list (string * estimator * list string) :=
  filter (fun e => Is_true (nonempty e)) (transformers t).

Section Content.
Context {E : Estimators}.

(** [state] is what the estimator of the entry [e] learns from its columns
    of the frame [df]. *)
Definition fitted_on (df : DataFrame) (e : string * estimator * list string)
    (state : fitted) : Prop :=
  exists Xsub, select df e.2 = Return Xsub /\ fit e.1.2 Xsub = inr state.

(** [block] is what the fitted estimator [es.2] of the entry [es.1] makes of
    the columns of the entry in the frame [df]. *)
Definition block_of (df : DataFrame)
    (es : string * estimator * list string * fitted) (block : ndarray)
  : Prop :=
  exists Xsub, df_loc df es.1.2 = Return Xsub /\ transform es.2 Xsub = inr block.

(** The content of the frame [transformed] allocates. *)
Definition transformed_frame (ft : FittedColumnTransformer) (df : DataFrame)
    (column_names : list string) : result DataFrame :=
  data ← ColumnTransformer_transform ft df;
  DataFrame_new data column_names.

(** The content of the frames [fit_transform_encode] returns. *)
Definition outputs (OHE : list string) (transformer : ColumnTransformer)
    (label_encode : list (string * list string))
    (df : DataFrame) (dft : option DataFrame)
  : result (DataFrame * option DataFrame) :=
  ft ← ColumnTransformer_fit transformer df;
  ohe_columns ←
    (if Nat.ltb 0 (length OHE)
     then match named_transformers_ (transformers_ ft) "one_hot" with
          | Some one_hot => estimator_call (get_feature_names one_hot OHE)
          | None => Raise (TypeError_unreachable "one_hot")
          end
     else Return []);
  let column_names :=
    ohe_columns ++
    filter (fun x => Is_true (negb (name_in x OHE))) (columns df) in
  train ← transformed_frame ft df column_names;
  test ← match dft with
         | Some d => t ← transformed_frame ft d column_names; mret (Some t)
         | None => mret None
         end;
  encode_frames label_encode train test.

(** The content of the frames a well-typed call returns, given the content
    of its train and test frames. *)
Definition preproc_frames (a : arguments) (df : DataFrame)
    (dft : option DataFrame) : result (DataFrame * option DataFrame) :=
  '(OHE, standard_scale, transformer) ←
    chosen (bool_of (auto a)) df (names_of (OHE a))
      (names_of (standard_scale a)) (names_of (robust_scale a))
      (names_of (numerical_impute a)) (names_of (categorical_impute a))
      (dict_of (label_encode a));
  outputs OHE transformer (dict_of (label_encode a)) df dft.

End Content.

(** The objects a run allocates for a train frame and an optional test
    frame, in order. *)
Definition new_objects (o1 : DataFrame) (o2 : option DataFrame) : heap :=
  o1 :: match o2 with Some t => [t] | None => [] end.

(** The variable [X_test] is bound to the frame of content [dft], or to
    [None]. *)
Definition test_content (h : heap) (X_test : option loc)
    (dft : option DataFrame) : Prop :=
  match X_test, dft with
  | Some l, Some d => h !! l = Some d
  | None, None => True
  | _, _ => False
  end.

(** The call [a] with another test table. *)
Definition with_X_test (a : arguments) (v : pyval) : arguments :=
  {| X_train := X_train a; X_test := v; auto := auto a; OHE := OHE a;
     standard_scale := standard_scale a; robust_scale := robust_scale a;
     numerical_impute := numerical_impute a;
     categorical_impute := categorical_impute a;
     label_encode := label_encode a |}.

(** The train and test variables of the loop point to these contents. *)
Definition points_to (h : heap) (X_train : loc) (X_test : option loc)
    (train : DataFrame) (test : option DataFrame) : Prop :=
  h !! X_train = Some train /\
  match X_test, test with
  | Some l, Some t => h !! l = Some t /\ X_train <> l
  | None, None => True
  | _, _ => False
  end.

(** The program [m] leaves the first [n] objects of the heap as they are,
    removes none, and returns values satisfying [Q]. *)
Definition frame {A} (n : nat) (Q : A -> Prop) (m : py A) : Prop :=
  forall h, n <= length h ->
    take n (run m h).2 = take n h /\
    length h <= length (run m h).2 /\
    match (run m h).1 with
    | Return x => Q x
    | Raise _ => True
    end.

(** The dtype classes of automatic mode: what line 79 selects, and what
    lines 81-82 select. *)
Definition float64_or_int64 (c : column) : Prop :=
  cdtype c = float64 \/ cdtype c = int64.

Definition categorical (c : column) : Prop :=
  cdtype c = object \/ cdtype c = bool_ \/ cdtype c = category.

#[global] Instance float64_or_int64_dec c : Decision (float64_or_int64 c).
Proof. unfold float64_or_int64. solve_decision. Defined.

#[global] Instance categorical_dec c : Decision (categorical c).
Proof. unfold categorical. solve_decision. Defined.

(** The columns of the other dtypes: neither selection of automatic mode
    includes them. *)
Definition passed_through (c : column) : Prop :=
  cdtype c = float32 \/ cdtype c = int32 \/ cdtype c = datetime64.

#[global] Instance passed_through_dec c : Decision (passed_through c).
Proof. unfold passed_through. solve_decision. Defined.

(** A column of numbers in the usual sense: integers or floats of either
    width. *)
Definition numeric (c : column) : Prop :=
  cdtype c = float64 \/ cdtype c = int64 \/
  cdtype c = float32 \/ cdtype c = int32.

(** *** The feature names of scikit-learn's one-hot encoder *)

(** The strings among the cells of a column. *)
Definition cell_strings (vs : list cell) : list string :=
  omap (fun v => match v with CStr s => Some s | _ => None end) vs.

(** [categories_] of a column of strings: its distinct values, sorted. *)
Definition categories_ (c : column) : list string :=
  np_unique (cell_strings (cvalues c)).

(** The categories that get an indicator column: with [drop='first'] all
    but the first. *)
Definition kept (drop : option string) (cats : list string) : list string :=
  match drop with
  | Some d => if String.eqb d "first" then tail cats else cats
  | None => cats
  end.

(** [get_feature_names(input_features)] after a fit on [X]: for every
    column, in order, the name of the column, an underscore and the
    category, for every kept category in sorted order. *)
Definition feature_names (drop : option string) (input_features : list string)
    (X : DataFrame) : list string :=
  concat (zip_with (fun name c =>
                      map (fun cat => (name ++ "_" ++ cat)%string)
                          (kept drop (categories_ c)))
                   input_features X).

(** Every cell of the frame is a string. *)
Definition holds_strings (X : DataFrame) : Prop :=
  Forall (fun c => Forall (fun v => exists s, v = CStr s) (cvalues c)) X.

(** The law of scikit-learn's encoder that the properties about one-hot
    labels assume of an instance: fitted on columns of strings, built
    without [drop] or with [drop='first'], it names its features as
    [feature_names] says. *)
Definition names_as_scikit_learn (E : Estimators) : Prop :=
  forall (drop : option string) (X : DataFrame) (state : fitted),
    drop = None \/ drop = Some "first" ->
    holds_strings X ->
    fit (OneHotEncoder drop) X = inr state ->
    get_feature_names state (columns X) =
      inr (feature_names drop (columns X) X).

(** *** Frames as arrays *)

(** [pd.DataFrame(np.asarray(df), columns=df.columns)]: the frame with its
    values converted to the common dtype of its columns. *)
Definition as_array (df : DataFrame) : DataFrame :=
  zip_with (fun c vs => Column (cname c) (fst (to_numpy df)) vs)
           df (snd (to_numpy df)).

(** The frames whose array holds their values as they are: all columns
    have one dtype, or the common dtype is [object]. *)
Definition no_conversion (df : DataFrame) : Prop :=
  (exists d, Forall (fun c => cdtype c = d) df) \/
  fst (to_numpy df) = object.

(** Every column of [df] named in the mapping has dtype [object] (or
    [category]): the encoder sees its values as objects. *)
Definition held_as_objects (items : list (string * list string))
    (df : DataFrame) : Prop :=
  forall c, In c df -> In (cname c) (map fst items) ->
            cdtype c = object \/ cdtype c = category.

(** *** Vocabulary of the further properties *)

(** The order of [np.unique] on labels. *)
Definition label_lt (s1 s2 : string) : Prop := String.compare s1 s2 = Lt.

(** A list of labels is strictly increasing. *)
Fixpoint increasing (l : list string) : Prop :=
  match l with
  | [] => True
  | x :: l' => Forall (label_lt x) l' /\ increasing l'
  end.

(** [code] is the integer that [classes_] decodes to the string [v]:
    [classes_[code] == v], what [inverse_transform] computes. *)
Definition decodes (classes_ : list string) (v code : cell) : Prop :=
  exists s i, v = CStr s /\ code = CInt (Z.of_nat i) /\ classes_ !! i = Some s.

(** What the encoding loop does to one frame: the labels stay, every
    column named in the mapping holds, row by row, the code that decodes to
    the value it held, and every other column is as it was. *)
Definition encoded (items : list (string * list string))
    (before after : DataFrame) : Prop :=
  columns after = columns before /\
  (forall c labels,
      In (c, labels) items ->
      exists y codes,
        getitem before c = Return y /\ getitem after c = Return codes /\
        Forall2 (decodes (LabelEncoder_fit labels)) y codes) /\
  (forall c, ~ In c (map fst items) -> getitem after c = getitem before c).

(** Two mappings with the same keys in the same order and, key by key, the
    same set of labels. *)
Definition same_labels (D1 D2 : list (string * list string)) : Prop :=
  Forall2 (fun kv1 kv2 =>
             kv1.1 = kv2.1 /\ forall x, In x kv1.2 <-> In x kv2.2) D1 D2.

(** The call with every default but the label-encoding mapping. *)
Definition label_only (X_train X_test : pyval)
    (D : list (string * list string)) : arguments :=
  {| X_train := X_train; X_test := X_test; auto := PyBool false;
     OHE := PyList []; standard_scale := PyList [];
     robust_scale := PyList []; numerical_impute := PyList [];
     categorical_impute := PyList []; label_encode := PyDict D |}.

(** The columns a well-typed call one-hot encodes: in automatic mode the
    columns line 81-83 select, in manual mode the caller's list. *)
Definition one_hot_list (a : arguments) (df : DataFrame) : list string :=
  if bool_of (auto a)
  then columns (select_dtypes df [object; bool_; category])
  else names_of (OHE a).

(** The columns a manual call lists, in the order of the transformer list
    of lines 110-134. *)
Definition listed_columns (a : arguments) : list string :=
  names_of (categorical_impute a) ++ names_of (numerical_impute a) ++
  names_of (OHE a) ++ names_of (standard_scale a) ++
  names_of (robust_scale a).

(** The five manual lists in the order of the loop of lines 66-71. *)
Definition manual_lists (a : arguments) : list (list string) :=
  [ names_of (OHE a); names_of (standard_scale a);
    names_of (robust_scale a); names_of (numerical_impute a);
    names_of (categorical_impute a) ].

(** The exceptions raised after the type check by the code and the
    libraries: not the type error, and not one of the two exceptions the
    model uses for states Python cannot be in. *)
Definition raised_after_check (e : exn) : Prop :=
  match e with
  | ValueError_arg_type _ _ _ | TypeError_unreachable _ | Dangling _ => False
  | _ => True
  end.

(** A library call raises only what is raised after the type check. *)
Definition raises_ok {A} (r : result A) : Prop :=
  forall e, r = Raise e -> raised_after_check e.

(** ** Scenarios *)

Module Scenario.

(** A table with a grade column, and the mapping of the specification's
    label-encoding scenario. *)
Definition grades : DataFrame :=
  [ Column "grade" object [CStr "A"; CStr "F"] ].

Definition encode_grades : arguments :=
  {| X_train := PyDataFrame 0; X_test := PyNone; auto := PyBool false;
     OHE := PyList []; standard_scale := PyList [];
     robust_scale := PyList []; numerical_impute := PyList [];
     categorical_impute := PyList [];
     label_encode := PyDict [("grade", ["F"; "D"; "C"; "B"; "A"])] |}.

(** A table whose second column is standard scaled. *)
Definition two_columns : DataFrame :=
  [ Column "a" float64 [CFloat 10; CFloat 20];
    Column "b" float64 [CFloat 1; CFloat 3] ].

Definition scale_b : arguments :=
  {| X_train := PyDataFrame 0; X_test := PyNone; auto := PyBool false;
     OHE := PyList []; standard_scale := PyList ["b"];
     robust_scale := PyList []; numerical_impute := PyList [];
     categorical_impute := PyList []; label_encode := PyDict [] |}.

(** A table with a numeric and a categorical column. *)
Definition people : DataFrame :=
  [ Column "age" float64 [CFloat 30; CFloat 40; CFloat 50];
    Column "city" object [CStr "NY"; CStr "LA"; CStr "NY"] ].

(** Automatic mode together with a one-hot list given as a tuple. *)
Definition auto_with_tuple : arguments :=
  {| X_train := PyDataFrame 0; X_test := PyNone; auto := PyBool true;
     OHE := PyTuple ["city"]; standard_scale := PyList [];
     robust_scale := PyList []; numerical_impute := PyList [];
     categorical_impute := PyList []; label_encode := PyDict [] |}.

(** Automatic mode together with a one-hot list. *)
Definition auto_with_list : arguments :=
  {| X_train := PyDataFrame 0; X_test := PyNone; auto := PyBool true;
     OHE := PyList ["city"]; standard_scale := PyList [];
     robust_scale := PyList []; numerical_impute := PyList [];
     categorical_impute := PyList []; label_encode := PyDict [] |}.

(** The train table passed as a plain list. *)
Definition list_as_table : arguments :=
  defaults (PyList ["age"]) PyNone.

(** Automatic mode with every other default. *)
Definition automatic : arguments :=
  {| X_train := PyDataFrame 0; X_test := PyNone; auto := PyBool true;
     OHE := PyList []; standard_scale := PyList [];
     robust_scale := PyList []; numerical_impute := PyList [];
     categorical_impute := PyList []; label_encode := PyDict [] |}.

(** The objects after the automatic call on the table of people, with the
    example estimators: the table, its copy, the two selections of lines 79
    and 81, and the output. *)
Definition people_automatic : DataFrame :=
  [ Column "city_NY" float64 [CFloat 1; CFloat 0; CFloat 1];
    Column "age" float64
      [CFloat (-0x1.3988e1409212ep+0); CFloat 0; CFloat 0x1.3988e1409212ep+0] ].

Definition after_automatic : list DataFrame :=
  [ people; people;
    [ Column "age" float64 [CFloat 30; CFloat 40; CFloat 50] ];
    [ Column "city" object [CStr "NY"; CStr "LA"; CStr "NY"] ];
    people_automatic ].

(** The manual call that one-hot encodes the city. *)
Definition one_hot_city : arguments :=
  {| X_train := PyDataFrame 0; X_test := PyNone; auto := PyBool false;
     OHE := PyList ["city"]; standard_scale := PyList [];
     robust_scale := PyList []; numerical_impute := PyList [];
     categorical_impute := PyList []; label_encode := PyDict [] |}.

(** A table with a single-precision column. *)
Definition single_precision : DataFrame :=
  [ Column "x" float32 [CFloat 1.5; CFloat 2.5] ].

(** A table with the integer 2^53 + 1 beside a float column. *)
Definition big_integer : DataFrame :=
  [ Column "n" int64 [CInt 9007199254740993];
    Column "x" float64 [CFloat 0.5] ].

(** A test table with the same columns. *)
Definition small_integer : DataFrame :=
  [ Column "n" int64 [CInt 3]; Column "x" float64 [CFloat 2.5] ].

(** A table whose two columns have the same label. *)
Definition twice_a : DataFrame :=
  [ Column "a" float64 [CFloat 1]; Column "a" float64 [CFloat 2] ].



(** A test table for the table whose second column is scaled, at address
    1. *)
Definition two_columns_test : DataFrame :=
  [ Column "a" float64 [CFloat 0; CFloat 100];
    Column "b" float64 [CFloat 5; CFloat 2] ].

Definition scale_b_with_test : arguments :=
  with_X_test scale_b (PyDataFrame 1).

(** The two tables as the objects 0 and 1, and what the example scaler
    makes of them when it is fitted on the first: the mean of its column b
    is 2 and the deviation 1. *)
Definition two_tables : list DataFrame := [two_columns; two_columns_test].

Definition scaled_train : DataFrame :=
  [ Column "a" float64 [CFloat (-1); CFloat 1];
    Column "b" float64 [CFloat 10; CFloat 20] ].

Definition scaled_test : DataFrame :=
  [ Column "a" float64 [CFloat 3; CFloat 0];
    Column "b" float64 [CFloat 0; CFloat 100] ].

End Scenario.

(** ** Scenarios of the further properties *)

Module Further.

(** The mapping of the grade scenario, and the same labels in sorted
    order. *)
Definition grade_mapping : list (string * list string) :=
  [("grade", ["F"; "D"; "C"; "B"; "A"])].

Definition grade_mapping_sorted : list (string * list string) :=
  [("grade", ["A"; "B"; "C"; "D"; "F"])].


(** The table of the scaling scenario with the scaled column first. *)
Definition scaled_first : DataFrame :=
  [ Column "b" float64 [CFloat 1; CFloat 3] ].

Definition unlisted_last : DataFrame :=
  [ Column "n" int64 [CInt 9007199254740993; CInt 2] ].

(** A call that label-encodes the city. *)
Definition city_mapping : list (string * list string) :=
  [("city", ["NY"; "LA"])].

(** The transformer of a manual call that one-hot encodes [city], fitted on
    the table of people by the example estimators. *)
Definition fitted_people : FittedColumnTransformer (E := Example.estimators) :=
  match ColumnTransformer_fit (E := Example.estimators)
          (transformer_manual [] [] ["city"] [] []) Scenario.people with
  | Return ft => ft
  | Raise _ => mk_Fitted [] [] [] false
  end.

End Further.

(** * Properties *)

(** ** Evaluation rules of the monad *)

Section Rules.
Context {A B : Type}.

Lemma run_bind (m : py A) (f : A -> py B) (h : heap) :
  run (m ≫= f) h =
  match run m h with
  | (Raise e, h') => (Raise e, h')
  | (Return x, h') => run (f x) h'
  end.
Proof. reflexivity. Qed.

Lemma run_bind_return (m : py A) (f : A -> py B) (h h' : heap) (x : A) :
  run m h = (Return x, h') -> run (m ≫= f) h = run (f x) h'.
Proof. intros Hm. rewrite run_bind, Hm. reflexivity. Qed.

Lemma run_bind_raise (m : py A) (f : A -> py B) (h h' : heap) (e : exn) :
  run m h = (Raise e, h') -> run (m ≫= f) h = (Raise e, h').
Proof. intros Hm. rewrite run_bind, Hm. reflexivity. Qed.

Lemma run_lift (r : result A) (h : heap) : run (lift r) h = (r, h).
Proof. reflexivity. Qed.

Lemma run_ret (x : A) (h : heap) : run (mret x) h = (Return x, h).
Proof. reflexivity. Qed.

End Rules.

Lemma mapM_Return {A B} (f : A -> result B) (l : list A) (k : list B) :
  mapM f l = Return k -> Forall2 (fun x y => f x = Return y) l k.
Proof.
  revert k. induction l as [|x l IH]; intros k.
  - intros [= <-]. constructor.
  - cbn [mapM]. destruct (f x) as [e|y] eqn:Hx; [discriminate|].
    cbn [mbind result_bind].
    destruct (mapM f l) as [e|ys]; [discriminate|].
    intros [= <-]. constructor; [exact Hx|]. apply IH. reflexivity.
Qed.

Lemma run_deref (l : loc) (h : heap) (df : DataFrame) :
  h !! l = Some df -> run (deref l) h = (Return df, h).
Proof. intros Hl. unfold run, deref. rewrite Hl. reflexivity. Qed.

Lemma run_copy (l : loc) (h : heap) (df : DataFrame) :
  h !! l = Some df -> run (copy l) h = (Return (length h), h ++ [df]).
Proof.
  intros Hl. unfold copy.
  rewrite (run_bind_return _ _ _ _ _ (run_deref _ _ _ Hl)). reflexivity.
Qed.

Lemma run_alloc (df : DataFrame) (h : heap) :
  run (alloc df) h = (Return (length h), h ++ [df]).
Proof. reflexivity. Qed.

(** Reading a frame that was just allocated. *)
Lemma run_read_new {A} (g : DataFrame -> A) (h : heap) (df : DataFrame) :
  run (g <$> deref (length h)) (h ++ [df]) = (Return (g df), h ++ [df]).
Proof.
  unfold fmap, py_fmap.
  assert (Hl : (h ++ [df]) !! length h = Some df).
  { rewrite lookup_app_r by lia. rewrite Nat.sub_diag. reflexivity. }
  rewrite (run_bind_return _ _ _ _ _ (run_deref _ _ _ Hl)). reflexivity.
Qed.

(** ** The type check *)

Lemma check_arg_types_cons (k : string) (v : pyval)
    (args : list (string * pyval)) :
  check_arg_types ((k, v) :: args) =
  if permitted k v then check_arg_types args
  else Raise (ValueError_arg_type k (dict_get arg_types k []) (type v)).
Proof. unfold permitted. simpl. destruct (type_in _ _); reflexivity. Qed.

(** The loop stops at the first argument that is not permitted. *)
Lemma check_arg_types_first (args : list (string * pyval)) :
  Exists (fun kv => permitted kv.1 kv.2 = false) args ->
  exists pre k v post,
    args = pre ++ (k, v) :: post /\
    Forall (fun kv => permitted kv.1 kv.2 = true) pre /\
    permitted k v = false /\
    check_arg_types args =
      Raise (ValueError_arg_type k (dict_get arg_types k []) (type v)).
Proof.
  induction args as [|[k v] args IH]; intros Hex.
  - inversion Hex.
  - destruct (permitted k v) eqn:Hp.
    + assert (Hrest : Exists (fun kv => permitted kv.1 kv.2 = false) args).
      { inversion Hex as [? ? Hhd|]; subst; [|assumption].
        simpl in Hhd. congruence. }
      destruct (IH Hrest) as (pre & k' & v' & post & -> & Hpre & Hv & Hc).
      exists ((k, v) :: pre), k', v', post. repeat split; try assumption.
      * constructor; assumption.
      * rewrite check_arg_types_cons, Hp. exact Hc.
    + exists [], k, v, args. repeat split; try assumption.
      * constructor.
      * rewrite check_arg_types_cons, Hp. reflexivity.
Qed.

Lemma check_arg_types_passes (args : list (string * pyval)) :
  check_arg_types args = Return tt <->
  Forall (fun kv => permitted kv.1 kv.2 = true) args.
Proof.
  induction args as [|[k v] args IH].
  - split; [constructor | reflexivity].
  - rewrite check_arg_types_cons. destruct (permitted k v) eqn:Hp.
    + rewrite IH. split.
      * intros H. constructor; assumption.
      * intros H. inversion H; assumption.
    + split; [discriminate|]. intros H. inversion H; subst.
      simpl in *. congruence.
Qed.

(** What the check establishes about each variable. *)
Lemma permitted_DataFrame (v : pyval) :
  permitted "X_train" v = true ->
  as_DataFrame "X_train" v = Return (frame_of v).
Proof. destruct v; vm_compute; congruence. Qed.

Lemma permitted_optional_DataFrame (v : pyval) :
  permitted "X_test" v = true ->
  as_optional_DataFrame "X_test" v = Return (optional_frame_of v).
Proof. destruct v; vm_compute; congruence. Qed.

Lemma permitted_bool (v : pyval) :
  permitted "auto" v = true -> as_bool "auto" v = Return (bool_of v).
Proof. destruct v; vm_compute; congruence. Qed.

Lemma permitted_names (k : string) (v : pyval) :
  In k list_arguments -> permitted k v = true ->
  as_names k v = Return (names_of v).
Proof.
  unfold list_arguments. simpl.
  intros [<-|[<-|[<-|[<-|[<-|[]]]]]]; destruct v; vm_compute; congruence.
Qed.

Lemma permitted_dict (v : pyval) :
  permitted "label_encode" v = true ->
  as_dict "label_encode" v = Return (dict_of v).
Proof. destruct v; vm_compute; congruence. Qed.

Lemma well_typed_permitted (a : arguments) :
  well_typed a ->
  permitted "X_train" (X_train a) = true /\
  permitted "X_test" (X_test a) = true /\
  permitted "auto" (auto a) = true /\
  permitted "OHE" (OHE a) = true /\
  permitted "standard_scale" (standard_scale a) = true /\
  permitted "robust_scale" (robust_scale a) = true /\
  permitted "numerical_impute" (numerical_impute a) = true /\
  permitted "categorical_impute" (categorical_impute a) = true /\
  permitted "label_encode" (label_encode a) = true.
Proof.
  unfold well_typed. rewrite check_arg_types_passes. unfold locals.
  intros H. repeat (apply Forall_cons in H; destruct H as [? H]).
  simpl in *. tauto.
Qed.

Section Claims.
Context {E : Estimators}.

(** A well-typed call runs lines 61-162 on the checked variables. *)
Lemma preproc_well_typed (a : arguments) (h : heap) :
  well_typed a -> run (preproc a) h = run (preproc_checked a) h.
Proof.
  intros Hwt.
  destruct (well_typed_permitted a Hwt)
    as (H1 & H2 & H3 & H4 & H5 & H6 & H7 & H8 & H9).
  unfold preproc, preproc_checked. unfold well_typed in Hwt. rewrite Hwt.
  rewrite (permitted_DataFrame _ H1), (permitted_optional_DataFrame _ H2),
    (permitted_bool _ H3), (permitted_dict _ H9).
  rewrite (permitted_names "OHE" _ ltac:(vm_compute; tauto) H4).
  rewrite (permitted_names "standard_scale" _ ltac:(vm_compute; tauto) H5).
  rewrite (permitted_names "robust_scale" _ ltac:(vm_compute; tauto) H6).
  rewrite (permitted_names "numerical_impute" _ ltac:(vm_compute; tauto) H7).
  rewrite (permitted_names "categorical_impute" _ ltac:(vm_compute; tauto) H8).
  reflexivity.
Qed.

(** A call that fails the type check raises there, with the heap as it
    was. *)
Lemma preproc_type_error (a : arguments) (h : heap) (e : exn) :
  check_arg_types (locals a) = Raise e ->
  run (preproc a) h = (Raise e, h).
Proof.
  intros Hc. unfold preproc.
  apply run_bind_raise. rewrite run_lift, Hc. reflexivity.
Qed.

(** C5: when some argument has a type outside its permitted set, the call
    raises the type error of the first such argument, in the order of the
    parameters; the error names the argument, the permitted types and the
    actual type, and the heap is untouched: nothing was copied, fitted or
    transformed. *)
Theorem type_mismatch_first_violation (a : arguments) (h : heap) :
  (exists k v, In (k, v) (locals a) /\ permitted k v = false) ->
  exists pre k v post,
    locals a = pre ++ (k, v) :: post /\
    Forall (fun kv => permitted kv.1 kv.2 = true) pre /\
    permitted k v = false /\
    run (preproc a) h =
      (Raise (ValueError_arg_type k (dict_get arg_types k []) (type v)), h) /\
    TypeMismatch (ValueError_arg_type k (dict_get arg_types k []) (type v)).
Proof.
  intros (k & v & Hin & Hp).
  assert (Hex : Exists (fun kv => permitted kv.1 kv.2 = false) (locals a)).
  { apply Exists_exists. exists (k, v). split; [|exact Hp].
    apply list_elem_of_In. exact Hin. }
  destruct (check_arg_types_first _ Hex) as (pre & k' & v' & post & Hl & Hpre & Hv & Hc).
  exists pre, k', v', post. repeat split; try assumption.
  apply preproc_type_error. exact Hc.
Qed.

(** C10: each of the five column-list parameters passes the type check
    exactly when its value is a [list] or a numpy array; with any other
    value, a tuple of column names included, the call raises the type
    error. *)
Theorem only_list_or_ndarray (a : arguments) (h : heap) (k : string)
    (v : pyval) :
  In (k, v) (locals a) -> In k list_arguments ->
  (permitted k v = true <-> type v = T_list \/ type v = T_ndarray) /\
  (type v <> T_list -> type v <> T_ndarray ->
   exists e, run (preproc a) h = (Raise e, h) /\ TypeMismatch e).
Proof.
  intros Hin Hk.
  assert (Hperm : permitted k v = true <-> type v = T_list \/ type v = T_ndarray).
  { unfold list_arguments in Hk. simpl in Hk.
    destruct Hk as [<-|[<-|[<-|[<-|[<-|[]]]]]];
      destruct v; vm_compute; split; intros; try discriminate;
      try reflexivity; auto; intuition discriminate. }
  split; [exact Hperm|].
  intros Hl Hn.
  assert (Hp : permitted k v = false).
  { destruct (permitted k v); [|reflexivity].
    destruct Hperm as [Hperm _]. specialize (Hperm eq_refl). tauto. }
  assert (Hex : Exists (fun kv => permitted kv.1 kv.2 = false) (locals a)).
  { apply Exists_exists. exists (k, v). split; [|exact Hp].
    apply list_elem_of_In. exact Hin. }
  destruct (check_arg_types_first _ Hex)
    as (pre & k' & v' & post & _ & _ & _ & Hc).
  eexists. split; [apply preproc_type_error; exact Hc|exact I].
Qed.

(** Automatic mode with a manual setting raises before it reads the
    table. *)
Lemma choose_transformer_conflict (l : loc) (h : heap)
    (O S R N C : list string) (D : list (string * list string)) :
  O <> [] \/ S <> [] \/ R <> [] \/ N <> [] \/ C <> [] \/ D <> [] ->
  exists e,
    run (choose_transformer l true O S R N C D) h = (Raise e, h) /\
    ConfigConflict e.
Proof.
  intros H. unfold choose_transformer.
  destruct O as [|o O]; [|eexists; split; [reflexivity|exact I]].
  destruct S as [|s S]; [|eexists; split; [reflexivity|exact I]].
  destruct R as [|r R]; [|eexists; split; [reflexivity|exact I]].
  destruct N as [|n N]; [|eexists; split; [reflexivity|exact I]].
  destruct C as [|c C]; [|eexists; split; [reflexivity|exact I]].
  destruct D as [|d D]; [|eexists; split; [reflexivity|exact I]].
  exfalso. intuition congruence.
Qed.

Lemma non_empty_names (k : string) (v : pyval) :
  In k list_arguments -> permitted k v = true -> non_empty v ->
  names_of v <> [].
Proof.
  unfold list_arguments. simpl.
  intros [<-|[<-|[<-|[<-|[<-|[]]]]]] Hp [n Hn];
    destruct v as [| | | |xs|xs|xs| |]; try discriminate Hp;
    try discriminate Hn; destruct xs; simpl in *; congruence.
Qed.

Lemma non_empty_dict (v : pyval) :
  permitted "label_encode" v = true -> non_empty v -> dict_of v <> [].
Proof.
  intros Hp [n Hn]. destruct v as [| | | | | | |kvs|]; try discriminate Hp.
  destruct kvs; simpl in *; congruence.
Qed.

(** The copies of lines 61-63. *)
Lemma run_copies (a : arguments) (h : heap) :
  permitted "X_train" (X_train a) = true ->
  permitted "X_test" (X_test a) = true ->
  refs_valid a h ->
  exists df copies,
    h !! frame_of (X_train a) = Some df /\
    Forall (fun c => In c h) (df :: copies) /\
    forall B (k : loc -> option loc -> py B),
      run (X_train ← copy (frame_of (X_train a));
           X_test ← match optional_frame_of (X_test a) with
                    | Some X_test => Some <$> copy X_test
                    | None => mret None
                    end;
           k X_train X_test) h =
      run (k (length h)
             (match optional_frame_of (X_test a) with
              | Some _ => Some (S (length h))
              | None => None
              end)) (h ++ df :: copies).
Proof.
  intros H1 H2 [Htrain Htest].
  destruct (X_train a) as [| | | | | | | |l] eqn:Hx; try discriminate H1.
  destruct (Htrain l eq_refl) as [df Hdf]. simpl.
  destruct (X_test a) as [| | | | | | | |lt] eqn:Ht; try discriminate H2.
  - exists df, []. split; [exact Hdf|]. split.
    + repeat constructor. eapply list_elem_of_In, list_elem_of_lookup_2, Hdf.
    + intros B k. simpl.
      rewrite (run_bind_return _ _ _ _ _ (run_copy _ _ _ Hdf)). reflexivity.
  - destruct (Htest lt eq_refl) as [dft Hdft].
    exists df, [dft]. split; [exact Hdf|]. split.
    + repeat constructor; eapply list_elem_of_In, list_elem_of_lookup_2; eassumption.
    + intros B k. simpl.
      rewrite (run_bind_return _ _ _ _ _ (run_copy _ _ _ Hdf)).
      assert (Hdft' : (h ++ [df]) !! lt = Some dft).
      { apply lookup_app_l_Some. exact Hdft. }
      unfold fmap, py_fmap.
      rewrite (run_bind_return _ _ _ _ _
                 (run_bind_return _ _ _ _ _ (run_copy _ _ _ Hdft'))).
      rewrite length_app, <- app_assoc. simpl.
      replace (length h + 1) with (S (length h)) by lia. reflexivity.
Qed.

(** C3, as the code has it: a well-typed call with [auto=True] and some
    manual column list or the label-encoding mapping non-empty raises the
    conflict exception; all it did before is copy its input tables. *)
Theorem auto_rejects_manual_settings (a : arguments) (h : heap) :
  well_typed a -> auto a = PyBool true -> manual_set a -> refs_valid a h ->
  exists e copies,
    run (preproc a) h = (Raise e, h ++ copies) /\
    ConfigConflict e /\
    Forall (fun df => In df h) copies.
Proof.
  intros Hwt Hauto Hset Hrefs.
  rewrite (preproc_well_typed _ _ Hwt).
  destruct (well_typed_permitted a Hwt)
    as (H1 & H2 & H3 & H4 & H5 & H6 & H7 & H8 & H9).
  destruct (run_copies a h H1 H2 Hrefs) as (df & copies & _ & Hin & Hrun).
  unfold preproc_checked. rewrite Hrun. rewrite Hauto. simpl bool_of.
  edestruct (choose_transformer_conflict (length h) (h ++ df :: copies))
    as (e & He & Hc); cycle 1.
  - exists e, (df :: copies). split; [|split; [exact Hc|exact Hin]].
    apply run_bind_raise. exact He.
  - unfold manual_set, list_arguments in *.
    destruct Hset as [H|[H|[H|[H|[H|H]]]]].
    + left. eapply (non_empty_names "OHE"); [vm_compute; tauto|..]; eassumption.
    + right; left.
      eapply (non_empty_names "standard_scale"); [vm_compute; tauto|..]; eassumption.
    + do 2 right; left.
      eapply (non_empty_names "robust_scale"); [vm_compute; tauto|..]; eassumption.
    + do 3 right; left.
      eapply (non_empty_names "numerical_impute"); [vm_compute; tauto|..]; eassumption.
    + do 4 right; left.
      eapply (non_empty_names "categorical_impute"); [vm_compute; tauto|..]; eassumption.
    + do 5 right. apply non_empty_dict; assumption.
Qed.

End Claims.

(** ** The transformer of each mode *)

Lemma select_dtypes_numeric (df : DataFrame) :
  select_dtypes df [float64; int64] = filter float64_or_int64 df.
Proof.
  unfold select_dtypes. apply list_filter_iff. intros c.
  unfold float64_or_int64. destruct (cdtype c); simpl; intuition discriminate.
Qed.

Lemma select_dtypes_categorical (df : DataFrame) :
  select_dtypes df [object; bool_; category] = filter categorical df.
Proof.
  unfold select_dtypes. apply list_filter_iff. intros c.
  unfold categorical. destruct (cdtype c); simpl; intuition discriminate.
Qed.

(** ** The label encoder *)

Lemma insert_label_In (s x : string) (l : list string) :
  In x (insert_label s l) <-> x = s \/ In x l.
Proof.
  induction l as [|y l IH]; simpl.
  - intuition congruence.
  - destruct (String.compare s y) eqn:Hc; simpl.
    + apply String.compare_eq_iff in Hc. subst. intuition congruence.
    + intuition congruence.
    + rewrite IH. intuition congruence.
Qed.

Lemma np_unique_In (x : string) (y : list string) :
  In x (np_unique y) <-> In x y.
Proof.
  unfold np_unique. induction y as [|s y IH]; simpl.
  - tauto.
  - rewrite insert_label_In, IH. intuition congruence.
Qed.

Lemma class_index_Some (s : string) (classes_ : list string) :
  is_Some (class_index s classes_) <-> In s classes_.
Proof.
  induction classes_ as [|x l IH]; simpl.
  - split; [intros [? H]; discriminate H | tauto].
  - destruct (String.eqb_spec x s) as [->|Hne].
    + split; eauto.
    + split.
      * intros [i Hi]. right. apply IH.
        destruct (class_index s l); [eauto | discriminate Hi].
      * intros [H|H]; [congruence|]. apply IH in H as [i Hi].
        rewrite Hi. simpl. eauto.
Qed.

(** A value has a code exactly when it is one of the labels the encoder
    was fitted on. *)
Lemma encode_cell_listed (labels : list string) (v : cell) :
  is_Some (encode_cell (LabelEncoder_fit labels) v) <-> listed labels v.
Proof.
  unfold listed, LabelEncoder_fit. destruct v as [s|z|b|f|]; simpl;
    try (split; [intros [? H]; discriminate H
                | intros (s' & H & _); discriminate H]).
  split.
  - intros [c Hc]. exists s. split; [reflexivity|].
    apply np_unique_In, class_index_Some.
    destruct (class_index s (np_unique labels)); [eauto | discriminate Hc].
  - intros (s' & [= <-] & Hin).
    apply np_unique_In, class_index_Some in Hin as [i Hi].
    rewrite Hi. simpl. eauto.
Qed.

(** [transform] returns codes when every value is listed, and otherwise
    raises on a value that is not. *)
Lemma LabelEncoder_transform_cases (labels : list string) (y : list cell) :
  (Forall (listed labels) y /\
   exists codes, LabelEncoder_transform (LabelEncoder_fit labels) y = Return codes) \/
  (exists v, In v y /\ ~ listed labels v /\
             LabelEncoder_transform (LabelEncoder_fit labels) y =
               Raise (ValueError_unseen_labels v)).
Proof.
  induction y as [|v y IH].
  - left. split; [constructor | eexists; reflexivity].
  - unfold LabelEncoder_transform. cbn [mapM].
    destruct (encode_cell (LabelEncoder_fit labels) v) as [c|] eqn:Hv.
    + assert (Hl : listed labels v) by (apply encode_cell_listed; eauto).
      destruct IH as [(Hall & codes & Hc)|(w & Hin & Hw & Hc)].
      * left. split; [constructor; assumption|].
        unfold LabelEncoder_transform in Hc. exists (c :: codes).
        cbn. rewrite Hc. reflexivity.
      * right. exists w. split; [right; exact Hin|]. split; [exact Hw|].
        unfold LabelEncoder_transform in Hc. cbn. rewrite Hc. reflexivity.
    + right. exists v. split; [left; reflexivity|]. split; [|reflexivity].
      intros Hl. apply encode_cell_listed in Hl as [c Hc]. congruence.
Qed.

(** ** Column read and assignment *)

Lemma labelled_setitem_ne (df : DataFrame) (c c' : string) (codes : list cell) :
  c <> c' -> labelled c' (setitem df c codes) = labelled c' df.
Proof.
  intros Hne. unfold labelled, setitem.
  induction df as [|col df IH]; [reflexivity|].
  cbn [map]. rewrite !filter_cons, IH.
  destruct (String.eqb_spec (cname col) c) as [Hc|Hc]; [|reflexivity].
  cbn [cname].
  destruct (String.eqb_spec (cname col) c') as [Hc'|Hc']; [congruence|].
  rewrite !decide_False by (simpl; tauto). reflexivity.
Qed.

Lemma getitem_missing (df : DataFrame) (c : string) :
  ~ In c (columns df) -> getitem df c = Raise (KeyError c).
Proof.
  intros Hc. unfold getitem, labelled.
  assert (H : filter (fun col => Is_true (String.eqb (cname col) c)) df = []).
  { induction df as [|col df IH]; [reflexivity|].
    rewrite filter_cons. cbn in Hc.
    destruct (String.eqb_spec (cname col) c) as [Heq|Hne]; [tauto|].
    rewrite decide_False by (simpl; tauto). apply IH. tauto. }
  rewrite H. reflexivity.
Qed.

Lemma labelled_app (n : string) (P Q : DataFrame) :
  labelled n (P ++ Q) = labelled n P ++ labelled n Q.
Proof. unfold labelled. apply filter_app. Qed.

Lemma labelled_missing (n : string) (P : DataFrame) :
  ~ In n (columns P) -> labelled n P = [].
Proof.
  intros Hn. pose proof (getitem_missing P n Hn) as H. unfold getitem in H.
  destruct (labelled n P) as [|x [|y l]]; [reflexivity|discriminate..].
Qed.

(** In a frame with distinct labels, the label of a column selects that
    column alone. *)
Lemma labelled_unique (X : DataFrame) (c : column) :
  NoDup (columns X) -> In c X -> labelled (cname c) X = [c].
Proof.
  induction X as [|x X IH]; intros Hnd Hin; [destruct Hin|].
  cbn [columns map] in Hnd. apply NoDup_cons in Hnd as [Hx Hnd].
  change (x :: X) with ([x] ++ X). rewrite labelled_app.
  destruct Hin as [->|Hin].
  - rewrite (labelled_missing (cname c) X)
      by (intros H; apply Hx, list_elem_of_In, H).
    unfold labelled. rewrite filter_cons, decide_True
      by (rewrite String.eqb_refl; exact I).
    reflexivity.
  - rewrite (IH Hnd Hin). unfold labelled.
    rewrite filter_cons, decide_False; [reflexivity|].
    destruct (String.eqb_spec (cname x) (cname c)) as [Heq|Hne]; [|tauto].
    intros _. apply Hx. rewrite Heq. apply list_elem_of_In, in_map, Hin.
Qed.

(** [df.loc] with the labels of columns of the frame, in a frame with
    distinct labels: those columns. *)
Lemma df_loc_columns (X B : DataFrame) :
  NoDup (columns X) -> Forall (fun c => In c X) B ->
  df_loc X (columns B) = Return B.
Proof.
  intros Hnd HB. unfold df_loc.
  assert (H : mapM (fun n => match labelled n X with
                             | [] => Raise (KeyError n)
                             | c :: cs => Return (c :: cs)
                             end) (columns B) =
              Return (map (fun c => [c]) B)).
  { induction HB as [|c B Hc _ IH]; [reflexivity|].
    cbn [columns map mapM]. rewrite (labelled_unique X c Hnd Hc).
    cbn [mbind result_bind]. unfold columns in IH. rewrite IH. reflexivity. }
  rewrite H. cbn [mbind result_bind mret result_ret]. f_equal.
  clear. induction B as [|c B IH]; [reflexivity|]. cbn. rewrite IH. reflexivity.
Qed.

Lemma df_loc_all (X : DataFrame) :
  NoDup (columns X) -> df_loc X (columns X) = Return X.
Proof.
  intros Hnd. apply df_loc_columns; [exact Hnd|].
  apply Forall_forall. intros c Hc. apply list_elem_of_In, Hc.
Qed.

Lemma getitem_setitem_ne (df : DataFrame) (c c' : string) (codes : list cell) :
  c <> c' -> getitem (setitem df c codes) c' = getitem df c'.
Proof. intros Hne. unfold getitem. rewrite labelled_setitem_ne; auto. Qed.

Lemma columns_setitem (df : DataFrame) (c : string) (codes : list cell) :
  columns (setitem df c codes) = columns df.
Proof.
  unfold columns, setitem. rewrite map_map. apply map_ext.
  intros col. destruct (String.eqb (cname col) c); reflexivity.
Qed.

Lemma has_unseen_setitem_ne (labels : list string) (df : DataFrame)
    (c c' : string) (codes : list cell) :
  c <> c' ->
  has_unseen labels (setitem df c codes) c' <-> has_unseen labels df c'.
Proof.
  intros Hne. unfold has_unseen. rewrite getitem_setitem_ne by exact Hne.
  reflexivity.
Qed.

Lemma all_listed_not_unseen (labels : list string) (df : DataFrame)
    (c : string) (y : list cell) :
  getitem df c = Return y -> Forall (listed labels) y ->
  ~ has_unseen labels df c.
Proof.
  intros Hy Hall (y' & v & Hy' & Hin & Hv).
  rewrite Hy in Hy'. injection Hy' as <-.
  rewrite Forall_forall in Hall. apply Hv, Hall, list_elem_of_In, Hin.
Qed.

(** *** The encoder on a column with its dtype *)

Lemma transform_column_objects (classes_ : list string) (d : dtype)
    (y : list cell) :
  d = object \/ d = category ->
  LabelEncoder_transform_column classes_ d y =
  LabelEncoder_transform classes_ y.
Proof.
  intros Hd. destruct y as [|v y]; [reflexivity|].
  unfold LabelEncoder_transform_column.
  destruct Hd as [-> | ->]; reflexivity.
Qed.

(** A column of listed values, which are strings, is looked up whatever
    its dtype says. *)
Lemma transform_column_listed (labels classes_ : list string) (d : dtype)
    (y : list cell) :
  Forall (listed labels) y ->
  LabelEncoder_transform_column classes_ d y =
  LabelEncoder_transform classes_ y.
Proof.
  intros Hy. destruct y as [|v y]; [reflexivity|].
  unfold LabelEncoder_transform_column.
  apply Forall_cons in Hy as [(s & -> & _) _].
  destruct d; reflexivity.
Qed.

(** When the encoder returns codes for a column, they are those of the
    lookup. *)
Lemma transform_column_returns (classes_ : list string) (d : dtype)
    (y codes : list cell) :
  LabelEncoder_transform_column classes_ d y = Return codes ->
  LabelEncoder_transform classes_ y = Return codes.
Proof.
  destruct y as [|v y]; [intros H; exact H|].
  unfold LabelEncoder_transform_column.
  destruct (numeric_array d (v :: y)); [|intros H; exact H].
  destruct classes_; discriminate.
Qed.

(** A numeric array that is not empty holds a value that is not listed. *)
Lemma numeric_array_unlisted (labels : list string) (d : dtype) (v : cell)
    (y : list cell) :
  numeric_array d (v :: y) = true -> ~ listed labels v.
Proof.
  intros Hn (s & -> & _). destruct d; discriminate Hn.
Qed.

(** The encoder returns codes when every value is listed; otherwise it
    raises, and on a column held as objects it raises the unseen-label
    error. *)
Lemma LabelEncoder_transform_column_cases (labels : list string) (d : dtype)
    (y : list cell) :
  (Forall (listed labels) y /\
   exists codes,
     LabelEncoder_transform_column (LabelEncoder_fit labels) d y =
       Return codes) \/
  ((exists v, In v y /\ ~ listed labels v) /\
   exists e,
     LabelEncoder_transform_column (LabelEncoder_fit labels) d y = Raise e /\
     (d = object \/ d = category -> UnseenLabel e)).
Proof.
  destruct (LabelEncoder_transform_cases labels y)
    as [(Hall & codes & Hc)|(v & Hin & Hv & Hc)].
  - left. split; [exact Hall|]. exists codes.
    rewrite (transform_column_listed labels _ _ _ Hall). exact Hc.
  - right. split; [exists v; auto|].
    destruct y as [|w y]; [destruct Hin|].
    unfold LabelEncoder_transform_column.
    destruct (numeric_array d (w :: y)) eqn:Hn.
    + destruct (LabelEncoder_fit labels); eexists; (split; [reflexivity|]).
      * intros _. exact I.
      * intros [-> | ->]; discriminate Hn.
    + exists (ValueError_unseen_labels v). split; [exact Hc|]. intros _. exact I.
Qed.

Lemma labelled_In (c : string) (df : DataFrame) (col : column) :
  In col (labelled c df) -> In col df /\ cname col = c.
Proof.
  unfold labelled. intros H. apply list_elem_of_In, list_elem_of_filter in H.
  destruct H as [Hc Hin]. split; [apply list_elem_of_In, Hin|].
  apply String.eqb_eq. destruct (String.eqb (cname col) c); [reflexivity|].
  destruct Hc.
Qed.

(** The dtype of a column named in the mapping, in a frame that holds such
    columns as objects. *)
Lemma held_as_objects_dtype (items : list (string * list string))
    (df : DataFrame) (c : string) (y : list cell) :
  held_as_objects items df -> In c (map fst items) ->
  getitem df c = Return y ->
  series_dtype df c = object \/ series_dtype df c = category.
Proof.
  intros Hobj Hc Hy. unfold getitem in Hy. unfold series_dtype.
  destruct (labelled c df) as [|col [|col' l]] eqn:Hl; try discriminate Hy.
  destruct (labelled_In c df col) as [Hin Hn]; [rewrite Hl; left; reflexivity|].
  apply Hobj; [exact Hin|]. rewrite Hn. exact Hc.
Qed.

(** One assignment of the loop either encodes the column, when all its
    values are listed, or raises. *)
Lemma encode_frame_cases (labels : list string) (c : string) (df : DataFrame)
    (y : list cell) :
  getitem df c = Return y ->
  (Forall (listed labels) y /\
   exists codes,
     encode_frame (LabelEncoder_fit labels) c df = Return (setitem df c codes)) \/
  ((exists v, In v y /\ ~ listed labels v) /\
   exists e,
     encode_frame (LabelEncoder_fit labels) c df = Raise e /\
     (series_dtype df c = object \/ series_dtype df c = category ->
      UnseenLabel e)).
Proof.
  intros Hy. unfold encode_frame. rewrite Hy. cbn.
  destruct (LabelEncoder_transform_column_cases labels (series_dtype df c) y)
    as [(Hall & codes & Hc)|(Hv & e & Hc & He)]; rewrite Hc.
  - left. split; [exact Hall|]. exists codes. reflexivity.
  - right. split; [exact Hv|]. exists e. split; [reflexivity|exact He].
Qed.

(** ** The encoding loop on frames *)

Lemma names_columns_of_setitem (rest : list (string * list string))
    (df : DataFrame) (c : string) (codes : list cell) :
  c ∉ map fst rest -> names_columns_of rest df ->
  names_columns_of rest (setitem df c codes).
Proof.
  intros Hc Hdf c' labels' Hin.
  assert (c <> c').
  { intros ->. apply Hc, list_elem_of_In, in_map_iff.
    exists (c', labels'). auto. }
  rewrite getitem_setitem_ne by assumption. eapply Hdf, Hin.
Qed.

Lemma has_unseen_rest (rest : list (string * list string)) (df : DataFrame)
    (c c' : string) (labels' : list string) (codes : list cell) :
  c ∉ map fst rest -> In (c', labels') rest ->
  has_unseen labels' (setitem df c codes) c' <-> has_unseen labels' df c'.
Proof.
  intros Hc Hin. apply has_unseen_setitem_ne.
  intros ->. apply Hc, list_elem_of_In, in_map_iff.
  exists (c', labels'). auto.
Qed.

Lemma held_as_objects_setitem (c : string) (labels : list string)
    (rest : list (string * list string)) (df : DataFrame)
    (codes : list cell) :
  c ∉ map fst rest -> held_as_objects ((c, labels) :: rest) df ->
  held_as_objects rest (setitem df c codes).
Proof.
  intros Hc Hobj col Hin Hkey. unfold setitem in Hin.
  apply in_map_iff in Hin as (col0 & Heq & Hin0).
  destruct (String.eqb_spec (cname col0) c) as [Hn|Hn].
  - subst col. cbn in Hkey. exfalso. apply Hc, list_elem_of_In.
    rewrite <- Hn. exact Hkey.
  - subst col. apply Hobj; [exact Hin0|]. right. exact Hkey.
Qed.

(** The loop returns when no named column holds an unlisted value, and
    raises when one does: the unseen-label error, if the frames hold the
    named columns as objects. *)
Lemma encode_frames_cases (items : list (string * list string)) :
  NoDup (map fst items) ->
  forall (train : DataFrame) (test : option DataFrame),
    names_columns_of items train ->
    (forall t, test = Some t -> names_columns_of items t) ->
    (~ some_unseen items train test /\
     exists r, encode_frames items train test = Return r) \/
    (some_unseen items train test /\
     exists e, encode_frames items train test = Raise e /\
               (held_as_objects items train ->
                (forall t, test = Some t -> held_as_objects items t) ->
                UnseenLabel e)).
Proof.
  induction items as [|[c labels] rest IH]; intros Hnd train test Htr Hte.
  - left. split; [|eexists; reflexivity].
    intros (? & ? & [] & _).
  - cbn [map fst] in Hnd. apply NoDup_cons in Hnd as [Hc Hnd].
    destruct (Htr c labels (or_introl eq_refl)) as [y Hy].
    destruct (encode_frame_cases labels c train y Hy)
      as [(Hall & codes & He)|((v & Hin & Hv) & e & He & Hobj)]; cycle 1.
    { right. split.
      - exists c, labels. split; [left; reflexivity|]. left. exists y, v. auto.
      - exists e. cbn [encode_frames]. rewrite He. split; [reflexivity|].
        intros Ho _. apply Hobj.
        eapply held_as_objects_dtype; [exact Ho|left; reflexivity|exact Hy]. }
    assert (Hhead : ~ has_unseen labels train c)
      by (eapply all_listed_not_unseen; eassumption).
    destruct test as [t|].
    + destruct (Hte t eq_refl c labels (or_introl eq_refl)) as [y2 Hy2].
      destruct (encode_frame_cases labels c t y2 Hy2)
        as [(Hall2 & codes2 & He2)|((v & Hin & Hv) & e & He2 & Hobj)]; cycle 1.
      { right. split.
        - exists c, labels. split; [left; reflexivity|]. right.
          exists t. split; [reflexivity|]. exists y2, v. auto.
        - exists e. cbn [encode_frames]. rewrite He. cbn. rewrite He2.
          split; [reflexivity|]. intros _ Ho. apply Hobj.
          eapply held_as_objects_dtype;
            [exact (Ho t eq_refl)|left; reflexivity|exact Hy2]. }
      assert (Hhead2 : ~ has_unseen labels t c)
        by (eapply all_listed_not_unseen; eassumption).
      assert (Hsame : some_unseen ((c, labels) :: rest) train (Some t) <->
                      some_unseen rest (setitem train c codes)
                                  (Some (setitem t c codes2))).
      { split.
        - intros (c' & l' & [[= <- <-]|Hin] & [Hu|(t' & [= <-] & Hu)]);
            try tauto; exists c', l'; (split; [exact Hin|]).
          + left. eapply has_unseen_rest; eassumption.
          + right. eexists. split; [reflexivity|].
            eapply has_unseen_rest; eassumption.
        - intros (c' & l' & Hin & [Hu|(t' & [= <-] & Hu)]);
            exists c', l'; (split; [right; exact Hin|]).
          + left. eapply has_unseen_rest; eassumption.
          + right. eexists. split; [reflexivity|].
            eapply has_unseen_rest; eassumption. }
      cbn [encode_frames]. rewrite He. cbn. rewrite He2. cbn.
      rewrite Hsame.
      destruct (IH Hnd (setitem train c codes) (Some (setitem t c codes2)))
        as [Hret|(Hyes & e & He' & Hobj)].
      * apply names_columns_of_setitem; [exact Hc|].
        intros c' l' Hin. eapply Htr. right. exact Hin.
      * intros t' [= <-]. apply names_columns_of_setitem; [exact Hc|].
        intros c' l' Hin. eapply (Hte t eq_refl). right. exact Hin.
      * left. exact Hret.
      * right. split; [exact Hyes|]. exists e. split; [exact He'|].
        intros Ho1 Ho2. apply Hobj.
        -- eapply held_as_objects_setitem; eassumption.
        -- intros t' [= <-]. eapply held_as_objects_setitem; [exact Hc|].
           exact (Ho2 t eq_refl).
    + assert (Hsame : some_unseen ((c, labels) :: rest) train None <->
                      some_unseen rest (setitem train c codes) None).
      { split.
        - intros (c' & l' & [[= <- <-]|Hin] & [Hu|(t' & [=] & _)]);
            try tauto. exists c', l'. split; [exact Hin|].
          left. eapply has_unseen_rest; eassumption.
        - intros (c' & l' & Hin & [Hu|(t' & [=] & _)]).
          exists c', l'. split; [right; exact Hin|].
          left. eapply has_unseen_rest; eassumption. }
      cbn [encode_frames]. rewrite He. cbn.
      rewrite Hsame.
      destruct (IH Hnd (setitem train c codes) None)
        as [Hret|(Hyes & e & He' & Hobj)].
      * apply names_columns_of_setitem; [exact Hc|].
        intros c' l' Hin. eapply Htr. right. exact Hin.
      * intros t' [=].
      * left. exact Hret.
      * right. split; [exact Hyes|]. exists e. split; [exact He'|].
        intros Ho1 _. apply Hobj.
        -- eapply held_as_objects_setitem; eassumption.
        -- intros t' [=].
Qed.

(** ** The encoding loop on the heap *)

Lemma run_encode_column (classes_ : list string) (c : string) (X : loc)
    (h : heap) (df : DataFrame) :
  h !! X = Some df ->
  run (encode_column classes_ c X) h =
  match encode_frame classes_ c df with
  | Return df' => (Return tt, <[X := df']> h)
  | Raise e => (Raise e, h)
  end.
Proof.
  intros HX. unfold encode_column, encode_frame.
  rewrite (run_bind_return _ _ _ _ _ (run_deref _ _ _ HX)).
  rewrite run_bind, run_lift.
  destruct (getitem df c) as [e|y]; [reflexivity|]. cbn.
  destruct (LabelEncoder_transform_column classes_ _ y) as [e|codes];
    reflexivity.
Qed.

(** The loop computes [encode_frames] on the two objects and touches no
    other object. *)
Lemma run_label_encoding (items : list (string * list string))
    (X1 : loc) (X2 : option loc) :
  forall (h : heap) (train : DataFrame) (test : option DataFrame),
    points_to h X1 X2 train test ->
    match encode_frames items train test with
    | Return (train', test') =>
        exists h',
          run (label_encoding items X1 X2) h = (Return tt, h') /\
          points_to h' X1 X2 train' test' /\
          length h' = length h /\
          (forall l, l <> X1 -> X2 <> Some l -> h' !! l = h !! l)
    | Raise e => exists h', run (label_encoding items X1 X2) h = (Raise e, h')
    end.
Proof.
  induction items as [|[c labels] rest IH]; intros h train test [H1 H2].
  - cbn. exists h. repeat split; auto.
  - cbn [encode_frames label_encoding].
    rewrite run_bind, (run_encode_column _ _ _ _ _ H1).
    destruct (encode_frame (LabelEncoder_fit labels) c train)
      as [e|train'] eqn:He; [cbn; eauto|].
    assert (Hlt : X1 < length h) by (eapply lookup_lt_Some; eassumption).
    destruct X2 as [l|], test as [t|]; try contradiction.
    + destruct H2 as [H2 Hne].
      assert (H2' : <[X1 := train']> h !! l = Some t).
      { rewrite list_lookup_insert_ne by exact Hne. exact H2. }
      rewrite run_bind, (run_encode_column _ _ _ _ _ H2').
      destruct (encode_frame (LabelEncoder_fit labels) c t)
        as [e|t'] eqn:He2; [cbn; eauto|].
      cbn [mbind result_bind mret result_ret].
      set (h2 := <[l := t']> (<[X1 := train']> h)).
      assert (Hp : points_to h2 X1 (Some l) train' (Some t')).
      { unfold h2. split; [|split; [|exact Hne]].
        - rewrite list_lookup_insert_ne by congruence.
          apply list_lookup_insert_eq. exact Hlt.
        - apply list_lookup_insert_eq. rewrite length_insert.
          eapply lookup_lt_Some; eassumption. }
      specialize (IH h2 train' (Some t') Hp).
      destruct (encode_frames rest train' (Some t')) as [e|[tr te]].
      * exact IH.
      * destruct IH as (h' & Hrun & Hp' & Hlen & Hother).
        exists h'. split; [exact Hrun|]. split; [exact Hp'|]. split.
        -- rewrite Hlen. unfold h2. rewrite !length_insert. reflexivity.
        -- intros l0 Hl0 Hl0'. rewrite Hother by assumption. unfold h2.
           rewrite !list_lookup_insert_ne by congruence. reflexivity.
    + cbn [mbind result_bind mret result_ret]. rewrite run_bind, run_ret.
      set (h1 := <[X1 := train']> h).
      assert (Hp : points_to h1 X1 None train' None).
      { split; [|exact I]. apply list_lookup_insert_eq. exact Hlt. }
      specialize (IH h1 train' None Hp).
      destruct (encode_frames rest train' None) as [e|[tr te]].
      * exact IH.
      * destruct IH as (h' & Hrun & Hp' & Hlen & Hother).
        exists h'. split; [exact Hrun|]. split; [exact Hp'|]. split.
        -- rewrite Hlen. unfold h1. rewrite length_insert. reflexivity.
        -- intros l0 Hl0 Hl0'. rewrite Hother by assumption. unfold h1.
           rewrite list_lookup_insert_ne by congruence. reflexivity.
Qed.


(** ** Frame rules: which objects a program can change *)

Section Frame.
Context {A B : Type} (n : nat).

Lemma frame_ret (Q : A -> Prop) (x : A) : Q x -> frame n Q (mret x).
Proof. intros HQ h Hn. cbn. auto. Qed.

Lemma frame_raise (Q : A -> Prop) (e : exn) : frame n Q (raise e).
Proof. intros h Hn. cbn. auto. Qed.

Lemma frame_lift (r : result A) : frame n (fun _ => True) (lift r).
Proof. intros h Hn. cbn. destruct r; auto. Qed.

Lemma frame_weaken (P Q : A -> Prop) (m : py A) :
  (forall x, P x -> Q x) -> frame n P m -> frame n Q m.
Proof.
  intros HPQ Hm h Hn. destruct (Hm h Hn) as (Ht & Hl & Hr).
  repeat split; [exact Ht | exact Hl |].
  destruct (run m h).1; auto.
Qed.

Lemma frame_bind (P : A -> Prop) (Q : B -> Prop) (m : py A) (f : A -> py B) :
  frame n P m -> (forall x, P x -> frame n Q (f x)) -> frame n Q (m ≫= f).
Proof.
  intros Hm Hf h Hn. destruct (Hm h Hn) as (Ht & Hl & Hr).
  rewrite run_bind. destruct (run m h) as [[e|x] h'] eqn:Hrun; cbn in *.
  - auto.
  - destruct (Hf x Hr h' ltac:(lia)) as (Ht' & Hl' & Hr').
    repeat split; [congruence | lia | exact Hr'].
Qed.

End Frame.

Lemma frame_deref (n : nat) (l : loc) : frame n (fun _ => True) (deref l).
Proof.
  intros h Hn. unfold run, deref. destruct (h !! l); cbn; auto.
Qed.

Lemma frame_alloc (n : nat) (df : DataFrame) :
  frame n (fun l => n <= l) (alloc df).
Proof.
  intros h Hn. unfold run, alloc. cbn. rewrite length_app. cbn.
  repeat split; [|lia|exact Hn].
  rewrite take_app_le by exact Hn. reflexivity.
Qed.

Lemma frame_store (n : nat) (l : loc) (df : DataFrame) :
  n <= l -> frame n (fun _ => True) (store l df).
Proof.
  intros Hl h Hn. unfold run, store. cbn. rewrite length_insert.
  repeat split; [|lia].
  apply take_insert_ge. exact Hl.
Qed.

Lemma frame_copy (n : nat) (l : loc) : frame n (fun l' => n <= l') (copy l).
Proof.
  unfold copy. eapply frame_bind; [apply frame_deref|].
  intros df _. apply frame_alloc.
Qed.

Lemma frame_fmap {A B} (n : nat) (P : A -> Prop) (Q : B -> Prop) (g : A -> B)
    (m : py A) :
  frame n P m -> (forall x, P x -> Q (g x)) -> frame n Q (g <$> m).
Proof.
  intros Hm Hg. unfold fmap, py_fmap.
  eapply frame_bind; [exact Hm|]. intros x Hx. apply frame_ret. auto.
Qed.

Lemma frame_encode_column (n : nat) (classes_ : list string) (c : string)
    (X : loc) :
  n <= X -> frame n (fun _ => True) (encode_column classes_ c X).
Proof.
  intros HX. unfold encode_column.
  eapply frame_bind; [apply frame_deref|]. intros df _.
  eapply frame_bind; [apply frame_lift|]. intros y _.
  eapply frame_bind; [apply frame_lift|]. intros codes _.
  apply frame_store. exact HX.
Qed.

Lemma frame_label_encoding (n : nat) (items : list (string * list string))
    (X1 : loc) (X2 : option loc) :
  n <= X1 -> fresh_option n X2 ->
  frame n (fun _ => True) (label_encoding items X1 X2).
Proof.
  intros H1 H2. induction items as [|[c labels] rest IH].
  - apply frame_ret. exact I.
  - cbn [label_encoding].
    eapply frame_bind; [apply frame_encode_column; exact H1|]. intros _ _.
    eapply frame_bind; [|intros _ _; exact IH].
    destruct X2 as [l|].
    + apply frame_encode_column. apply H2. reflexivity.
    + apply frame_ret. exact I.
Qed.

Lemma frame_choose_transformer (n : nat) (l : loc) (b : bool)
    (O S R N C : list string) (D : list (string * list string)) :
  frame n (fun _ => True) (choose_transformer l b O S R N C D).
Proof.
  unfold choose_transformer. destruct b; [|apply frame_ret; exact I].
  eapply frame_bind; [apply frame_lift|]. intros _ _.
  eapply frame_bind.
  { instantiate (1 := fun _ => True).
    destruct (Nat.ltb _ _); [apply frame_raise | apply frame_ret; exact I]. }
  intros _ _. eapply frame_bind; [apply frame_deref|]. intros df _.
  eapply frame_bind; [apply frame_alloc|]. intros X_num _.
  eapply frame_bind;
    [eapply (frame_fmap _ _ (fun _ => True)); [apply frame_deref|];
     intros; exact I|].
  intros standard_scale _.
  eapply frame_bind; [apply frame_deref|]. intros df' _.
  eapply frame_bind; [apply frame_alloc|]. intros X_cat _.
  eapply frame_bind;
    [eapply (frame_fmap _ _ (fun _ => True)); [apply frame_deref|];
     intros; exact I|].
  intros one_hot _. apply frame_ret. exact I.
Qed.

Section FramePreproc.
Context {E : Estimators}.

Lemma frame_transformed (n : nat) (ft : FittedColumnTransformer) (X : loc)
    (names : list string) :
  frame n (fun l => n <= l) (transformed ft X names).
Proof.
  unfold transformed.
  eapply frame_bind; [apply frame_deref|]. intros df _.
  eapply frame_bind; [apply frame_lift|]. intros data _.
  eapply frame_bind; [apply frame_lift|]. intros new _.
  apply frame_alloc.
Qed.

Lemma frame_fit_transform_encode (n : nat) (X1 : loc) (X2 : option loc)
    (O : list string) (t : ColumnTransformer)
    (D : list (string * list string)) :
  frame n (fun r => n <= r.1 /\ fresh_option n r.2)
        (fit_transform_encode X1 X2 O t D).
Proof.
  unfold fit_transform_encode.
  eapply frame_bind; [apply frame_deref|]. intros df _.
  eapply frame_bind; [apply frame_lift|]. intros ft _.
  eapply frame_bind.
  { instantiate (1 := fun _ => True).
    destruct (Nat.ltb _ _); [|apply frame_ret; exact I].
    destruct (named_transformers_ _ _); [apply frame_lift|apply frame_raise]. }
  intros ohe _.
  eapply frame_bind; [apply frame_transformed|]. intros Y1 HY1.
  eapply frame_bind.
  { instantiate (1 := fresh_option n). destruct X2 as [l|].
    - eapply frame_fmap; [apply frame_transformed|].
      intros x Hx l' [= <-]. exact Hx.
    - apply frame_ret. intros l' [=]. }
  intros Y2 HY2.
  eapply frame_bind; [apply frame_label_encoding; assumption|]. intros _ _.
  apply frame_ret. cbn. auto.
Qed.

Lemma frame_preproc (n : nat) (a : arguments) :
  frame n (fun r => n <= r.1 /\ fresh_option n r.2) (preproc a).
Proof.
  unfold preproc.
  eapply frame_bind; [apply frame_lift|]; intros _ _.
  eapply frame_bind; [apply frame_lift|]; intros X1 _.
  eapply frame_bind; [apply frame_lift|]; intros X2 _.
  do 7 (eapply frame_bind; [apply frame_lift|]; intros ? _).
  eapply frame_bind; [apply frame_copy|]. intros Y1 HY1.
  eapply frame_bind.
  { instantiate (1 := fun _ => True). destruct X2 as [l|].
    - eapply frame_fmap; [apply frame_copy|]. auto.
    - apply frame_ret. exact I. }
  intros Y2 _.
  eapply frame_bind; [apply frame_choose_transformer|].
  intros [[O S] t] _. apply frame_fit_transform_encode.
Qed.

(** C8: whatever the arguments and whether the call returns or raises, the
    heap after the call is the heap before it followed by new objects: no
    frame that existed before the call is changed, the caller's train and
    test tables included.  The frames the call returns are among the new
    objects. *)
Theorem caller_tables_unchanged (a : arguments) (h : heap) :
  exists new,
    (run (preproc a) h).2 = h ++ new /\
    forall Y1 Y2,
      (run (preproc a) h).1 = Return (Y1, Y2) ->
      length h <= Y1 /\ forall l, Y2 = Some l -> length h <= l.
Proof.
  destruct (frame_preproc (length h) a h (le_n _)) as (Ht & Hl & Hr).
  exists (drop (length h) (run (preproc a) h).2). split.
  - rewrite <- (take_drop (length h) (run (preproc a) h).2) at 1.
    rewrite Ht, firstn_all. reflexivity.
  - intros Y1 Y2 Hrun. rewrite Hrun in Hr. exact Hr.
Qed.

End FramePreproc.

(** ** Refinement: the program computes the content functions *)

Lemma run_choose_transformer (l : loc) (h : heap) (df : DataFrame) (b : bool)
    (O S R N C : list string) (D : list (string * list string)) :
  h !! l = Some df ->
  run (choose_transformer l b O S R N C D) h =
  match chosen b df O S R N C D with
  | Return r => (Return r, h ++ temporaries b df)
  | Raise e => (Raise e, h)
  end.
Proof.
  intros Hl. unfold choose_transformer, chosen, temporaries.
  destruct b; [|cbn; rewrite app_nil_r; reflexivity].
  rewrite run_bind, run_lift.
  destruct (check_manual_unset [O; S; R; N; C]) as [e|[]]; [reflexivity|].
  cbn [mbind result_bind]. rewrite run_bind.
  destruct (Nat.ltb 0 (length (map fst D))); [reflexivity|].
  rewrite run_ret. cbn [mbind result_bind mret result_ret].
  rewrite (run_bind_return _ _ _ _ _ (run_deref _ _ _ Hl)).
  rewrite (run_bind_return _ _ _ _ _ (run_alloc _ _)).
  rewrite (run_bind_return _ _ _ _ _ (run_read_new _ _ _)).
  assert (Hl' : (h ++ [select_dtypes df [float64; int64]]) !! l = Some df)
    by (apply lookup_app_l_Some; exact Hl).
  rewrite (run_bind_return _ _ _ _ _ (run_deref _ _ _ Hl')).
  rewrite (run_bind_return _ _ _ _ _ (run_alloc _ _)).
  rewrite (run_bind_return _ _ _ _ _ (run_read_new _ _ _)).
  rewrite run_ret, <- app_assoc. reflexivity.
Qed.

Section Refinement.
Context {E : Estimators}.

Lemma run_transformed (ft : FittedColumnTransformer) (X : loc)
    (names : list string) (h : heap) (df : DataFrame) :
  h !! X = Some df ->
  run (transformed ft X names) h =
  match transformed_frame ft df names with
  | Return new => (Return (length h), h ++ [new])
  | Raise e => (Raise e, h)
  end.
Proof.
  intros HX. unfold transformed, transformed_frame.
  rewrite (run_bind_return _ _ _ _ _ (run_deref _ _ _ HX)).
  rewrite run_bind, run_lift.
  destruct (ColumnTransformer_transform ft df) as [e|data]; [reflexivity|].
  cbn [mbind result_bind]. rewrite run_bind, run_lift.
  destruct (DataFrame_new data names) as [e|new]; reflexivity.
Qed.

Lemma run_Some_transformed (ft : FittedColumnTransformer) (X : loc)
    (names : list string) (h : heap) (df : DataFrame) :
  h !! X = Some df ->
  run (Some <$> transformed ft X names) h =
  match transformed_frame ft df names with
  | Return new => (Return (Some (length h)), h ++ [new])
  | Raise e => (Raise e, h)
  end.
Proof.
  intros HX. unfold fmap, py_fmap.
  rewrite run_bind, (run_transformed _ _ _ _ _ HX).
  destruct (transformed_frame ft df names); reflexivity.
Qed.

Lemma points_to_heap (h h' : heap) (o1 tr : DataFrame)
    (o2 te : option DataFrame) (X2 : option loc) :
  points_to h' (length h) ((fun _ => S (length h)) <$> X2) tr te ->
  length h' = length (h ++ new_objects o1 o2) ->
  (forall l, l <> length h -> (fun _ => S (length h)) <$> X2 <> Some l ->
             h' !! l = (h ++ new_objects o1 o2) !! l) ->
  (is_Some o2 <-> is_Some X2) ->
  h' = h ++ new_objects tr te.
Proof.
  intros [H1 H2] Hlen Hother Ho.
  apply list_eq. intros i.
  destruct (decide (i = length h)) as [->|Hi1].
  { rewrite H1. rewrite lookup_app_r by lia. rewrite Nat.sub_diag. reflexivity. }
  destruct X2 as [l|]; cbn in H2, Hother.
  - destruct te as [t|]; [|contradiction]. destruct H2 as [H2 _].
    destruct o2 as [o2|]; [|destruct Ho as [_ Ho]; destruct Ho as [? [=]]; eauto].
    destruct (decide (i = S (length h))) as [->|Hi2].
    + rewrite H2. rewrite lookup_app_r by lia.
      replace (S (length h) - length h) with 1 by lia. reflexivity.
    + rewrite Hother by congruence.
      destruct (decide (i < length h)) as [Hlt|Hge].
      * rewrite !lookup_app_l by exact Hlt. reflexivity.
      * rewrite !lookup_ge_None_2; [reflexivity| |];
          rewrite length_app; cbn; lia.
  - destruct te as [t|]; [contradiction|].
    destruct o2 as [o2|]; [destruct Ho as [Ho _]; destruct Ho as [? [=]]; eauto|].
    rewrite Hother by congruence.
    destruct (decide (i < length h)) as [Hlt|Hge].
    + rewrite !lookup_app_l by exact Hlt. reflexivity.
    + rewrite !lookup_ge_None_2; [reflexivity| |];
        rewrite length_app; cbn; lia.
Qed.

(** Lines 148-162, once the column names are known. *)
Lemma run_transform_encode (ft : FittedColumnTransformer) (X1 : loc)
    (X2 : option loc) (names : list string)
    (D : list (string * list string)) (h : heap) (df : DataFrame)
    (dft : option DataFrame) :
  h !! X1 = Some df -> test_content h X2 dft ->
  match (train ← transformed_frame ft df names;
         test ← match dft with
                | Some d => t ← transformed_frame ft d names; mret (Some t)
                | None => mret None
                end;
         encode_frames D train test) with
  | Return (o1, o2) =>
      run (Y1 ← transformed ft X1 names;
           Y2 ← match X2 with
                | Some X2 => Some <$> transformed ft X2 names
                | None => mret None
                end;
           _ ← label_encoding D Y1 Y2;
           mret (Y1, Y2)) h =
        (Return (length h, (fun _ => S (length h)) <$> X2),
         h ++ new_objects o1 o2) /\
      (is_Some o2 <-> is_Some X2)
  | Raise e =>
      exists h',
        run (Y1 ← transformed ft X1 names;
             Y2 ← match X2 with
                  | Some X2 => Some <$> transformed ft X2 names
                  | None => mret None
                  end;
             _ ← label_encoding D Y1 Y2;
             mret (Y1, Y2)) h = (Raise e, h')
  end.
Proof.
  intros H1 H2.
  rewrite run_bind, (run_transformed _ _ _ _ _ H1).
  destruct (transformed_frame ft df names) as [e|new1]; [cbn; eauto|].
  cbn [mbind result_bind]. rewrite run_bind.
  destruct X2 as [l|], dft as [d|]; try contradiction; cbn in H2.
  - assert (H2' : (h ++ [new1]) !! l = Some d)
      by (apply lookup_app_l_Some; exact H2).
    rewrite (run_Some_transformed _ _ _ _ _ H2').
    destruct (transformed_frame ft d names) as [e|new2]; [cbn; eauto|].
    cbn [mbind result_bind mret result_ret]. rewrite run_bind.
    rewrite length_app. cbn [length].
    replace (length h + 1) with (S (length h)) by lia.
    assert (Hp : points_to ((h ++ [new1]) ++ [new2]) (length h)
                           (Some (S (length h))) new1 (Some new2)).
    { split; [|split; [|lia]].
      - rewrite <- app_assoc. rewrite lookup_app_r by lia.
        rewrite Nat.sub_diag. reflexivity.
      - rewrite lookup_app_r by (rewrite length_app; cbn; lia).
        rewrite length_app. cbn.
        replace (S (length h) - (length h + 1)) with 0 by lia. reflexivity. }
    pose proof (run_label_encoding D _ _ _ _ _ Hp) as Hrun.
    destruct (encode_frames D new1 (Some new2)) as [e|[tr te]].
    + destruct Hrun as [h' Hrun]. rewrite Hrun. eauto.
    + destruct Hrun as (h' & Hrun & Hp' & Hlen & Hother).
      rewrite Hrun, run_ret.
      assert (Hte : is_Some te).
      { destruct Hp' as [_ Hp']. destruct te; [eauto|contradiction]. }
      split; [|split; eauto].
      f_equal. cbn [fmap option_fmap option_map].
      eapply (points_to_heap h h' new1 tr (Some new2) te (Some l)).
      * exact Hp'.
      * rewrite Hlen, <- app_assoc. reflexivity.
      * intros l0 Hl0 Hl0'. rewrite <- app_assoc in Hother.
        apply Hother; assumption.
      * split; eauto.
  - rewrite run_ret, run_bind.
    assert (Hp : points_to (h ++ [new1]) (length h) None new1 None).
    { split; [|exact I]. rewrite lookup_app_r by lia.
      rewrite Nat.sub_diag. reflexivity. }
    pose proof (run_label_encoding D _ _ _ _ _ Hp) as Hrun.
    cbn [mbind result_bind mret result_ret].
    destruct (encode_frames D new1 None) as [e|[tr te]].
    + destruct Hrun as [h' Hrun]. rewrite Hrun. eauto.
    + destruct Hrun as (h' & Hrun & Hp' & Hlen & Hother).
      rewrite Hrun, run_ret.
      assert (Hte : te = None).
      { destruct Hp' as [_ Hp']. destruct te; [contradiction|reflexivity]. }
      subst te. split; [|split; intros [? [=]]].
      f_equal.
      eapply (points_to_heap h h' new1 tr None None None).
      * exact Hp'.
      * rewrite Hlen. reflexivity.
      * intros l0 Hl0 Hl0'. apply Hother; assumption.
      * split; intros [? [=]].
Qed.

(** A run of lines 135-162 that returns allocates the two output frames
    after the existing objects and returns their addresses. *)
Lemma run_fit_transform_encode (X1 : loc) (X2 : option loc)
    (O : list string) (t : ColumnTransformer)
    (D : list (string * list string)) (h : heap) (df : DataFrame)
    (dft : option DataFrame) :
  h !! X1 = Some df -> test_content h X2 dft ->
  match outputs O t D df dft with
  | Return (o1, o2) =>
      run (fit_transform_encode X1 X2 O t D) h =
        (Return (length h, (fun _ => S (length h)) <$> X2),
         h ++ new_objects o1 o2) /\
      (is_Some o2 <-> is_Some X2)
  | Raise e => exists h', run (fit_transform_encode X1 X2 O t D) h = (Raise e, h')
  end.
Proof.
  intros H1 H2. unfold fit_transform_encode, outputs.
  rewrite (run_bind_return _ _ _ _ _ (run_deref _ _ _ H1)).
  rewrite run_bind, run_lift.
  destruct (ColumnTransformer_fit t df) as [e|ft]; [cbn; eauto|].
  cbn [mbind result_bind]. rewrite run_bind.
  destruct (Nat.ltb 0 (length O)).
  - destruct (named_transformers_ (transformers_ ft) "one_hot") as [one_hot|];
      [|cbn; eauto].
    rewrite run_lift.
    destruct (estimator_call (get_feature_names one_hot O)) as [e|ohe];
      [cbn; eauto|].
    cbn [mbind result_bind].
    apply (run_transform_encode ft X1 X2 _ D h df dft H1 H2).
  - rewrite run_ret. cbn [mbind result_bind].
    apply (run_transform_encode ft X1 X2 _ D h df dft H1 H2).
Qed.

(** A well-typed call that returns leaves, after the existing objects, the
    copies of its inputs, in automatic mode the two selections, and then
    its two output frames. *)
Lemma run_preproc (a : arguments) (h : heap) (df : DataFrame)
    (dft : option DataFrame) :
  well_typed a ->
  h !! frame_of (X_train a) = Some df ->
  test_content h (optional_frame_of (X_test a)) dft ->
  let copies := allocated (bool_of (auto a)) df dft in
  match preproc_frames a df dft with
  | Return (o1, o2) =>
      run (preproc a) h =
        (Return (length h + length copies,
                 (fun _ => S (length h + length copies))
                   <$> optional_frame_of (X_test a)),
         h ++ copies ++ new_objects o1 o2) /\
      (is_Some o2 <-> is_Some dft)
  | Raise e => exists h', run (preproc a) h = (Raise e, h')
  end.
Proof.
  intros Hwt H1 H2 copies.
  set (copied := new_objects df dft).
  set (temps := temporaries (bool_of (auto a)) df).
  assert (Hcopies_eq : copies = copied ++ temps) by reflexivity.
  rewrite (preproc_well_typed _ _ Hwt).
  unfold preproc_checked, preproc_frames.
  rewrite (run_bind_return _ _ _ _ _ (run_copy _ _ _ H1)).
  assert (Hcopies :
    forall B (k : option loc -> py B),
      run (Y2 ← match optional_frame_of (X_test a) with
                | Some X_test => Some <$> copy X_test
                | None => mret None
                end; k Y2) (h ++ [df]) =
      run (k ((fun _ => S (length h)) <$> optional_frame_of (X_test a)))
          (h ++ copied)).
  { intros B k. unfold copied.
    destruct (optional_frame_of (X_test a)) as [l|], dft as [d|];
      try contradiction; cbn in H2; [|reflexivity].
    assert (H2' : (h ++ [df]) !! l = Some d)
      by (apply lookup_app_l_Some; exact H2).
    unfold fmap at 1, py_fmap.
    rewrite (run_bind_return _ _ _ _ _
               (run_bind_return _ _ _ _ _ (run_copy _ _ _ H2'))).
    rewrite length_app, <- app_assoc. cbn.
    replace (length h + 1) with (S (length h)) by lia. reflexivity. }
  rewrite Hcopies.
  assert (Hdf : (h ++ copied) !! length h = Some df).
  { rewrite lookup_app_r by lia. rewrite Nat.sub_diag. reflexivity. }
  rewrite run_bind, (run_choose_transformer _ _ _ _ _ _ _ _ _ _ Hdf).
  destruct (chosen _ df _ _ _ _ _ _) as [e|[[O Ss] t]]; [cbn; eauto|].
  cbn [mbind result_bind]. fold temps.
  assert (Hdf' : ((h ++ copied) ++ temps) !! length h = Some df)
    by (apply lookup_app_l_Some; exact Hdf).
  assert (Htest : test_content ((h ++ copied) ++ temps)
                    ((fun _ => S (length h)) <$> optional_frame_of (X_test a))
                    dft).
  { unfold copied.
    destruct (optional_frame_of (X_test a)) as [l|], dft as [d|];
      try contradiction; cbn; [|exact I].
    apply lookup_app_l_Some.
    rewrite lookup_app_r by lia.
    replace (S (length h) - length h) with 1 by lia. reflexivity. }
  pose proof (run_fit_transform_encode _ _ O t (dict_of (label_encode a))
                _ _ _ Hdf' Htest) as Hrun.
  destruct (outputs O t (dict_of (label_encode a)) df dft) as [e|[o1 o2]];
    [exact Hrun|].
  destruct Hrun as [Hrun Ho]. rewrite Hrun.
  rewrite Hcopies_eq, !length_app, <- !app_assoc. split.
  - rewrite Nat.add_assoc.
    destruct (optional_frame_of (X_test a)); reflexivity.
  - rewrite Ho.
    destruct (optional_frame_of (X_test a)) as [l|], dft as [d|];
      try contradiction; split; eauto; intros [? [=]].
Qed.

End Refinement.

(** ** Train and test frames go through the same computation *)

Lemma encode_frame_columns (classes_ : list string) (c : string)
    (df df' : DataFrame) :
  encode_frame classes_ c df = Return df' -> columns df' = columns df.
Proof.
  unfold encode_frame. destruct (getitem df c) as [e|y]; [discriminate|]. cbn.
  destruct (LabelEncoder_transform_column classes_ _ y) as [e|codes];
    [discriminate|].
  intros [= <-]. apply columns_setitem.
Qed.

(** The encoding of the train frame does not depend on the test frame. *)
Lemma encode_frames_train (items : list (string * list string)) :
  forall train test o1 o2,
    encode_frames items train test = Return (o1, o2) ->
    encode_frames items train None = Return (o1, None).
Proof.
  induction items as [|[c labels] rest IH]; intros train test o1 o2.
  - cbn. intros [= <- <-]. reflexivity.
  - cbn [encode_frames].
    destruct (encode_frame (LabelEncoder_fit labels) c train) as [e|train'];
      [discriminate|].
    cbn [mbind result_bind mret result_ret].
    destruct test as [t|].
    + destruct (encode_frame (LabelEncoder_fit labels) c t) as [e|t'];
        [discriminate|].
      cbn [mbind result_bind mret result_ret]. apply IH.
    + apply IH.
Qed.

(** A test frame with the content of the train frame is encoded to the
    same content. *)
Lemma encode_frames_same (items : list (string * list string)) :
  forall train o1,
    encode_frames items train None = Return (o1, None) ->
    encode_frames items train (Some train) = Return (o1, Some o1).
Proof.
  induction items as [|[c labels] rest IH]; intros train o1.
  - cbn. intros [= <-]. reflexivity.
  - cbn [encode_frames].
    destruct (encode_frame (LabelEncoder_fit labels) c train) as [e|train'];
      [discriminate|].
    cbn [mbind result_bind mret result_ret]. apply IH.
Qed.

(** The encoding of the test frame does not depend on the train frame. *)
Lemma encode_frames_test (items : list (string * list string)) :
  forall train t o1 o2,
    encode_frames items train (Some t) = Return (o1, o2) ->
    exists t', o2 = Some t' /\ encode_frames items t None = Return (t', None).
Proof.
  induction items as [|[c labels] rest IH]; intros train t o1 o2.
  - cbn. intros [= <- <-]. eauto.
  - cbn [encode_frames].
    destruct (encode_frame (LabelEncoder_fit labels) c train) as [e|train'];
      [discriminate|].
    cbn [mbind result_bind mret result_ret].
    destruct (encode_frame (LabelEncoder_fit labels) c t) as [e|t1];
      [discriminate|].
    cbn [mbind result_bind mret result_ret]. apply IH.
Qed.

(** The loop keeps the column labels of both frames. *)
Lemma encode_frames_columns (items : list (string * list string)) :
  forall train test o1 o2,
    encode_frames items train test = Return (o1, o2) ->
    columns o1 = columns train /\
    match test, o2 with
    | Some t, Some t' => columns t' = columns t
    | None, None => True
    | _, _ => False
    end.
Proof.
  induction items as [|[c labels] rest IH]; intros train test o1 o2.
  - cbn. intros [= <- <-]. split; [reflexivity|]. destruct test; auto.
  - cbn [encode_frames].
    destruct (encode_frame (LabelEncoder_fit labels) c train)
      as [e|train'] eqn:He; [discriminate|].
    cbn [mbind result_bind mret result_ret].
    apply encode_frame_columns in He.
    destruct test as [t|].
    + destruct (encode_frame (LabelEncoder_fit labels) c t)
        as [e|t'] eqn:He2; [discriminate|].
      cbn [mbind result_bind mret result_ret].
      apply encode_frame_columns in He2.
      intros Hr. apply IH in Hr as [H1 H2]. split; [congruence|].
      destruct o2; [congruence|exact H2].
    + intros Hr. apply IH in Hr as [H1 H2]. split; [congruence|exact H2].
Qed.

Lemma DataFrame_new_columns (d : dtype) (data : ndarray)
    (names : list string) (new : DataFrame) :
  DataFrame_new (Dense d data) names = Return new ->
  columns new = names /\ values new = data.
Proof.
  unfold DataFrame_new.
  destruct (Nat.eqb_spec (length data) (length names)) as [Hlen|];
    [|discriminate].
  intros [= <-].
  revert names Hlen. induction data as [|v data IH]; intros [|n names] Hlen;
    try discriminate; [split; reflexivity|].
  cbn in Hlen. injection Hlen as Hlen. destruct (IH names Hlen) as [H1 H2].
  unfold columns, values in *. cbn. split; congruence.
Qed.

(** The columns of a new frame have the dtype of the array. *)
Lemma DataFrame_new_dtype (d : dtype) (data : ndarray) (names : list string)
    (new : DataFrame) :
  DataFrame_new (Dense d data) names = Return new ->
  Forall (fun c => cdtype c = d) new.
Proof.
  unfold DataFrame_new. destruct (Nat.eqb _ _); [|discriminate].
  intros [= <-]. revert data.
  induction names as [|n names IH]; intros [|v data]; try constructor.
  - reflexivity.
  - apply IH.
Qed.

Section SameTable.
Context {E : Estimators}.

Lemma transformed_frame_columns (ft : FittedColumnTransformer)
    (df new : DataFrame) (names : list string) :
  transformed_frame ft df names = Return new -> columns new = names.
Proof.
  unfold transformed_frame.
  destruct (ColumnTransformer_transform ft df) as [e|[d data|]];
    [discriminate| |discriminate].
  cbn. intros H. apply DataFrame_new_columns in H. tauto.
Qed.

(** The labels of the train output: the one-hot names, then the labels of
    the input that are not one-hot encoded, in the input order. *)
Lemma output_labels (O : list string) (t : ColumnTransformer)
    (D : list (string * list string)) (df o1 : DataFrame)
    (dft o2 : option DataFrame) :
  outputs O t D df dft = Return (o1, o2) ->
  exists ohe_columns,
    columns o1 =
    ohe_columns ++
    filter (fun x => Is_true (negb (name_in x O))) (columns df).
Proof.
  unfold outputs.
  destruct (ColumnTransformer_fit t df) as [e|ft]; [discriminate|].
  cbn [mbind result_bind].
  match goal with
  | |- context [mbind _ ?c] =>
      match type of c with result (list string) => destruct c as [e|ohe] end
  end; [discriminate|].
  cbn [mbind result_bind].
  destruct (transformed_frame ft df _) as [e|new] eqn:Hnew; [discriminate|].
  cbn [mbind result_bind mret result_ret].
  match goal with
  | |- context [mbind _ ?c] => destruct c as [e|test]
  end; [discriminate|].
  cbn [mbind result_bind]. intros Hr.
  apply encode_frames_columns in Hr as [H1 _].
  apply transformed_frame_columns in Hnew. exists ohe. congruence.
Qed.

(** The outputs of a call without a test table determine the outputs of the
    call in which the train table is also the test table. *)
Lemma outputs_same (O : list string) (t : ColumnTransformer)
    (D : list (string * list string)) (df o1 : DataFrame) :
  outputs O t D df None = Return (o1, None) ->
  outputs O t D df (Some df) = Return (o1, Some o1).
Proof.
  unfold outputs.
  destruct (ColumnTransformer_fit t df) as [e|ft]; [discriminate|].
  cbn [mbind result_bind].
  match goal with
  | |- context [mbind _ ?c] =>
      match type of c with result (list string) => destruct c as [e|ohe] end
  end; [discriminate|].
  cbn [mbind result_bind].
  destruct (transformed_frame ft df _) as [e|new]; [discriminate|].
  cbn [mbind result_bind mret result_ret].
  apply encode_frames_same.
Qed.

(** *** What fit and transform are made of *)

Lemma fit_inv (t : ColumnTransformer) (df : DataFrame)
    (ft : FittedColumnTransformer) :
  ColumnTransformer_fit t df = Return ft ->
  exists cols fl,
    mapM (column_index df) (concat (map snd (transformers t))) = Return cols /\
    mapM (fit_transform_one df) (fitted_entries t) = Return fl /\
    transformers_ ft = map fst fl /\
    remaining_idx ft =
      (if String.eqb (remainder t) "passthrough"
       then filter (fun i => i ∉ cols) (seq 0 (length df)) else []) /\
    feature_names_in_ ft = columns df.
Proof.
  unfold ColumnTransformer_fit. fold (fitted_entries t).
  destruct (mapM (column_index df) _) as [e|cols]; [discriminate|].
  cbn [mbind result_bind].
  destruct (mapM (fit_transform_one df) _) as [e|fl]; [discriminate|].
  cbn [mbind result_bind].
  match goal with
  | |- context [mbind _ ?c] =>
      match type of c with
      | result (option (dtype * ndarray)) => destruct c as [e|rest]
      end
  end; [discriminate|].
  cbn [mbind result_bind].
  destruct (sparse_output _ rest) as [e|sparse]; [discriminate|].
  cbn [mbind result_bind].
  destruct (ColumnTransformer_hstack _ _ _) as [e|m]; [discriminate|].
  cbn [mbind result_bind mret result_ret]. intros [= <-].
  exists cols, fl. cbn. auto.
Qed.

Lemma fit_transform_one_inv (df : DataFrame)
    (e : string * estimator * list string)
    (y : string * fitted * list string * (bool * ndarray)) :
  fit_transform_one df e = Return y ->
  y.1 = (e.1.1, y.1.1.2, e.2) /\ fitted_on df e y.1.1.2.
Proof.
  unfold fit_transform_one, fitted_on.
  destruct (select df e.2) as [x|Xsub]; [discriminate|].
  cbn [mbind result_bind].
  destruct (fit e.1.2 Xsub) as [m|state] eqn:Hfit; [discriminate|].
  cbn [estimator_call mbind result_bind].
  destruct (transform state Xsub) as [m|Xt]; [discriminate|].
  cbn. intros [= <-]. cbn. split; [reflexivity|]. exists Xsub. auto.
Qed.

(** A fitted transformer holds, for every entry that lists a column and in
    the order of the entries, the state its estimator learned from the
    columns of the entry in the fitted frame. *)
Lemma fit_entries (t : ColumnTransformer) (df : DataFrame)
    (ft : FittedColumnTransformer) :
  ColumnTransformer_fit t df = Return ft ->
  exists states,
    Forall2 (fitted_on df) (fitted_entries t) states /\
    transformers_ ft =
      map (fun es => (es.1.1.1, es.2, es.1.2)) (zip (fitted_entries t) states).
Proof.
  intros Hfit.
  destruct (fit_inv _ _ _ Hfit) as (cols & fl & _ & Hfl & Htr & _).
  rewrite Htr. clear Htr Hfit. apply mapM_Return in Hfl.
  induction Hfl as [|e y es fl Hy _ (states & Hst & Heq)].
  - exists []. split; [constructor|reflexivity].
  - destruct (fit_transform_one_inv _ _ _ Hy) as [Hy1 Hon].
    exists (y.1.1.2 :: states). split; [constructor; assumption|].
    cbn [map zip zip_with fst snd]. rewrite Heq, Hy1. reflexivity.
Qed.

Lemma df_loc_nil (X : DataFrame) : df_loc X [] = Return [].
Proof. reflexivity. Qed.

Lemma converted_nil (dr d : dtype) : converted dr d [] = [].
Proof. unfold converted. destruct (dtype_eqb dr d); reflexivity. Qed.

(** A dense result of [transform]: the blocks of the fitted transformers on
    their columns of the frame, then the remainder columns of the frame,
    converted. *)
Lemma transform_inv (ft : FittedColumnTransformer) (X : DataFrame)
    (d : dtype) (data : ndarray) :
  ColumnTransformer_transform ft X = Return (Dense d data) ->
  exists blocks Xrem,
    mapM (transform_one X) (transformers_ ft) = Return blocks /\
    df_loc X (remainder_columns ft) = Return Xrem /\
    data = concat blocks ++
           converted (fst (to_numpy Xrem)) d (snd (to_numpy Xrem)).
Proof.
  unfold ColumnTransformer_transform.
  destruct (List.filter _ (remainder_columns ft)); [|discriminate].
  cbn [mbind result_bind].
  destruct (mapM (transform_one X) _) as [e|Xs]; [discriminate|].
  cbn [mbind result_bind].
  unfold ColumnTransformer_hstack.
  destruct (remainder_columns ft) as [|n names].
  - cbn [mbind result_bind mret result_ret].
    destruct (sparse_output_ ft).
    { destruct (existsb _ _); discriminate. }
    unfold np_hstack.
    destruct (result_types _) as [e|d']; [discriminate|].
    cbn. intros [= <- <-]. exists Xs, []. split; [reflexivity|].
    split; [reflexivity|]. cbn [to_numpy map fst snd].
    rewrite converted_nil, app_nil_r. reflexivity.
  - destruct (df_loc X (n :: names)) as [e|Xrem]; [discriminate|].
    cbn [mbind result_bind mret result_ret].
    destruct (sparse_output_ ft).
    { destruct (existsb _ _); discriminate. }
    unfold np_hstack. destruct (to_numpy Xrem) as [dr R] eqn:Hnp.
    destruct (result_types _) as [e|d']; [discriminate|].
    cbn [mbind result_bind mret result_ret]. intros [= <- <-].
    exists Xs, Xrem. rewrite Hnp. auto.
Qed.

(** The blocks of a transformed frame come from the states learned on the
    fitted frame. *)
Lemma blocks_of_states (X : DataFrame)
    (entries : list (string * estimator * list string)) :
  forall (states : list fitted) (blocks : list ndarray),
    length entries = length states ->
    mapM (transform_one X)
         (map (fun es => (es.1.1.1, es.2, es.1.2)) (zip entries states)) =
      Return blocks ->
    Forall2 (block_of X) (zip entries states) blocks.
Proof.
  induction entries as [|e entries IH]; intros [|st states] blocks Hlen Hm;
    try discriminate Hlen.
  - cbn in Hm. injection Hm as <-. constructor.
  - cbn [zip zip_with map mapM] in Hm |- *.
    destruct (transform_one X _) as [x|block] eqn:Hb; [discriminate Hm|].
    cbn [mbind result_bind] in Hm.
    destruct (mapM (transform_one X) _) as [x|bs] eqn:Hbs; [discriminate Hm|].
    cbn in Hm. injection Hm as <-. constructor.
    + unfold transform_one in Hb. cbn [fst snd] in Hb. unfold block_of.
      cbn [fst snd].
      destruct (df_loc X e.2) as [x|Xsub]; [discriminate Hb|].
      cbn [mbind result_bind] in Hb. exists Xsub. split; [reflexivity|].
      destruct (transform st Xsub); [discriminate Hb|].
      cbn in Hb. congruence.
    + apply IH; [cbn in Hlen; lia|exact Hbs].
Qed.

(** The frame made of a transformed test table: its blocks are those of
    the states fitted on the train table. *)
Lemma transformed_frame_inv (t : ColumnTransformer) (df dft new : DataFrame)
    (ft : FittedColumnTransformer) (names : list string) :
  ColumnTransformer_fit t df = Return ft ->
  transformed_frame ft dft names = Return new ->
  exists states blocks Xrem d,
    Forall2 (fitted_on df) (fitted_entries t) states /\
    Forall2 (block_of dft) (zip (fitted_entries t) states) blocks /\
    df_loc dft (remainder_columns ft) = Return Xrem /\
    Forall (fun c => cdtype c = d) new /\
    columns new = names /\
    values new =
      concat blocks ++ converted (fst (to_numpy Xrem)) d (snd (to_numpy Xrem)).
Proof.
  intros Hfit Hnew.
  destruct (fit_entries _ _ _ Hfit) as (states & Hst & Htr).
  unfold transformed_frame in Hnew.
  destruct (ColumnTransformer_transform ft dft) as [e|[d data|]] eqn:Hdata;
    [discriminate Hnew| |discriminate Hnew].
  cbn [mbind result_bind] in Hnew.
  destruct (transform_inv _ _ _ _ Hdata) as (blocks & Xrem & Hb & Hrem & ->).
  rewrite Htr in Hb.
  exists states, blocks, Xrem, d. split; [exact Hst|].
  split; [apply blocks_of_states;
          [eapply Forall2_length; exact Hst|exact Hb]|].
  split; [exact Hrem|].
  destruct (DataFrame_new_columns _ _ _ _ Hnew) as [Hc Hv].
  split; [|split; assumption].
  eapply DataFrame_new_dtype, Hnew.
Qed.

(** With any test table, the train output is the one of the call without
    a test table; the test output carries the same column labels and is the
    encoding of the test table transformed by the transformer fitted on
    the train table. *)
Lemma outputs_with_test (O : list string) (t : ColumnTransformer)
    (D : list (string * list string)) (df dft o1 : DataFrame)
    (o2 : option DataFrame) :
  outputs O t D df (Some dft) = Return (o1, o2) ->
  outputs O t D df None = Return (o1, None) /\
  exists t', o2 = Some t' /\ columns t' = columns o1 /\
    exists ft states blocks Xrem d new,
      ColumnTransformer_fit t df = Return ft /\
      Forall2 (fitted_on df) (fitted_entries t) states /\
      Forall2 (block_of dft) (zip (fitted_entries t) states) blocks /\
      df_loc dft (remainder_columns ft) = Return Xrem /\
      Forall (fun c => cdtype c = d) new /\
      columns new = columns o1 /\
      values new =
        concat blocks ++
        converted (fst (to_numpy Xrem)) d (snd (to_numpy Xrem)) /\
      encode_frames D new None = Return (t', None).
Proof.
  unfold outputs.
  destruct (ColumnTransformer_fit t df) as [e|ft] eqn:Hfit; [discriminate|].
  cbn [mbind result_bind].
  match goal with
  | |- context [mbind _ ?c] =>
      match type of c with result (list string) => destruct c as [e|ohe] end
  end; [discriminate|].
  cbn [mbind result_bind].
  destruct (transformed_frame ft df _) as [e|new] eqn:Hnew; [discriminate|].
  cbn [mbind result_bind mret result_ret].
  destruct (transformed_frame ft dft _) as [e|newt] eqn:Hnewt; [discriminate|].
  cbn [mbind result_bind mret result_ret].
  intros Hr. split; [eapply encode_frames_train; exact Hr|].
  destruct (encode_frames_test _ _ _ _ _ Hr) as (t' & -> & Ht').
  pose proof (encode_frames_columns _ _ _ _ _ Hr) as [H1 H2].
  pose proof (transformed_frame_columns _ _ _ _ Hnew) as Hc1.
  exists t'. split; [reflexivity|].
  destruct (transformed_frame_inv _ _ _ _ _ _ Hfit Hnewt)
    as (states & blocks & Xrem & d & Hst & Hbl & Hrem & Hd & Hc & Hv).
  split; [congruence|].
  exists ft, states, blocks, Xrem, d, newt.
  repeat split; try assumption. congruence.
Qed.

End SameTable.

Lemma lookup_output_train (h c : heap) (o1 : DataFrame) (o2 : option DataFrame) :
  (h ++ c ++ new_objects o1 o2) !! (length h + length c) = Some o1.
Proof.
  rewrite lookup_app_r by lia. rewrite lookup_app_r by lia.
  replace (length h + length c - length h - length c) with 0 by lia.
  reflexivity.
Qed.

Lemma lookup_output_test (h c : heap) (o1 t : DataFrame) :
  (h ++ c ++ new_objects o1 (Some t)) !! S (length h + length c) = Some t.
Proof.
  rewrite lookup_app_r by lia. rewrite lookup_app_r by lia.
  replace (S (length h + length c) - length h - length c) with 1 by lia.
  reflexivity.
Qed.

Lemma well_typed_with_X_test (a : arguments) (v : pyval) :
  well_typed a -> permitted "X_test" v = true -> well_typed (with_X_test a v).
Proof.
  intros Hwt Hv.
  destruct (well_typed_permitted a Hwt)
    as (H1 & H2 & H3 & H4 & H5 & H6 & H7 & H8 & H9).
  unfold well_typed. apply check_arg_types_passes. unfold locals, with_X_test.
  cbn [X_train X_test auto OHE standard_scale robust_scale numerical_impute
       categorical_impute label_encode].
  repeat (apply Forall_cons; split; [assumption|]). constructor.
Qed.

Section SameTableCall.
Context {E : Estimators}.

Lemma preproc_returns_well_typed (a : arguments) (h h' : heap)
    (r : loc * option loc) :
  run (preproc a) h = (Return r, h') -> well_typed a.
Proof.
  intros Hrun. unfold well_typed.
  destruct (check_arg_types (locals a)) as [e|[]] eqn:Hc; [|reflexivity].
  rewrite (preproc_type_error _ _ _ Hc) in Hrun. discriminate Hrun.
Qed.

(** C6: take a call without a test table that returns.  The same call with
    the train table passed as the test table also returns, and its two
    output frames are distinct objects with the content of the output of
    the first call.  With any test table, the train output is unchanged, and
    the test output has the column labels of the train output and is made
    with what was fitted on the train table: every estimator is fitted on
    its columns of the train table, the matrix of the test output holds, in
    the order of the transformer list, what the fitted estimators make of
    their columns of the test table, then the remainder columns of the test
    table, and the label-encoding loop is applied to that frame. *)
Theorem same_table_same_output (a : arguments) (h h1 : heap) (l Y1 : loc)
    (df : DataFrame) :
  X_train a = PyDataFrame l -> X_test a = PyNone -> h !! l = Some df ->
  run (preproc a) h = (Return (Y1, None), h1) ->
  (exists Z1 Z2 h2 out,
      run (preproc (with_X_test a (PyDataFrame l))) h =
        (Return (Z1, Some Z2), h2) /\
      Z1 <> Z2 /\
      h1 !! Y1 = Some out /\ h2 !! Z1 = Some out /\ h2 !! Z2 = Some out) /\
  (forall lt dft Z1 Z2 h2,
      h !! lt = Some dft ->
      run (preproc (with_X_test a (PyDataFrame lt))) h = (Return (Z1, Z2), h2) ->
      exists l2 o1 o2,
        Z2 = Some l2 /\ h1 !! Y1 = Some o1 /\ h2 !! Z1 = Some o1 /\
        h2 !! l2 = Some o2 /\ columns o2 = columns o1 /\
        exists O S' t ft states blocks Xrem d new,
          chosen (bool_of (auto a)) df (names_of (OHE a))
            (names_of (standard_scale a)) (names_of (robust_scale a))
            (names_of (numerical_impute a)) (names_of (categorical_impute a))
            (dict_of (label_encode a)) = Return (O, S', t) /\
          ColumnTransformer_fit t df = Return ft /\
          Forall2 (fitted_on df) (fitted_entries t) states /\
          Forall2 (block_of dft) (zip (fitted_entries t) states) blocks /\
          df_loc dft (remainder_columns ft) = Return Xrem /\
          Forall (fun c => cdtype c = d) new /\
          columns new = columns o2 /\
          values new =
            concat blocks ++
            converted (fst (to_numpy Xrem)) d (snd (to_numpy Xrem)) /\
          encode_frames (dict_of (label_encode a)) new None =
            Return (o2, None)).
Proof.
  intros Htrain Htest Hl Hrun.
  pose proof (preproc_returns_well_typed _ _ _ _ Hrun) as Hwt.
  assert (Hl' : h !! frame_of (X_train a) = Some df) by (rewrite Htrain; exact Hl).
  assert (Hnone : test_content h (optional_frame_of (X_test a)) None)
    by (rewrite Htest; exact I).
  pose proof (run_preproc a h df None Hwt Hl' Hnone) as H0. cbn zeta in H0.
  destruct (preproc_frames a df None) as [e|[o1 o2]] eqn:Hframes.
  { destruct H0 as [h' H0]. congruence. }
  destruct H0 as [H0 Ho2].
  assert (o2 = None) as ->.
  { destruct o2; [|reflexivity]. destruct Ho2 as [Ho2 _].
    destruct (Ho2 ltac:(eauto)) as [? [=]]. }
  rewrite Hrun in H0. injection H0 as -> _ ->.
  assert (Hout : (h ++ allocated (bool_of (auto a)) df None ++ new_objects o1 None)
                   !! (length h + length (allocated (bool_of (auto a)) df None)) = Some o1)
    by apply lookup_output_train.
  unfold preproc_frames in Hframes.
  destruct (chosen _ df _ _ _ _ _ _) as [e|[[O Ss] t]] eqn:Hchosen;
    [discriminate|].
  cbn [mbind result_bind] in Hframes.
  split.
  - assert (Hwt' : well_typed (with_X_test a (PyDataFrame l)))
      by (apply well_typed_with_X_test; [exact Hwt|reflexivity]).
    assert (Hc : test_content h
                   (optional_frame_of (X_test (with_X_test a (PyDataFrame l))))
                   (Some df)) by exact Hl.
    pose proof (run_preproc _ h df (Some df) Hwt' Hl' Hc) as H2.
    cbn zeta in H2.
    assert (Hframes' : preproc_frames (with_X_test a (PyDataFrame l)) df (Some df)
                       = Return (o1, Some o1)).
    { unfold preproc_frames. cbn [with_X_test auto OHE standard_scale
        robust_scale numerical_impute categorical_impute label_encode].
      rewrite Hchosen. cbn [mbind result_bind].
      apply outputs_same, Hframes. }
    rewrite Hframes' in H2. destruct H2 as [H2 _].
    eexists _, _, _, o1. split; [exact H2|].
    split; [lia|]. split; [exact Hout|].
    cbn [with_X_test auto].
    split; [apply (lookup_output_train h (allocated (bool_of (auto a)) df (Some df)))
           | apply (lookup_output_test h (allocated (bool_of (auto a)) df (Some df)))].
  - intros lt dft Z1 Z2 h2 Hlt Hrun2.
    assert (Hwt' : well_typed (with_X_test a (PyDataFrame lt)))
      by (apply well_typed_with_X_test; [exact Hwt|reflexivity]).
    assert (Hc : test_content h
                   (optional_frame_of (X_test (with_X_test a (PyDataFrame lt))))
                   (Some dft)) by exact Hlt.
    pose proof (run_preproc _ h df (Some dft) Hwt' Hl' Hc) as H2.
    cbn zeta in H2.
    destruct (preproc_frames (with_X_test a (PyDataFrame lt)) df (Some dft))
      as [e|[p1 p2]] eqn:Hframes2.
    { destruct H2 as [h' H2]. congruence. }
    destruct H2 as [H2 _]. rewrite Hrun2 in H2. injection H2 as -> -> ->.
    unfold preproc_frames in Hframes2.
    cbn [with_X_test auto OHE standard_scale robust_scale numerical_impute
         categorical_impute label_encode] in Hframes2.
    rewrite Hchosen in Hframes2. cbn [mbind result_bind] in Hframes2.
    apply outputs_with_test in Hframes2
      as (Hp1 & t' & -> & Hcols & ft & states & blocks & Xrem & d & new &
          Hfit & Hst & Hbl & Hrem & Hd & Hcn & Hv & Henc).
    assert (p1 = o1) as -> by congruence.
    eexists _, o1, t'.
    split; [reflexivity|]. split; [exact Hout|].
    cbn [with_X_test auto].
    split; [apply (lookup_output_train h (allocated (bool_of (auto a)) df (Some dft)))|].
    split; [apply (lookup_output_test h (allocated (bool_of (auto a)) df (Some dft)))|].
    split; [exact Hcols|].
    exists O, Ss, t, ft, states, blocks, Xrem, d, new.
    repeat split; try assumption. congruence.
Qed.

End SameTableCall.

(** ** The default call *)

Lemma filter_not_in_nil (l : list string) :
  filter (fun x => Is_true (negb (name_in x []))) l = l.
Proof.
  induction l as [|x l IH]; [reflexivity|].
  rewrite filter_cons, IH. reflexivity.
Qed.

Lemma filter_not_elem_of_nil (l : list nat) :
  filter (fun i => i ∉ @nil nat) l = l.
Proof.
  induction l as [|x l IH]; [reflexivity|].
  rewrite filter_cons, IH. rewrite decide_True; [reflexivity|].
  apply not_elem_of_nil.
Qed.

(** Selecting every position gives the frame back. *)
Lemma iloc_all (pre df : DataFrame) :
  iloc (pre ++ df) (seq (length pre) (length df)) = Return df.
Proof.
  revert pre. induction df as [|c df IH]; intros pre; [reflexivity|].
  unfold iloc in *. cbn [length seq mapM].
  rewrite list_lookup_middle by reflexivity.
  cbn [mbind result_bind].
  specialize (IH (pre ++ [c])). rewrite <- app_assoc in IH. cbn in IH.
  rewrite length_app in IH. cbn in IH.
  replace (length pre + 1) with (S (length pre)) in IH by lia.
  rewrite IH. reflexivity.
Qed.

Lemma DataFrame_new_returns (d : dtype) (data : ndarray)
    (names : list string) :
  length data = length names ->
  DataFrame_new (Dense d data) names =
    Return (zip_with (fun name vs => Column name d vs) names data).
Proof.
  intros Hlen. unfold DataFrame_new.
  rewrite (proj2 (Nat.eqb_eq _ _) Hlen). reflexivity.
Qed.

Lemma omap_lookup_seq {A} (pre l : list A) :
  omap (fun i => (pre ++ l) !! i) (seq (length pre) (length l)) = l.
Proof.
  revert pre. induction l as [|x l IH]; intros pre; [reflexivity|].
  change (seq (length pre) (length (x :: l)))
    with (length pre :: seq (S (length pre)) (length l)).
  change (omap ?f (?i :: ?rest))
    with (match f i with Some y => y :: omap f rest | None => omap f rest end).
  cbn beta. rewrite list_lookup_middle by reflexivity.
  specialize (IH (pre ++ [x])). rewrite <- app_assoc, length_app in IH.
  cbn in IH. replace (length pre + 1) with (S (length pre)) in IH by lia.
  rewrite IH. reflexivity.
Qed.

Lemma astype_object (v : cell) : astype object v = v.
Proof. destruct v; reflexivity. Qed.

Lemma dtype_eqb_eq (a b : dtype) : dtype_eqb a b = true <-> a = b.
Proof. destruct a, b; cbn; split; intros H; congruence. Qed.

Lemma dtype_eqb_refl (a : dtype) : dtype_eqb a a = true.
Proof. apply dtype_eqb_eq. reflexivity. Qed.

Lemma converted_same (d : dtype) (data : ndarray) : converted d d data = data.
Proof. unfold converted. rewrite dtype_eqb_refl. reflexivity. Qed.

(** The array of a frame holds the values of the frame as they are when all
    columns have one dtype or the common dtype is [object]. *)
Lemma to_numpy_values (df : DataFrame) :
  no_conversion df -> snd (to_numpy df) = values df.
Proof.
  unfold no_conversion.
  intros H. unfold to_numpy, values. cbn [fst snd] in *.
  apply map_ext_in. intros c Hc.
  destruct (dtype_eqb (cdtype c) (find_common_type (map cdtype df))) eqn:He;
    [reflexivity|].
  assert (Ho : find_common_type (map cdtype df) = object).
  { destruct H as [[d Hd]|H]; [|exact H].
    destruct df as [|c0 df]; [destruct Hc|].
    apply Forall_cons in Hd as [H0 Hd]. cbn [map find_common_type].
    assert (Hall : forallb (dtype_eqb (cdtype c0)) (map cdtype df) = true).
    { apply forallb_forall. intros x Hx. apply in_map_iff in Hx as (y & <- & Hy).
      apply dtype_eqb_eq. rewrite Forall_forall in Hd.
      rewrite (Hd y) by (apply list_elem_of_In, Hy). exact H0. }
    cbn [map find_common_type] in He. rewrite Hall in He |- *.
    assert (Hcd : cdtype c = d).
    { destruct Hc as [<-|Hc]; [exact H0|].
      rewrite Forall_forall in Hd. apply Hd, list_elem_of_In, Hc. }
    rewrite Hcd, H0 in *. destruct d; try reflexivity; discriminate He. }
  rewrite Ho. clear. induction (cvalues c) as [|v l IH]; [reflexivity|].
  cbn [map]. rewrite astype_object, IH. reflexivity.
Qed.

Lemma as_array_columns (df : DataFrame) : columns (as_array df) = columns df.
Proof.
  unfold as_array, to_numpy, columns. cbn [fst snd].
  generalize (find_common_type (map cdtype df)). intros d.
  induction df as [|c df IH]; [reflexivity|]. cbn. rewrite IH. reflexivity.
Qed.

Lemma as_array_values (df : DataFrame) :
  values (as_array df) = snd (to_numpy df).
Proof.
  unfold as_array, to_numpy, values. cbn [fst snd].
  generalize (find_common_type (map cdtype df)). intros d.
  induction df as [|c df IH]; [reflexivity|]. cbn. rewrite IH. reflexivity.
Qed.

Section Defaults.
Context {E : Estimators}.

(** With no column listed, fitting fits nothing and every position is in
    the remainder. *)
Lemma fit_nothing (df : DataFrame) :
  ColumnTransformer_fit (transformer_manual [] [] [] [] []) df =
  Return (mk_Fitted [] (seq 0 (length df)) (columns df) false).
Proof.
  unfold ColumnTransformer_fit, transformer_manual.
  cbn [transformers remainder map snd concat app mapM mbind result_bind
       mret result_ret String.eqb Ascii.eqb Bool.eqb].
  rewrite filter_not_elem_of_nil.
  destruct df as [|c df]; [reflexivity|].
  pose proof (iloc_all [] (c :: df)) as Hall. cbn [app length] in Hall.
  cbn [length seq] in Hall |- *. rewrite Hall.
  cbn [mbind result_bind mret result_ret sparse_output existsb map].
  unfold ColumnTransformer_hstack, np_hstack.
  destruct (to_numpy (c :: df)) as [dr R]. reflexivity.
Qed.

Lemma remainder_columns_all (df : DataFrame) :
  remainder_columns (mk_Fitted [] (seq 0 (length df)) (columns df) false) =
  columns df.
Proof.
  unfold remainder_columns. cbn [feature_names_in_ remaining_idx].
  pose proof (omap_lookup_seq [] (columns df)) as H. cbn [app length] in H.
  unfold columns in H |- *. rewrite length_map in H. exact H.
Qed.

Lemma no_column_missing (names all : list string) :
  (forall n, In n names -> In n all) ->
  List.filter (fun n => negb (name_in n all)) names = [].
Proof.
  intros H. induction names as [|n names IH]; [reflexivity|].
  cbn [List.filter].
  assert (Hn : name_in n all = true).
  { unfold name_in. apply existsb_exists. exists n.
    split; [apply H; left; reflexivity|apply String.eqb_refl]. }
  rewrite Hn. cbn. apply IH. intros m Hm. apply H. right. exact Hm.
Qed.

(** The remainder alone: the matrix is the array of the frame. *)
Lemma transform_remainder (df X : DataFrame) :
  columns X = columns df -> NoDup (columns df) ->
  ColumnTransformer_transform
    (mk_Fitted [] (seq 0 (length df)) (columns df) false) X =
  Return (Dense (fst (to_numpy X)) (snd (to_numpy X))).
Proof.
  intros Hcols Hnd. unfold ColumnTransformer_transform.
  rewrite remainder_columns_all, Hcols.
  rewrite no_column_missing by auto.
  cbn [transformers_ sparse_output_ mapM mbind result_bind mret result_ret].
  destruct (columns df) as [|n names] eqn:Hdf.
  - destruct X; [reflexivity|discriminate Hcols].
  - rewrite <- Hcols, df_loc_all by (rewrite Hcols; exact Hnd).
    cbn [mbind result_bind mret result_ret].
    unfold ColumnTransformer_hstack, np_hstack.
    destruct (to_numpy X) as [dr R]. cbn. rewrite converted_same. reflexivity.
Qed.

Lemma transformed_frame_remainder (df X : DataFrame) :
  columns X = columns df -> NoDup (columns df) ->
  transformed_frame (mk_Fitted [] (seq 0 (length df)) (columns df) false) X
    (columns df) = Return (as_array X).
Proof.
  intros Hcols Hnd. unfold transformed_frame.
  rewrite (transform_remainder df X Hcols Hnd). cbn [mbind result_bind].
  rewrite DataFrame_new_returns.
  - f_equal. unfold as_array. rewrite <- Hcols. unfold columns.
    generalize (to_numpy X).2 as R. generalize (to_numpy X).1 as d.
    intros d R. clear. revert R. induction X as [|c X' IH]; intros [|v R];
      try reflexivity.
    cbn. f_equal. apply IH.
  - unfold to_numpy. cbn [snd]. rewrite <- Hcols. unfold columns.
    rewrite !length_map. reflexivity.
Qed.

(** The frames of the default call: the arrays of the inputs. *)
Lemma preproc_frames_defaults (v1 v2 : pyval) (df : DataFrame)
    (dft : option DataFrame) :
  NoDup (columns df) ->
  (forall d, dft = Some d -> columns d = columns df) ->
  preproc_frames (defaults v1 v2) df dft =
    Return (as_array df, as_array <$> dft).
Proof.
  intros Hnd Hcols. unfold preproc_frames, defaults.
  cbn [auto OHE standard_scale robust_scale numerical_impute
       categorical_impute label_encode bool_of names_of dict_of chosen
       mbind result_bind mret result_ret].
  unfold outputs. rewrite fit_nothing.
  cbn [mbind result_bind length Nat.ltb Nat.leb app].
  rewrite filter_not_in_nil.
  rewrite (transformed_frame_remainder df df eq_refl Hnd).
  cbn [mbind result_bind].
  destruct dft as [d|]; [|reflexivity].
  rewrite (transformed_frame_remainder df d (Hcols d eq_refl) Hnd).
  reflexivity.
Qed.

(** What the array of a frame keeps of the frame. *)
Lemma as_array_facts (X : DataFrame) :
  columns (as_array X) = columns X /\
  values (as_array X) = snd (to_numpy X) /\
  (no_conversion X -> values (as_array X) = values X).
Proof.
  split; [apply as_array_columns|]. split; [apply as_array_values|].
  intros H. rewrite as_array_values. apply to_numpy_values, H.
Qed.

(** C9, as the code has it: on a train table with distinct labels the call
    with every default returns the array of that table as a frame: the
    column labels of the table, in order, and its values converted to the
    common dtype of its columns.  The values are those of the table when
    all columns have one dtype or the common dtype is [object].  With a
    test table that has the same column labels, the same holds of the test
    output. *)
Theorem defaults_give_the_array (h : heap) (l : loc) (df : DataFrame) :
  h !! l = Some df -> NoDup (columns df) ->
  (exists Y h' out,
      run (preproc (defaults (PyDataFrame l) PyNone)) h =
        (Return (Y, None), h') /\
      h' !! Y = Some out /\ out = as_array df /\
      columns out = columns df /\
      values out = snd (to_numpy df) /\
      (no_conversion df -> values out = values df)) /\
  (forall lt dft,
      h !! lt = Some dft -> columns dft = columns df ->
      exists Y1 Y2 h' out outt,
        run (preproc (defaults (PyDataFrame l) (PyDataFrame lt))) h =
          (Return (Y1, Some Y2), h') /\
        h' !! Y1 = Some out /\ h' !! Y2 = Some outt /\
        out = as_array df /\ outt = as_array dft /\
        columns out = columns df /\ columns outt = columns dft /\
        values out = snd (to_numpy df) /\ values outt = snd (to_numpy dft) /\
        (no_conversion df -> values out = values df) /\
        (no_conversion dft -> values outt = values dft)).
Proof.
  intros Hl Hnd.
  destruct (as_array_facts df) as (Hc & Hv & Hsame).
  split.
  - pose proof (preproc_frames_defaults (PyDataFrame l) PyNone df None Hnd)
      as Hf.
    pose proof (run_preproc (defaults (PyDataFrame l) PyNone) h df None
                  eq_refl Hl I) as Hrun.
    cbn zeta in Hrun. rewrite Hf in Hrun by (intros d [=]).
    destruct Hrun as [Hrun _].
    eexists _, _, (as_array df). split; [exact Hrun|].
    split; [apply (lookup_output_train h (allocated false df None))|].
    auto.
  - intros lt dft Hlt Hcols.
    destruct (as_array_facts dft) as (Hct & Hvt & Hsamet).
    pose proof (preproc_frames_defaults (PyDataFrame l) (PyDataFrame lt) df
                  (Some dft) Hnd) as Hf.
    pose proof (run_preproc (defaults (PyDataFrame l) (PyDataFrame lt)) h df
                  (Some dft) eq_refl Hl Hlt) as Hrun.
    cbn zeta in Hrun. rewrite Hf in Hrun by (intros d [= <-]; exact Hcols).
    destruct Hrun as [Hrun _].
    eexists _, _, _, (as_array df), (as_array dft). split; [exact Hrun|].
    split; [apply (lookup_output_train h (allocated false df (Some dft)))|].
    split; [apply (lookup_output_test h (allocated false df (Some dft)))|].
    repeat split; auto.
Qed.

End Defaults.

(** ** The labels of the output *)

(** A well-typed call on existing tables has a train content and, if a test
    table is passed, a test content. *)
Lemma call_contents (a : arguments) (h : heap) :
  well_typed a -> refs_valid a h ->
  exists df dft,
    h !! frame_of (X_train a) = Some df /\
    test_content h (optional_frame_of (X_test a)) dft /\
    (dft = None <-> X_test a = PyNone).
Proof.
  intros Hwt [Htrain Htest].
  destruct (well_typed_permitted a Hwt) as (H1 & H2 & _).
  destruct (X_train a) as [| | | | | | | |l] eqn:Hx; try discriminate H1.
  destruct (Htrain l eq_refl) as [df Hdf].
  destruct (X_test a) as [| | | | | | | |lt] eqn:Ht; try discriminate H2.
  - exists df, None. cbn. repeat split; auto.
  - destruct (Htest lt eq_refl) as [d Hd].
    exists df, (Some d). cbn. repeat split; auto; discriminate.
Qed.

Lemma lookup_map {A B} (f : A -> B) (l : list A) (i : nat) :
  map f l !! i = option_map f (l !! i).
Proof.
  revert i. induction l as [|x l IH]; intros [|i]; try reflexivity. apply IH.
Qed.

Lemma get_loc_lookup (n : string) (X : DataFrame) :
  forall i j, In j (get_loc n X i) ->
    exists k, j = i + k /\ columns X !! k = Some n.
Proof.
  induction X as [|c X IH]; intros i j Hj; [destruct Hj|].
  cbn [get_loc] in Hj. apply in_app_or in Hj as [Hj|Hj].
  - destruct (String.eqb_spec (cname c) n) as [Hc|Hc]; [|destruct Hj].
    destruct Hj as [<-|[]]. exists 0. split; [lia|]. cbn. congruence.
  - destruct (IH _ _ Hj) as (k & -> & Hk). exists (S k). split; [lia|exact Hk].
Qed.

Lemma column_index_lookup (X : DataFrame) (n : string) (j : nat) :
  column_index X n = Return j -> columns X !! j = Some n.
Proof.
  unfold column_index.
  destruct (get_loc n X 0) as [|i [|i' l]] eqn:Hloc; try discriminate.
  intros [= <-].
  destruct (get_loc_lookup n X 0 i) as (k & -> & Hk);
    [rewrite Hloc; left; reflexivity|exact Hk].
Qed.

(** The columns a transformer is given carry the listed names. *)
Lemma select_columns (X Xsub : DataFrame) (names : list string) :
  select X names = Return Xsub -> columns Xsub = names.
Proof.
  unfold select.
  destruct (mapM (column_index X) names) as [e|idx] eqn:Hidx; [discriminate|].
  cbn [mbind result_bind]. unfold iloc. intros Hsub.
  apply mapM_Return in Hidx. apply mapM_Return in Hsub.
  revert Xsub Hsub.
  induction Hidx as [|n i names idx Hn _ IH]; intros Xsub Hsub.
  - inversion Hsub. reflexivity.
  - inversion Hsub as [|? c ? cs Hc Hcs]; subst.
    cbn [columns map]. f_equal; [|apply IH, Hcs].
    apply column_index_lookup in Hn. unfold columns in Hn.
    rewrite lookup_map in Hn.
    destruct (X !! i) as [c'|]; [|discriminate Hc].
    injection Hc as ->. cbn in Hn. congruence.
Qed.

Section OutputLabels.
Context {E : Estimators}.

(** The state found under a name was learned by an entry of that name. *)
Lemma named_transformer_fitted (df : DataFrame)
    (entries : list (string * estimator * list string)) :
  forall (states : list fitted) (name : string) (state : fitted),
    Forall2 (fitted_on df) entries states ->
    named_transformers_
      (map (fun es => (es.1.1.1, es.2, es.1.2)) (zip entries states)) name =
      Some state ->
    exists e, In e entries /\ e.1.1 = name /\ fitted_on df e state.
Proof.
  intros states name state Hst.
  induction Hst as [|e st entries states He _ IH]; [discriminate|].
  cbn [zip zip_with map named_transformers_ fst snd].
  destruct (String.eqb_spec e.1.1 name) as [Hn|Hn].
  - intros [= <-]. exists e. split; [left; reflexivity|]. auto.
  - intros H. destruct (IH H) as (e' & Hin & Hname & Hon).
    exists e'. split; [right; exact Hin|]. auto.
Qed.

(** The encoder line 140 asks for its feature names is the one-hot encoder
    of the transformer, fitted on the one-hot columns of the train table. *)
Lemma one_hot_state (drop : option string) (C N O S' R : list string)
    (t : ColumnTransformer) (df : DataFrame) (ft : FittedColumnTransformer)
    (one_hot : fitted) :
  ColumnTransformer_fit t df = Return ft ->
  named_transformers_ (transformers_ ft) "one_hot" = Some one_hot ->
  transformers t =
    [ ("cat_imputer", SimpleImputer "constant" (Some "missing"), C);
      ("num_imputer", SimpleImputer "median" None, N);
      ("one_hot", OneHotEncoder drop, O);
      ("standard_scalar", StandardScaler, S');
      ("robust_scalar", RobustScaler, R) ] ->
  fitted_on df ("one_hot", OneHotEncoder drop, O) one_hot.
Proof.
  intros Hfit Hnamed Ht.
  destruct (fit_entries _ _ _ Hfit) as (states & Hst & Htr).
  rewrite Htr in Hnamed.
  destruct (named_transformer_fitted _ _ _ _ _ Hst Hnamed)
    as (e & Hin & Hname & Hon).
  unfold fitted_entries in Hin. rewrite Ht in Hin.
  apply list_elem_of_In, list_elem_of_filter in Hin as [_ Hin].
  apply list_elem_of_In in Hin. cbn in Hin.
  destruct Hin as [<-|[<-|[<-|[<-|[<-|[]]]]]]; try discriminate Hname.
  exact Hon.
Qed.

(** The labels of the outputs: the feature names of the fitted one-hot
    encoder, then the labels of the train table that are not one-hot
    encoded. *)
Lemma outputs_labels_pair (O : list string) (t : ColumnTransformer)
    (D : list (string * list string)) (df o1 : DataFrame)
    (dft o2 : option DataFrame) :
  outputs O t D df dft = Return (o1, o2) ->
  exists ft ohe_columns,
    ColumnTransformer_fit t df = Return ft /\
    columns o1 =
      ohe_columns ++
      filter (fun x => Is_true (negb (name_in x O))) (columns df) /\
    (O = [] -> ohe_columns = []) /\
    (O <> [] ->
     exists one_hot,
       named_transformers_ (transformers_ ft) "one_hot" = Some one_hot /\
       get_feature_names one_hot O = inr ohe_columns) /\
    (forall t', o2 = Some t' -> columns t' = columns o1).
Proof.
  unfold outputs.
  destruct (ColumnTransformer_fit t df) as [e|ft]; [discriminate|].
  cbn [mbind result_bind].
  match goal with
  | |- context [mbind _ ?c] =>
      match type of c with
      | result (list string) => destruct c as [e|ohe] eqn:Hohe
      end
  end; [discriminate|].
  cbn [mbind result_bind].
  destruct (transformed_frame ft df _) as [e|new] eqn:Hnew; [discriminate|].
  cbn [mbind result_bind mret result_ret].
  apply transformed_frame_columns in Hnew.
  assert (Hnil : O = [] -> ohe = []).
  { intros ->. cbn in Hohe. congruence. }
  assert (Hne : O <> [] ->
                exists one_hot,
                  named_transformers_ (transformers_ ft) "one_hot" =
                    Some one_hot /\
                  get_feature_names one_hot O = inr ohe).
  { intros HO. destruct O as [|o O]; [congruence|].
    cbn [length Nat.ltb Nat.leb] in Hohe.
    destruct (named_transformers_ (transformers_ ft) "one_hot")
      as [one_hot|]; [|discriminate Hohe].
    exists one_hot. split; [reflexivity|].
    destruct (get_feature_names one_hot (o :: O)); [discriminate Hohe|].
    cbn in Hohe. congruence. }
  destruct dft as [d|].
  - destruct (transformed_frame ft d _) as [e|newt] eqn:Hnewt; [discriminate|].
    cbn [mbind result_bind mret result_ret]. intros Hr.
    apply transformed_frame_columns in Hnewt.
    apply encode_frames_columns in Hr as [H1 H2].
    exists ft, ohe. split; [reflexivity|]. split; [congruence|].
    split; [exact Hnil|]. split; [exact Hne|].
    intros t' ->. congruence.
  - cbn [mbind result_bind mret result_ret]. intros Hr.
    apply encode_frames_columns in Hr as [H1 H2].
    exists ft, ohe. split; [reflexivity|]. split; [congruence|].
    split; [exact Hnil|]. split; [exact Hne|].
    intros t' ->. contradiction.
Qed.

(** The labels of the frames a call returns. *)
Lemma call_labels (a : arguments) (h h' : heap) (Y1 : loc)
    (Y2 : option loc) :
  refs_valid a h ->
  run (preproc a) h = (Return (Y1, Y2), h') ->
  exists df out ohe_columns,
    h !! frame_of (X_train a) = Some df /\
    h' !! Y1 = Some out /\
    columns out =
      ohe_columns ++
      filter (fun x => Is_true (negb (name_in x (one_hot_list a df))))
             (columns df) /\
    (one_hot_list a df = [] -> ohe_columns = []) /\
    (one_hot_list a df <> [] ->
     exists Xsub one_hot,
       select df (one_hot_list a df) = Return Xsub /\
       fit (OneHotEncoder (if bool_of (auto a) then Some "first" else None))
           Xsub = inr one_hot /\
       get_feature_names one_hot (one_hot_list a df) = inr ohe_columns) /\
    (forall l, Y2 = Some l ->
               exists outt, h' !! l = Some outt /\ columns outt = columns out).
Proof.
  intros Hrefs Hrun.
  pose proof (preproc_returns_well_typed _ _ _ _ Hrun) as Hwt.
  destruct (call_contents a h Hwt Hrefs) as (df & dft & Hdf & Hdft & _).
  pose proof (run_preproc a h df dft Hwt Hdf Hdft) as H. cbn zeta in H.
  destruct (preproc_frames a df dft) as [e|[o1 o2]] eqn:Hf.
  { destruct H as [h'' H]. congruence. }
  destruct H as [H Ho]. rewrite Hrun in H. injection H as -> -> ->.
  assert (Hlabels : exists ohe,
    columns o1 =
      ohe ++ filter (fun x => Is_true (negb (name_in x (one_hot_list a df))))
                    (columns df) /\
    (one_hot_list a df = [] -> ohe = []) /\
    (one_hot_list a df <> [] ->
     exists Xsub one_hot,
       select df (one_hot_list a df) = Return Xsub /\
       fit (OneHotEncoder (if bool_of (auto a) then Some "first" else None))
           Xsub = inr one_hot /\
       get_feature_names one_hot (one_hot_list a df) = inr ohe) /\
    (forall t', o2 = Some t' -> columns t' = columns o1)).
  { unfold preproc_frames, chosen, one_hot_list in *.
    destruct (bool_of (auto a)).
    - destruct (check_manual_unset _) as [e|[]]; [discriminate|].
      cbn [mbind result_bind] in Hf.
      destruct (Nat.ltb 0 _); [discriminate|].
      cbn [mbind result_bind mret result_ret] in Hf.
      destruct (outputs_labels_pair _ _ _ _ _ _ _ Hf)
        as (ft & ohe & Hfit & Hc & Hnil & Hne & Ht).
      exists ohe. split; [exact Hc|]. split; [exact Hnil|].
      split; [|exact Ht]. intros HO.
      destruct (Hne HO) as (one_hot & Hnamed & Hnames).
      destruct (one_hot_state (Some "first") _ _ _ _ _ _ _ _ _
                  Hfit Hnamed eq_refl) as (Xsub & Hsel & Hfit1).
      exists Xsub, one_hot. auto.
    - cbn [mbind result_bind mret result_ret] in Hf.
      destruct (outputs_labels_pair _ _ _ _ _ _ _ Hf)
        as (ft & ohe & Hfit & Hc & Hnil & Hne & Ht).
      exists ohe. split; [exact Hc|]. split; [exact Hnil|].
      split; [|exact Ht]. intros HO.
      destruct (Hne HO) as (one_hot & Hnamed & Hnames).
      destruct (one_hot_state None _ _ _ _ _ _ _ _ _
                  Hfit Hnamed eq_refl) as (Xsub & Hsel & Hfit1).
      exists Xsub, one_hot. auto. }
  destruct Hlabels as (ohe & Hcols & Hnil & Hne & Htest).
  exists df, o1, ohe. split; [exact Hdf|].
  split; [apply (lookup_output_train h
                   (allocated (bool_of (auto a)) df dft))|].
  split; [exact Hcols|]. split; [exact Hnil|]. split; [exact Hne|].
  intros l Hl. destruct (optional_frame_of (X_test a)); [|discriminate Hl].
  cbn in Hl. injection Hl as <-.
  destruct dft as [d|]; [|contradiction].
  destruct o2 as [t|]; [|destruct Ho as [_ Ho]; destruct Ho as [? [=]]; eauto].
  exists t.
  split; [apply (lookup_output_test h
                   (allocated (bool_of (auto a)) df (Some d)))|].
  auto.
Qed.

End OutputLabels.

(** ** The remainder columns *)

Lemma omap_cons {A B} (f : A -> option B) (x : A) (l : list A) :
  omap f (x :: l) =
  match f x with Some y => y :: omap f l | None => omap f l end.
Proof. reflexivity. Qed.

(** The elements at the positions that satisfy [P], when [P] of a position
    is [Q] of the element there. *)
Lemma omap_lookup_filter {A} (P : nat -> Prop) (Q : A -> Prop)
    `{!forall i, Decision (P i)} `{!forall x, Decision (Q x)} (l : list A) :
  forall pre : list A,
    (forall i x, (pre ++ l) !! i = Some x -> (P i <-> Q x)) ->
    omap (fun i => (pre ++ l) !! i) (filter P (seq (length pre) (length l))) =
    filter Q l.
Proof.
  induction l as [|x l IH]; intros pre HPQ; [reflexivity|].
  cbn [length seq]. rewrite !filter_cons.
  assert (Hx : (pre ++ x :: l) !! length pre = Some x)
    by (apply list_lookup_middle; reflexivity).
  assert (IH' : omap (fun i => (pre ++ x :: l) !! i)
                     (filter P (seq (S (length pre)) (length l))) =
                filter Q l).
  { specialize (IH (pre ++ [x])). rewrite <- app_assoc, length_app in IH.
    cbn in IH. replace (length pre + 1) with (S (length pre)) in IH by lia.
    apply IH. exact HPQ. }
  pose proof (HPQ _ _ Hx) as Hiff.
  destruct (decide (P (length pre))) as [HP|HP],
           (decide (Q x)) as [HQ|HQ];
    [|exfalso; tauto|exfalso; tauto|exact IH'].
  rewrite omap_cons, Hx, IH'. reflexivity.
Qed.

(** In a frame with distinct labels, the positions of the listed names are
    the positions of the columns with a listed label. *)
Lemma listed_index (df : DataFrame) (names : list string) (cols : list nat) :
  NoDup (columns df) ->
  mapM (column_index df) names = Return cols ->
  forall i n, columns df !! i = Some n -> (i ∈ cols <-> n ∈ names).
Proof.
  intros Hnd Hcols i n Hi. apply mapM_Return in Hcols.
  induction Hcols as [|m j names cols Hmj _ IH].
  - split; intros H; inversion H.
  - apply column_index_lookup in Hmj. rewrite !elem_of_cons, IH.
    split; intros [H|H]; auto.
    + subst j. left. congruence.
    + subst m. left. eapply NoDup_lookup; eassumption.
Qed.

Section Remainder.
Context {E : Estimators}.

(** After a fit on a frame with distinct labels, the remainder columns are
    the labels of the frame that no transformer lists, in the order of the
    frame. *)
Lemma fit_remainder_columns (t : ColumnTransformer) (df : DataFrame)
    (ft : FittedColumnTransformer) :
  NoDup (columns df) -> remainder t = "passthrough" ->
  ColumnTransformer_fit t df = Return ft ->
  remainder_columns ft =
  filter (fun n => n ∉ concat (map snd (transformers t))) (columns df).
Proof.
  intros Hnd Hrem Hfit.
  destruct (fit_inv _ _ _ Hfit) as (cols & fl & Hcols & _ & _ & Hidx & Hnames).
  unfold remainder_columns. rewrite Hidx, Hnames, Hrem.
  change (String.eqb "passthrough" "passthrough") with true. cbn iota.
  pose proof (omap_lookup_filter
                (fun i => i ∉ cols)
                (fun n => n ∉ concat (map snd (transformers t)))
                (columns df) []) as Hall.
  cbn [app length] in Hall. unfold columns in Hall at 3.
  rewrite length_map in Hall.
  apply Hall. intros i n Hi.
  rewrite (listed_index df _ cols Hnd Hcols i n Hi). reflexivity.
Qed.

End Remainder.

(** In a frame with distinct labels, a label names one column. *)
Lemma same_label_same_column (df : DataFrame) (c c' : column) :
  NoDup (columns df) -> In c df -> In c' df -> cname c = cname c' -> c = c'.
Proof.
  induction df as [|x df IH]; intros Hnd Hc Hc' Hn; [destruct Hc|].
  cbn [columns map] in Hnd. apply NoDup_cons in Hnd as [Hx Hnd].
  destruct Hc as [->|Hc], Hc' as [->|Hc']; auto.
  - exfalso. apply Hx. rewrite Hn. apply list_elem_of_In, in_map, Hc'.
  - exfalso. apply Hx. rewrite <- Hn. apply list_elem_of_In, in_map, Hc.
Qed.

(** Filtering the labels by a property of the labels that is a property of
    the columns. *)
Lemma filter_columns (Q : string -> Prop) (P : column -> Prop)
    `{!forall n, Decision (Q n)} `{!forall c, Decision (P c)}
    (df : DataFrame) :
  (forall c, In c df -> (Q (cname c) <-> P c)) ->
  filter Q (columns df) = columns (filter P df).
Proof.
  induction df as [|c df IH]; intros HQP; [reflexivity|].
  cbn [columns map]. rewrite !filter_cons.
  fold (columns df). rewrite IH by (intros c' Hc'; apply HQP; right; exact Hc').
  pose proof (HQP c ltac:(left; reflexivity)) as Hc.
  destruct (decide (Q (cname c))), (decide (P c)); try tauto; reflexivity.
Qed.

(** The labels of the columns of a class, in a frame with distinct
    labels. *)
Lemma class_labels (P : column -> Prop) `{!forall c, Decision (P c)}
    (df : DataFrame) (c : column) :
  NoDup (columns df) -> In c df ->
  (cname c ∈ columns (filter P df) <-> P c).
Proof.
  intros Hnd Hc. rewrite list_elem_of_In. unfold columns. rewrite in_map_iff.
  split.
  - intros (c' & Hn & Hin).
    apply list_elem_of_In, list_elem_of_filter in Hin as [HP Hin].
    apply list_elem_of_In in Hin.
    rewrite (same_label_same_column df c c' Hnd Hc Hin (eq_sym Hn)). exact HP.
  - intros HP. exists c. split; [reflexivity|].
    apply list_elem_of_In, list_elem_of_filter. split; [exact HP|].
    apply list_elem_of_In, Hc.
Qed.

(** ** Automatic mode *)

(** Every dtype is in exactly one of the three classes of automatic
    mode. *)
Lemma dtype_classes (c : column) :
  (float64_or_int64 c /\ ~ categorical c /\ ~ passed_through c) \/
  (~ float64_or_int64 c /\ categorical c /\ ~ passed_through c) \/
  (~ float64_or_int64 c /\ ~ categorical c /\ passed_through c).
Proof.
  unfold float64_or_int64, categorical, passed_through.
  destruct (cdtype c); intuition (auto; discriminate).
Qed.

(** The example encoder names its features as scikit-learn's does. *)
Lemma strings_cell_strings (vs : list cell) (l : list string) :
  Example.strings vs = inr l -> l = cell_strings vs.
Proof.
  revert l. induction vs as [|v vs IH]; intros l.
  - intros [= <-]. reflexivity.
  - unfold Example.strings in *. cbn [foldr].
    destruct (foldr _ _ vs) as [m|l']; destruct v; try discriminate.
    intros [= <-]. unfold cell_strings. rewrite omap_cons.
    f_equal. apply IH. reflexivity.
Qed.

Lemma collect_strings (X : DataFrame) (cols : list (list string)) :
  Example.collect (fun c => Example.strings (cvalues c)) X = inr cols ->
  cols = map (fun c => cell_strings (cvalues c)) X.
Proof.
  revert cols. induction X as [|c X IH]; intros cols.
  - intros [= <-]. reflexivity.
  - unfold Example.collect in *. cbn [foldr].
    destruct (Example.strings (cvalues c)) as [m|l] eqn:Hl; [discriminate|].
    destruct (foldr _ _ X) as [m|ls]; [discriminate|].
    intros [= <-]. cbn [map]. f_equal.
    + apply strings_cell_strings, Hl.
    + apply IH. reflexivity.
Qed.

Lemma example_names_as_scikit_learn :
  names_as_scikit_learn Example.estimators.
Proof.
  intros drop X state Hdrop _ Hfit.
  cbn [fit get_feature_names Example.estimators] in Hfit |- *.
  unfold Example.example_fit in Hfit.
  destruct (Example.no_rows X); [discriminate Hfit|].
  destruct (Example.collect _ X) as [m|cols] eqn:Hcols; [discriminate Hfit|].
  injection Hfit as <-. apply collect_strings in Hcols. subst cols.
  unfold Example.example_feature_names, columns.
  rewrite !length_map, Nat.eqb_refl. cbn [negb]. f_equal.
  unfold feature_names.
  assert (Hkept : forall cats,
            Example.retained (match drop with
                              | Some d => String.eqb d "first"
                              | None => false
                              end) cats = kept drop cats).
  { intros cats. unfold Example.retained, kept.
    destruct drop as [d|]; [destruct (String.eqb d "first")|]; reflexivity. }
  generalize (map cname X) as names.
  induction X as [|c X IH]; intros [|n names]; try reflexivity.
  cbn [map zip_with concat]. rewrite Hkept, IH. reflexivity.
Qed.

Section AutomaticMode.
Context {E : Estimators}.

(** C4, as the code has it: in automatic mode the plan has the [float64]
    and [int64] columns of the train table as standard-scale targets and
    its [object], [bool] and [category] columns as one-hot targets, in the
    order of the table, no column for the imputers and the robust scaler,
    and a one-hot encoder built with [drop='first']; the two selections are
    new frames.  Every column is in exactly one of three classes: those two
    and the columns of the other dtypes, a numeric column of another width
    among them; in a table with distinct labels these are the remainder of
    the fitted transformer and pass through.  A call that
    goes through automatic mode has every manual setting empty.  Manual
    mode takes the lists from the caller and builds the one-hot encoder
    without [drop].  When the encoder names its features as scikit-learn's
    does, the labels of the train output of a call begin with one label for
    every category of every one-hot column of strings, without the first
    category of the column in automatic mode and with every category in
    manual mode. *)
Theorem automatic_mode_plan (h : heap) (l : loc) (df : DataFrame) :
  h !! l = Some df ->
  run (choose_transformer l true [] [] [] [] [] []) h =
    (Return (columns (filter categorical df),
             columns (filter float64_or_int64 df),
             {| transformers :=
                  [ ("cat_imputer", SimpleImputer "constant" (Some "missing"),
                     []);
                    ("num_imputer", SimpleImputer "median" None, []);
                    ("one_hot", OneHotEncoder (Some "first"),
                     columns (filter categorical df));
                    ("standard_scalar", StandardScaler,
                     columns (filter float64_or_int64 df));
                    ("robust_scalar", RobustScaler, []) ];
                remainder := "passthrough" |}),
     h ++ [filter float64_or_int64 df; filter categorical df]) /\
  (forall c, In c df ->
     (float64_or_int64 c /\ ~ categorical c /\ ~ passed_through c) \/
     (~ float64_or_int64 c /\ categorical c /\ ~ passed_through c) \/
     (~ float64_or_int64 c /\ ~ categorical c /\ passed_through c)) /\
  (forall c, In c df -> numeric c -> ~ float64_or_int64 c ->
             passed_through c) /\
  (forall ft,
     NoDup (columns df) ->
     ColumnTransformer_fit
       (transformer_auto [] [] (columns (filter categorical df))
                         (columns (filter float64_or_int64 df)) []) df =
       Return ft ->
     remainder_columns ft = columns (filter passed_through df)) /\
  (forall O S R N C D r h',
      run (choose_transformer l true O S R N C D) h = (Return r, h') ->
      O = [] /\ S = [] /\ R = [] /\ N = [] /\ C = [] /\ D = []) /\
  (forall O S R N C D,
      run (choose_transformer l false O S R N C D) h =
        (Return (O, S,
                 {| transformers :=
                      [ ("cat_imputer",
                         SimpleImputer "constant" (Some "missing"), C);
                        ("num_imputer", SimpleImputer "median" None, N);
                        ("one_hot", OneHotEncoder None, O);
                        ("standard_scalar", StandardScaler, S);
                        ("robust_scalar", RobustScaler, R) ];
                    remainder := "passthrough" |}), h)) /\
  (names_as_scikit_learn E ->
   forall a Y1 Y2 h',
     X_train a = PyDataFrame l -> refs_valid a h ->
     run (preproc a) h = (Return (Y1, Y2), h') ->
     exists Xsub out,
       select df (one_hot_list a df) = Return Xsub /\
       h' !! Y1 = Some out /\
       (holds_strings Xsub ->
        columns out =
          feature_names (if bool_of (auto a) then Some "first" else None)
                        (one_hot_list a df) Xsub ++
          filter (fun x => Is_true (negb (name_in x (one_hot_list a df))))
                 (columns df))).
Proof.
  intros Hl.
  split; [|split; [|split; [|split; [|split; [|split]]]]].
  - rewrite (run_choose_transformer _ _ _ _ _ _ _ _ _ _ Hl).
    unfold chosen, temporaries.
    cbn [check_manual_unset length Nat.ltb Nat.leb map mbind result_bind
         mret result_ret].
    rewrite select_dtypes_numeric, select_dtypes_categorical. reflexivity.
  - intros c _. apply dtype_classes.
  - intros c _ Hnum Hnot. unfold numeric in Hnum.
    unfold float64_or_int64 in Hnot. unfold passed_through. tauto.
  - intros ft Hnd Hfit.
    rewrite (fit_remainder_columns
               (transformer_auto [] [] (columns (filter categorical df))
                  (columns (filter float64_or_int64 df)) [])
               _ _ Hnd eq_refl Hfit).
    cbn [transformer_auto transformers map snd concat app].
    rewrite app_nil_r. apply filter_columns. intros c Hc.
    rewrite not_elem_of_app.
    rewrite (class_labels categorical df c Hnd Hc).
    rewrite (class_labels float64_or_int64 df c Hnd Hc).
    destruct (dtype_classes c) as [H|[H|H]]; tauto.
  - intros O S R N C D r h' H.
    rewrite (run_choose_transformer _ _ _ _ _ _ _ _ _ _ Hl) in H.
    unfold chosen in H.
    destruct O; [|cbn in H; discriminate H].
    destruct S; [|cbn in H; discriminate H].
    destruct R; [|cbn in H; discriminate H].
    destruct N; [|cbn in H; discriminate H].
    destruct C; [|cbn in H; discriminate H].
    destruct D; [|cbn in H; discriminate H].
    auto 10.
  - intros O S R N C D.
    rewrite (run_choose_transformer _ _ _ _ _ _ _ _ _ _ Hl).
    cbn. rewrite app_nil_r. reflexivity.
  - intros Hlaw a Y1 Y2 h' Htrain Hrefs Hrun.
    destruct (call_labels a h h' Y1 Y2 Hrefs Hrun)
      as (df' & out & ohe & Hdf & Hout & Hcols & Hnil & Hne & _).
    assert (df' = df) as ->.
    { rewrite Htrain in Hdf. cbn in Hdf. congruence. }
    destruct (one_hot_list a df) as [|o O] eqn:HO.
    + exists [], out. split; [reflexivity|]. split; [exact Hout|].
      intros _. rewrite Hcols, (Hnil eq_refl). reflexivity.
    + destruct (Hne ltac:(discriminate))
        as (Xsub & one_hot & Hsel & Hfit & Hnames).
      exists Xsub, out. split; [exact Hsel|]. split; [exact Hout|].
      intros Hstr. pose proof (select_columns _ _ _ Hsel) as Hc.
      assert (Hdrop : (if bool_of (auto a) then Some "first" else None) = None \/
                      (if bool_of (auto a) then Some "first" else None) =
                        Some "first")
        by (destruct (bool_of (auto a)); auto).
      pose proof (Hlaw _ Xsub one_hot Hdrop Hstr Hfit) as Hn.
      rewrite Hc in Hn. rewrite Hcols. f_equal. congruence.
Qed.

End AutomaticMode.

(** ** The scenarios, evaluated *)

(** C1: with the list F, D, C, B, A the encoder's classes are the sorted
    labels A, B, C, D, F, so the call encodes "A" to 0 and "F" to 4: the code
    of a value is its rank among the sorted labels, not its position in the
    caller's list. *)
Theorem label_codes_are_sorted_ranks {E : Estimators} :
  LabelEncoder_fit ["F"; "D"; "C"; "B"; "A"] = ["A"; "B"; "C"; "D"; "F"] /\
  run (preproc Scenario.encode_grades) [Scenario.grades] =
    (Return (2, None),
     [ Scenario.grades; Scenario.grades;
       [ Column "grade" int64 [CInt 0; CInt 4] ] ]).
Proof. split; vm_compute; reflexivity. Qed.

(** C2: with the second of two columns standard scaled, whatever the scaler
    computes, a call that returns gives a frame with the labels a, b in the
    input order in which the scaler's output for b stands under the label a
    and the untouched values of a stand under the label b: the matrix holds
    the transformer blocks first and the remainder last, while the labels
    keep the input order. *)
Theorem scaled_column_changes_slot {E : Estimators} (Y : loc)
    (Y2 : option loc) (h' : heap) :
  run (preproc Scenario.scale_b) [Scenario.two_columns] =
    (Return (Y, Y2), h') ->
  exists state ys d,
    fit StandardScaler [Column "b" float64 [CFloat 1; CFloat 3]] = inr state /\
    transform state [Column "b" float64 [CFloat 1; CFloat 3]] = inr [ys] /\
    h' !! Y = Some [ Column "a" d ys; Column "b" d [CFloat 10; CFloat 20] ].
Proof.
  intros Hrun.
  pose proof (run_preproc Scenario.scale_b [Scenario.two_columns]
                Scenario.two_columns None eq_refl eq_refl I) as H.
  cbn zeta in H.
  destruct (preproc_frames Scenario.scale_b Scenario.two_columns None)
    as [e|[o1 o2]] eqn:Hf.
  { destruct H as [h'' H]. congruence. }
  destruct H as [H _]. rewrite Hrun in H. injection H as -> -> ->.
  unfold preproc_frames, Scenario.scale_b in Hf.
  cbn [auto OHE standard_scale robust_scale numerical_impute
       categorical_impute label_encode bool_of names_of dict_of chosen
       mbind result_bind mret result_ret] in Hf.
  unfold outputs in Hf.
  destruct (ColumnTransformer_fit _ _) as [e|[tr rem names sp]] eqn:Hfit;
    [discriminate Hf|].
  cbn [mbind result_bind length Nat.ltb Nat.leb app] in Hf.
  destruct (transformed_frame _ _ _) as [e|new] eqn:Hnew; [discriminate Hf|].
  cbn in Hf. injection Hf as <- <-.
  destruct (fit_inv _ _ _ Hfit) as (cols & fl & Hcols & Hfl & Htr & Hrem & Hn).
  cbn [transformers_ remaining_idx feature_names_in_] in Htr, Hrem, Hn.
  vm_compute in Hcols. injection Hcols as <-.
  vm_compute in Hrem. vm_compute in Hn. subst rem names.
  assert (Hentries :
    fitted_entries (transformer_manual [] [] [] ["b"] []) =
    [("standard_scalar", StandardScaler, ["b"])]) by (vm_compute; reflexivity).
  rewrite Hentries in Hfl. cbn [mapM] in Hfl. unfold fit_transform_one in Hfl.
  cbn [fst snd] in Hfl.
  assert (Hsel : select Scenario.two_columns ["b"] =
                 Return [Column "b" float64 [CFloat 1; CFloat 3]])
    by reflexivity.
  rewrite Hsel in Hfl. cbn [mbind result_bind] in Hfl.
  destruct (fit StandardScaler _) as [m|state] eqn:Hstate; [discriminate Hfl|].
  cbn [estimator_call mbind result_bind] in Hfl.
  destruct (transform state _) as [m|block] eqn:Hblock; [discriminate Hfl|].
  cbn in Hfl. injection Hfl as <-. cbn in Htr. subst tr.
  unfold transformed_frame in Hnew.
  destruct (ColumnTransformer_transform _ _) as [e|[d data|]] eqn:Hdata;
    [discriminate Hnew| |discriminate Hnew].
  cbn [mbind result_bind] in Hnew.
  destruct (transform_inv _ _ _ _ Hdata) as (blocks & Xrem & Hb & Hx & ->).
  cbn [transformers_ mapM] in Hb. unfold transform_one in Hb.
  cbn [fst snd] in Hb.
  assert (Hlocb : df_loc Scenario.two_columns ["b"] =
                  Return [Column "b" float64 [CFloat 1; CFloat 3]])
    by reflexivity.
  rewrite Hlocb in Hb. cbn [mbind result_bind] in Hb. rewrite Hblock in Hb.
  cbn in Hb. injection Hb as <-.
  vm_compute in Hx. injection Hx as <-.
  assert (Hconv : converted
                    (fst (to_numpy [Column "a" float64 [CFloat 10; CFloat 20]]))
                    d
                    (snd (to_numpy [Column "a" float64 [CFloat 10; CFloat 20]]))
                  = [[CFloat 10; CFloat 20]])
    by (destruct d; reflexivity).
  rewrite Hconv in Hnew. clear Hconv.
  unfold DataFrame_new in Hnew. cbn [concat] in Hnew. rewrite app_nil_r in Hnew.
  destruct block as [|ys [|zs block]]; [discriminate Hnew| |].
  2:{ exfalso. revert Hnew. rewrite length_app.
      change (length (filter _ (columns Scenario.two_columns))) with 2.
      cbn [length Nat.add]. rewrite Nat.add_comm. discriminate. }
  cbn in Hnew. injection Hnew as <-.
  exists state, ys, d.
  split; [reflexivity|]. split; [exact Hblock|reflexivity].
Qed.

(** C3, as stated, fails: with [auto=True] and a non-empty one-hot list
    given as a tuple, the call raises the type error, not the conflict
    exception. *)
Lemma auto_conflict_not_for_every_call :
  auto Scenario.auto_with_tuple = PyBool true /\
  manual_set Scenario.auto_with_tuple /\
  run (preproc (E := Example.estimators) Scenario.auto_with_tuple)
      [Scenario.people] =
    (Raise (ValueError_arg_type "OHE" [T_list; T_ndarray] T_tuple),
     [Scenario.people]) /\
  ~ ConfigConflict (ValueError_arg_type "OHE" [T_list; T_ndarray] T_tuple).
Proof.
  split; [reflexivity|]. split; [left; exists 0; reflexivity|].
  split; [vm_compute; reflexivity|]. intros [].
Qed.

(** C4, as stated, fails: a column of single-precision floats is numeric,
    yet automatic mode makes it neither a standard-scale target nor a
    one-hot target, and the call returns its values as they are. *)
Lemma automatic_skips_single_precision :
  Forall numeric Scenario.single_precision /\
  run (choose_transformer 0 true [] [] [] [] [] [])
      [Scenario.single_precision] =
    (Return ([], [], transformer_auto [] [] [] [] []),
     [Scenario.single_precision; []; []]) /\
  run (preproc (E := Example.estimators) Scenario.automatic)
      [Scenario.single_precision] =
    (Return (4, None),
     [ Scenario.single_precision; Scenario.single_precision; []; [];
       Scenario.single_precision ]).
Proof.
  split; [repeat constructor; right; right; left; reflexivity|].
  split; vm_compute; reflexivity.
Qed.


(** C9, as stated, fails: beside a float column the integer 2^53 + 1 comes
    back as the float 2^53, so the values of the output are not those of
    the input; and on a table with two columns of one label [transform]
    selects by label, finds four columns for two labels, and the frame
    constructor raises. *)
Lemma defaults_convert_big_integer :
  run (preproc (E := Example.estimators) (defaults (PyDataFrame 0) PyNone))
      [Scenario.big_integer] =
    (Return (2, None),
     [ Scenario.big_integer; Scenario.big_integer;
       [ Column "n" float64 [CFloat 9007199254740992];
         Column "x" float64 [CFloat 0.5] ] ]) /\
  values [ Column "n" float64 [CFloat 9007199254740992];
           Column "x" float64 [CFloat 0.5] ] <>
    values Scenario.big_integer /\
  float_of_Z 9007199254740993 = float_of_Z 9007199254740992 /\
  run (preproc (E := Example.estimators) (defaults (PyDataFrame 0) PyNone))
      [Scenario.twice_a] =
    (Raise (ValueError_shape 4 2), [Scenario.twice_a; Scenario.twice_a]).
Proof.
  split; [vm_compute; reflexivity|].
  split; [intros H; discriminate H|].
  split; vm_compute; reflexivity.
Qed.

(** ** Instances of the theorems *)

(** Closes [NoDup] on a list of distinct string literals. *)
Ltac distinct_labels :=
  cbn;
  repeat (apply NoDup_cons; split;
          [ let H := fresh in
            intros H;
            repeat (apply elem_of_cons in H as [H|H]; [discriminate H|]);
            inversion H
          | ]);
  apply NoDup_nil_2.

Lemma type_mismatch_first_violation_witness :
  exists pre k v post,
    locals Scenario.list_as_table = pre ++ (k, v) :: post /\
    Forall (fun kv => permitted kv.1 kv.2 = true) pre /\
    permitted k v = false /\
    run (preproc (E := Example.estimators) Scenario.list_as_table) [] =
      (Raise (ValueError_arg_type k (dict_get arg_types k []) (type v)), []) /\
    TypeMismatch (ValueError_arg_type k (dict_get arg_types k []) (type v)).
Proof.
  apply (type_mismatch_first_violation (E := Example.estimators)
           Scenario.list_as_table []).
  exists "X_train", (PyList ["age"]). split; [left; reflexivity|reflexivity].
Defined.

Lemma only_list_or_ndarray_witness :
  (permitted "OHE" (PyTuple ["city"]) = true <->
   type (PyTuple ["city"]) = T_list \/ type (PyTuple ["city"]) = T_ndarray) /\
  (type (PyTuple ["city"]) <> T_list ->
   type (PyTuple ["city"]) <> T_ndarray ->
   exists e,
     run (preproc (E := Example.estimators) Scenario.auto_with_tuple)
         [Scenario.people] = (Raise e, [Scenario.people]) /\
     TypeMismatch e).
Proof.
  apply (only_list_or_ndarray (E := Example.estimators)
           Scenario.auto_with_tuple [Scenario.people] "OHE"
           (PyTuple ["city"])).
  - simpl. tauto.
  - simpl. tauto.
Defined.

Lemma auto_rejects_manual_settings_witness :
  exists e copies,
    run (preproc (E := Example.estimators) Scenario.auto_with_list)
        [Scenario.people] = (Raise e, [Scenario.people] ++ copies) /\
    ConfigConflict e /\
    Forall (fun df => In df [Scenario.people]) copies.
Proof.
  apply (auto_rejects_manual_settings (E := Example.estimators)
           Scenario.auto_with_list [Scenario.people]).
  - reflexivity.
  - reflexivity.
  - left. exists 0. reflexivity.
  - split; intros l [= <-]; simpl; eauto.
Defined.

Lemma automatic_mode_plan_witness :
  (feature_names (Some "first") ["city"]
     [Column "city" object [CStr "NY"; CStr "LA"; CStr "NY"]] = ["city_NY"] /\
   feature_names None ["city"]
     [Column "city" object [CStr "NY"; CStr "LA"; CStr "NY"]] =
     ["city_LA"; "city_NY"]) /\
  exists Xsub out,
    select Scenario.people (one_hot_list Scenario.automatic Scenario.people) =
      Return Xsub /\
    Scenario.after_automatic !! 4 = Some out /\
    (holds_strings Xsub ->
     columns out =
       feature_names (if bool_of (auto Scenario.automatic)
                      then Some "first" else None)
                     (one_hot_list Scenario.automatic Scenario.people) Xsub ++
       filter (fun x =>
                 Is_true (negb (name_in x (one_hot_list Scenario.automatic
                                             Scenario.people))))
              (columns Scenario.people)).
Proof.
  split; [split; reflexivity|].
  apply (proj2 (proj2 (proj2 (proj2 (proj2 (proj2
           (automatic_mode_plan (E := Example.estimators)
              [Scenario.people] 0 Scenario.people eq_refl))))))
           example_names_as_scikit_learn Scenario.automatic 4 None).
  - reflexivity.
  - split; intros l [= <-]; cbn; eauto.
  - vm_compute. reflexivity.
Defined.

Lemma same_table_same_output_witness :
  exists l2 o1 o2,
    Some 5 = Some l2 /\
    (Scenario.two_tables ++ [Scenario.two_columns; Scenario.scaled_train])
      !! 3 = Some o1 /\
    (Scenario.two_tables ++
     [Scenario.two_columns; Scenario.two_columns_test;
      Scenario.scaled_train; Scenario.scaled_test]) !! 4 = Some o1 /\
    (Scenario.two_tables ++
     [Scenario.two_columns; Scenario.two_columns_test;
      Scenario.scaled_train; Scenario.scaled_test]) !! l2 = Some o2 /\
    columns o2 = columns o1 /\
    exists O S' t ft states blocks Xrem d new,
      chosen false Scenario.two_columns [] ["b"] [] [] [] [] =
        Return (O, S', t) /\
      ColumnTransformer_fit (E := Example.estimators) t Scenario.two_columns =
        Return ft /\
      Forall2 (fitted_on (E := Example.estimators) Scenario.two_columns)
              (fitted_entries t) states /\
      Forall2 (block_of (E := Example.estimators) Scenario.two_columns_test)
              (zip (fitted_entries t) states) blocks /\
      df_loc Scenario.two_columns_test (remainder_columns ft) = Return Xrem /\
      Forall (fun c => cdtype c = d) new /\
      columns new = columns o2 /\
      values new =
        concat blocks ++
        converted (fst (to_numpy Xrem)) d (snd (to_numpy Xrem)) /\
      encode_frames [] new None = Return (o2, None).
Proof.
  apply (proj2 (same_table_same_output (E := Example.estimators)
                  Scenario.scale_b Scenario.two_tables
                  (Scenario.two_tables ++
                   [Scenario.two_columns; Scenario.scaled_train])
                  0 3 Scenario.two_columns
                  eq_refl eq_refl eq_refl
                  ltac:(vm_compute; reflexivity))
           1 Scenario.two_columns_test 4 (Some 5)).
  - reflexivity.
  - vm_compute. reflexivity.
Defined.


Lemma defaults_give_the_array_witness :
  exists Y1 Y2 h' out outt,
    run (preproc (E := Example.estimators)
           (defaults (PyDataFrame 0) (PyDataFrame 1)))
        [Scenario.big_integer; Scenario.small_integer] =
      (Return (Y1, Some Y2), h') /\
    h' !! Y1 = Some out /\ h' !! Y2 = Some outt /\
    out = as_array Scenario.big_integer /\
    outt = as_array Scenario.small_integer /\
    columns out = columns Scenario.big_integer /\
    columns outt = columns Scenario.small_integer /\
    values out = snd (to_numpy Scenario.big_integer) /\
    values outt = snd (to_numpy Scenario.small_integer) /\
    (no_conversion Scenario.big_integer ->
     values out = values Scenario.big_integer) /\
    (no_conversion Scenario.small_integer ->
     values outt = values Scenario.small_integer).
Proof.
  apply (proj2 (defaults_give_the_array (E := Example.estimators)
                  [Scenario.big_integer; Scenario.small_integer] 0
                  Scenario.big_integer eq_refl ltac:(distinct_labels))
           1 Scenario.small_integer).
  - reflexivity.
  - reflexivity.
Defined.

Lemma scaled_column_changes_slot_witness :
  run (preproc (E := Example.estimators) Scenario.scale_b)
      [Scenario.two_columns] =
    (Return (2, None),
     [ Scenario.two_columns; Scenario.two_columns;
       [ Column "a" float64 [CFloat (-1); CFloat 1];
         Column "b" float64 [CFloat 10; CFloat 20] ] ]) /\
  exists state ys d,
    fit (Estimators := Example.estimators) StandardScaler
        [Column "b" float64 [CFloat 1; CFloat 3]] = inr state /\
    transform state [Column "b" float64 [CFloat 1; CFloat 3]] = inr [ys] /\
    [ Scenario.two_columns; Scenario.two_columns;
      [ Column "a" float64 [CFloat (-1); CFloat 1];
        Column "b" float64 [CFloat 10; CFloat 20] ] ] !! 2 =
      Some [ Column "a" d ys; Column "b" d [CFloat 10; CFloat 20] ].
Proof.
  split; [vm_compute; reflexivity|].
  apply (scaled_column_changes_slot (E := Example.estimators) 2 None).
  vm_compute. reflexivity.
Defined.

(** * Further properties of the code *)

(** ** The classes of the label encoder *)

Lemma label_lt_trans (x y z : string) :
  label_lt x y -> label_lt y z -> label_lt x z.
Proof.
  unfold label_lt. intros Hxy Hyz.
  apply OrderedTypeEx.String_as_OT.cmp_lt.
  eapply OrderedTypeEx.String_as_OT.lt_trans;
    apply OrderedTypeEx.String_as_OT.cmp_lt; eassumption.
Qed.

Lemma label_lt_irrefl (x : string) : ~ label_lt x x.
Proof.
  unfold label_lt. intros H.
  assert (String.compare x x = Eq)
    by (apply OrderedTypeEx.String_as_OT.cmp_eq; reflexivity).
  congruence.
Qed.

Lemma label_lt_gt (s x : string) : String.compare s x = Gt -> label_lt x s.
Proof.
  unfold label_lt. intros H. rewrite String.compare_antisym, H. reflexivity.
Qed.

Lemma insert_label_increasing (s : string) (l : list string) :
  increasing l -> increasing (insert_label s l).
Proof.
  induction l as [|x l IH]; intros Hl.
  - simpl. auto.
  - destruct Hl as [Hx Hl]. cbn [insert_label].
    destruct (String.compare s x) eqn:Hc.
    + split; assumption.
    + split; [|split; assumption].
      constructor; [exact Hc|].
      eapply Forall_impl; [exact Hx|].
      intros y Hy. eapply label_lt_trans; eassumption.
    + split; [|apply IH; exact Hl].
      apply Forall_forall. intros y Hy.
      apply list_elem_of_In, insert_label_In in Hy as [->|Hy].
      * apply label_lt_gt. exact Hc.
      * rewrite Forall_forall in Hx. apply Hx, list_elem_of_In, Hy.
Qed.

Lemma np_unique_increasing (y : list string) : increasing (np_unique y).
Proof.
  unfold np_unique. induction y as [|s y IH]; [exact I|].
  cbn [foldr]. apply insert_label_increasing, IH.
Qed.

(** Two strictly increasing lists with the same elements are equal. *)
Lemma increasing_unique (l1 : list string) :
  forall l2, increasing l1 -> increasing l2 ->
    (forall x, In x l1 <-> In x l2) -> l1 = l2.
Proof.
  induction l1 as [|x l1 IH]; intros [|y l2] H1 H2 Hsame.
  - reflexivity.
  - exfalso. apply (Hsame y). left. reflexivity.
  - exfalso. apply (Hsame x). left. reflexivity.
  - destruct H1 as [Hx H1], H2 as [Hy H2].
    rewrite Forall_forall in Hx, Hy.
    assert (x = y) as ->.
    { destruct (proj1 (Hsame x) (or_introl eq_refl)) as [->|Hxin];
        [reflexivity|].
      destruct (proj2 (Hsame y) (or_introl eq_refl)) as [->|Hyin];
        [reflexivity|].
      exfalso. apply (label_lt_irrefl x).
      eapply label_lt_trans.
      - apply Hx, list_elem_of_In, Hyin.
      - apply Hy, list_elem_of_In, Hxin. }
    f_equal. apply IH; [exact H1|exact H2|].
    intros z. split; intros Hz.
    + destruct (proj1 (Hsame z) (or_intror Hz)) as [->|H]; [|exact H].
      exfalso. apply (label_lt_irrefl z), Hx, list_elem_of_In, Hz.
    + destruct (proj2 (Hsame z) (or_intror Hz)) as [->|H]; [|exact H].
      exfalso. apply (label_lt_irrefl z), Hy, list_elem_of_In, Hz.
Qed.

Lemma np_unique_increasing_id (l : list string) :
  increasing l -> np_unique l = l.
Proof.
  intros Hl. apply increasing_unique;
    [apply np_unique_increasing | exact Hl | intros x; apply np_unique_In].
Qed.

Lemma increasing_NoDup (l : list string) : increasing l -> NoDup l.
Proof.
  induction l as [|x l IH]; intros Hl; [constructor|].
  destruct Hl as [Hx Hl]. constructor; [|apply IH, Hl].
  intros Hin. rewrite Forall_forall in Hx.
  apply (label_lt_irrefl x), Hx, Hin.
Qed.

(** [class_index] is the inverse of the lookup in a list without
    duplicates. *)
Lemma class_index_lookup (classes_ : list string) (s : string) (i : nat) :
  class_index s classes_ = Some i -> classes_ !! i = Some s.
Proof.
  revert i. induction classes_ as [|x l IH]; intros i; [discriminate|].
  cbn [class_index]. destruct (String.eqb_spec x s) as [->|Hne].
  - intros [= <-]. reflexivity.
  - destruct (class_index s l) as [j|]; [|discriminate].
    intros [= <-]. cbn. apply IH. reflexivity.
Qed.

Lemma lookup_class_index (classes_ : list string) (s : string) (i : nat) :
  NoDup classes_ -> classes_ !! i = Some s ->
  class_index s classes_ = Some i.
Proof.
  revert i. induction classes_ as [|x l IH]; intros i Hnd Hi; [discriminate|].
  apply NoDup_cons in Hnd as [Hx Hnd]. cbn [class_index].
  destruct i as [|i]; cbn in Hi.
  - injection Hi as ->. rewrite String.eqb_refl. reflexivity.
  - destruct (String.eqb_spec x s) as [->|Hne].
    + exfalso. apply Hx. eapply list_elem_of_lookup_2, Hi.
    + rewrite (IH i Hnd Hi). reflexivity.
Qed.

(** ** What the encoder writes *)

Lemma transform_decodes (classes_ : list string) (y codes : list cell) :
  LabelEncoder_transform classes_ y = Return codes ->
  Forall2 (decodes classes_) y codes.
Proof.
  revert codes. induction y as [|v y IH]; intros codes.
  - intros [= <-]. constructor.
  - unfold LabelEncoder_transform. cbn [mapM].
    destruct (encode_cell classes_ v) as [c|] eqn:Hv; [|discriminate].
    cbn [mbind result_bind].
    fold (LabelEncoder_transform classes_ y).
    destruct (LabelEncoder_transform classes_ y) as [e|cs]; [discriminate|].
    intros [= <-]. constructor; [|apply IH; reflexivity].
    destruct v as [s| | | |]; try discriminate Hv. cbn in Hv.
    destruct (class_index s classes_) as [i|] eqn:Hi; [|discriminate Hv].
    injection Hv as <-. exists s, i. repeat split.
    apply class_index_lookup. exact Hi.
Qed.

Lemma decodes_transform (classes_ : list string) (y codes : list cell) :
  NoDup classes_ -> Forall2 (decodes classes_) y codes ->
  LabelEncoder_transform classes_ y = Return codes.
Proof.
  intros Hnd Hall. induction Hall as [|v c y codes (s & i & -> & -> & Hi) _ IH].
  - reflexivity.
  - unfold LabelEncoder_transform in *. cbn [mapM encode_cell].
    rewrite (lookup_class_index _ _ _ Hnd Hi). cbn. rewrite IH. reflexivity.
Qed.

Lemma labelled_setitem_eq (df : DataFrame) (c : string) (codes : list cell) :
  labelled c (setitem df c codes) =
  map (fun col => Column (cname col) int64 codes) (labelled c df).
Proof.
  unfold labelled, setitem. induction df as [|col df IH]; [reflexivity|].
  cbn [map]. rewrite !filter_cons, IH. cbn beta.
  destruct (String.eqb (cname col) c) eqn:Heq; cbn [cname]; rewrite ?Heq;
    reflexivity.
Qed.

(** Reading a column back after assigning it gives the assigned values. *)
Lemma getitem_setitem_eq (df : DataFrame) (c : string) (y codes : list cell) :
  getitem df c = Return y -> getitem (setitem df c codes) c = Return codes.
Proof.
  unfold getitem. rewrite labelled_setitem_eq.
  destruct (labelled c df) as [|col [|col' rest]]; try discriminate.
  reflexivity.
Qed.

Lemma encode_frame_inv (classes_ : list string) (c : string)
    (df df' : DataFrame) :
  encode_frame classes_ c df = Return df' ->
  exists y codes,
    getitem df c = Return y /\
    LabelEncoder_transform classes_ y = Return codes /\
    df' = setitem df c codes.
Proof.
  unfold encode_frame. destruct (getitem df c) as [e|y]; [discriminate|].
  cbn [mbind result_bind].
  destruct (LabelEncoder_transform_column classes_ (series_dtype df c) y)
    as [e|codes] eqn:Ht; [discriminate|].
  cbn. intros [= <-]. exists y, codes.
  split; [reflexivity|]. split; [|reflexivity].
  eapply transform_column_returns, Ht.
Qed.

(** The loop on the train frame alone. *)
Lemma encode_frames_encoded (items : list (string * list string)) :
  NoDup (map fst items) ->
  forall train o1,
    encode_frames items train None = Return (o1, None) ->
    encoded items train o1.
Proof.
  induction items as [|[c labels] rest IH]; intros Hnd train o1.
  - cbn. intros [= <-]. split; [reflexivity|]. split; [intros ? ? []|auto].
  - cbn [map fst] in Hnd. apply NoDup_cons in Hnd as [Hc Hnd].
    cbn [encode_frames].
    destruct (encode_frame (LabelEncoder_fit labels) c train)
      as [e|train1] eqn:He; [discriminate|].
    cbn [mbind result_bind mret result_ret]. intros Hr.
    destruct (encode_frame_inv _ _ _ _ He) as (y & codes & Hy & Hcodes & ->).
    destruct (IH Hnd _ _ Hr) as (Hcols & Hkeys & Hother).
    assert (Hcin : ~ In c (map fst rest))
      by (intros H; apply Hc, list_elem_of_In, H).
    split; [rewrite Hcols; apply columns_setitem|]. split.
    + intros c' labels' [[= <- <-]|Hin].
      * exists y, codes. split; [exact Hy|]. split.
        -- rewrite (Hother c Hcin). eapply getitem_setitem_eq, Hy.
        -- apply transform_decodes, Hcodes.
      * destruct (Hkeys c' labels' Hin) as (y' & codes' & Hy' & Hc' & Hd).
        exists y', codes'. split; [|auto].
        rewrite <- Hy'. symmetry. apply getitem_setitem_ne.
        intros ->. apply Hcin, in_map_iff. exists (c', labels'). auto.
    + intros c0 Hc0. cbn [map fst] in Hc0.
      rewrite Hother by (intros H; apply Hc0; right; exact H).
      apply getitem_setitem_ne.
      intros ->. apply Hc0. left. reflexivity.
Qed.

(** X1: when the encoding loop returns, the train frame (and the test frame,
    if there is one) keeps its labels, every column named in the mapping
    holds, row by row, the index in [classes_] of the string it held (so the
    codes decode back to the values and the row count is unchanged), and
    every other column is untouched. *)
Theorem encoding_loop_writes_codes (items : list (string * list string))
    (h h' : heap) (X1 : loc) (X2 : option loc) (train : DataFrame)
    (test : option DataFrame) :
  NoDup (map fst items) ->
  points_to h X1 X2 train test ->
  run (label_encoding items X1 X2) h = (Return tt, h') ->
  exists train' test',
    points_to h' X1 X2 train' test' /\
    encoded items train train' /\
    match test, test' with
    | Some t, Some t' => encoded items t t'
    | None, None => True
    | _, _ => False
    end.
Proof.
  intros Hnd Hp Hrun.
  pose proof (run_label_encoding items X1 X2 h train test Hp) as H.
  destruct (encode_frames items train test) as [e|[o1 o2]] eqn:Hf.
  { destruct H as [h'' H]. congruence. }
  destruct H as (h'' & Hrun' & Hp' & _).
  assert (h'' = h') as -> by congruence.
  exists o1, o2. split; [exact Hp'|]. split.
  - eapply encode_frames_encoded; [exact Hnd|].
    eapply encode_frames_train, Hf.
  - destruct test as [t|].
    + destruct (encode_frames_test _ _ _ _ _ Hf) as (t' & -> & Ht).
      eapply encode_frames_encoded; eassumption.
    + destruct Hp' as [_ Hp']. destruct X2, o2; try contradiction; auto.
      destruct Hp as [_ []].
Qed.

(** X2: the encoding loop depends only on the set of labels listed for each
    column: reordering a list or repeating a label in it changes nothing. *)
Theorem encoding_ignores_list_order (D1 D2 : list (string * list string))
    (X1 : loc) (X2 : option loc) (h : heap) :
  same_labels D1 D2 ->
  run (label_encoding D1 X1 X2) h = run (label_encoding D2 X1 X2) h.
Proof.
  intros Hsame. revert h.
  induction Hsame as [|[c1 l1] [c2 l2] D1 D2 [Hc Hl] _ IH]; intros h.
  - reflexivity.
  - cbn in Hc, Hl. subst c2. cbn [label_encoding].
    assert (LabelEncoder_fit l1 = LabelEncoder_fit l2) as ->.
    { apply increasing_unique; try apply np_unique_increasing.
      intros x. unfold LabelEncoder_fit. rewrite !np_unique_In. apply Hl. }
    rewrite !run_bind.
    destruct (run (encode_column (LabelEncoder_fit l2) c1 X1) h) as [[e|[]] h1];
      [reflexivity|].
    rewrite !run_bind.
    destruct (run match X2 with
                  | Some X_test => encode_column (LabelEncoder_fit l2) c1 X_test
                  | None => mret ()
                  end h1) as [[e|[]] h2]; [reflexivity|].
    apply IH.
Qed.

(** X3: when the caller's list is strictly increasing, the code of a value
    is its position in the caller's list: the encoder returns exactly the
    positions. *)
Theorem sorted_list_gives_positions (labels : list string)
    (y codes : list cell) :
  increasing labels ->
  Forall2 (decodes labels) y codes ->
  LabelEncoder_transform (LabelEncoder_fit labels) y = Return codes.
Proof.
  intros Hinc Hall. unfold LabelEncoder_fit.
  rewrite (np_unique_increasing_id _ Hinc).
  apply decodes_transform; [apply increasing_NoDup, Hinc|exact Hall].
Qed.

(** ** Column selection *)






Section Selection.
Context {E : Estimators}.



End Selection.

(** ** What a returning call returns *)

Lemma getitem_ext (df1 : DataFrame) :
  forall df2 c,
    columns df1 = columns df2 -> values df1 = values df2 ->
    getitem df1 c = getitem df2 c.
Proof.
  intros df2 c Hc Hv.
  assert (H : map cvalues (labelled c df1) = map cvalues (labelled c df2)).
  { revert df2 Hc Hv. unfold labelled.
    induction df1 as [|x df1 IH]; intros [|y df2] Hc Hv; try discriminate;
      [reflexivity|].
    cbn in Hc, Hv. injection Hc as Hn Hc. injection Hv as Hx Hv.
    rewrite !filter_cons. rewrite Hn.
    destruct (decide (Is_true (String.eqb (cname y) c)));
      cbn [map]; rewrite (IH df2 Hc Hv); congruence. }
  unfold getitem.
  destruct (labelled c df1) as [|x1 [|x1' l1]],
           (labelled c df2) as [|x2 [|x2' l2]];
    try discriminate H; cbn in H; congruence.
Qed.

Lemma encoded_ext (items : list (string * list string))
    (df1 df2 out : DataFrame) :
  columns df1 = columns df2 -> values df1 = values df2 ->
  encoded items df1 out -> encoded items df2 out.
Proof.
  intros Hc Hv (Hcols & Hkeys & Hother). split; [congruence|]. split.
  - intros c labels Hin.
    destruct (Hkeys c labels Hin) as (y & codes & Hy & Ho & Hd).
    exists y, codes. rewrite <- (getitem_ext df1 df2 c Hc Hv). auto.
  - intros c Hin. rewrite <- (getitem_ext df1 df2 c Hc Hv). auto.
Qed.

Section Returned.
Context {E : Estimators}.


(** X6: in every call that returns, the labels of the train output are the
    feature names of the one-hot encoder followed by the labels of the
    train table that are not one-hot encoded, in the order of the table.
    With one-hot columns, the feature names are those the encoder of the
    mode (built with [drop='first'] in automatic mode, without [drop] in
    manual mode), fitted on the one-hot columns of the train table, gives
    for the one-hot list; without one-hot columns there are none, and the
    labels are those of the train table.  The test output has the labels
    of the train output. *)
Theorem output_labels_of_call (a : arguments) (h h' : heap) (Y1 : loc)
    (Y2 : option loc) :
  refs_valid a h ->
  run (preproc a) h = (Return (Y1, Y2), h') ->
  exists df out ohe_columns,
    h !! frame_of (X_train a) = Some df /\
    h' !! Y1 = Some out /\
    columns out =
      ohe_columns ++
      filter (fun x => Is_true (negb (name_in x (one_hot_list a df))))
             (columns df) /\
    (one_hot_list a df = [] -> ohe_columns = [] /\ columns out = columns df) /\
    (one_hot_list a df <> [] ->
     exists Xsub one_hot,
       select df (one_hot_list a df) = Return Xsub /\
       columns Xsub = one_hot_list a df /\
       fit (OneHotEncoder (if bool_of (auto a) then Some "first" else None))
           Xsub = inr one_hot /\
       get_feature_names one_hot (one_hot_list a df) = inr ohe_columns) /\
    (forall l, Y2 = Some l ->
               exists outt, h' !! l = Some outt /\ columns outt = columns out).
Proof.
  intros Hrefs Hrun.
  destruct (call_labels a h h' Y1 Y2 Hrefs Hrun)
    as (df & out & ohe & Hdf & Hout & Hcols & Hnil & Hne & Htest).
  exists df, out, ohe. split; [exact Hdf|]. split; [exact Hout|].
  split; [exact Hcols|]. split; [|split; [|exact Htest]].
  - intros Hempty. split; [exact (Hnil Hempty)|].
    rewrite Hcols, (Hnil Hempty), Hempty. cbn. apply filter_not_in_nil.
  - intros HO. destruct (Hne HO) as (Xsub & one_hot & Hsel & Hfit & Hnames).
    exists Xsub, one_hot. split; [exact Hsel|].
    split; [eapply select_columns, Hsel|]. auto.
Qed.

(** X7: a call that only sets the label-encoding mapping, on a train table
    with distinct labels, returns the array of the train table as a frame
    after the encoding loop: the labels are those of the train table, every
    column named in the mapping holds the codes of the values the array has
    in that column, and every other column holds the values of the array
    (the values of the table converted to the common dtype of its
    columns). *)
Theorem label_only_call (D : list (string * list string)) (h h' : heap)
    (l Y1 : loc) (Y2 : option loc) (df : DataFrame) :
  NoDup (map fst D) -> NoDup (columns df) ->
  h !! l = Some df ->
  run (preproc (label_only (PyDataFrame l) PyNone D)) h =
    (Return (Y1, Y2), h') ->
  exists out,
    h' !! Y1 = Some out /\ encoded D (as_array df) out /\
    columns (as_array df) = columns df /\
    values (as_array df) = snd (to_numpy df) /\
    (no_conversion df -> values (as_array df) = values df).
Proof.
  intros Hnd Hlabels Hl Hrun.
  pose proof (run_preproc (label_only (PyDataFrame l) PyNone D) h df None
                eq_refl Hl I) as H. cbn zeta in H.
  destruct (preproc_frames _ df None) as [e|[o1 o2]] eqn:Hf.
  { destruct H as [h'' H]. congruence. }
  destruct H as [H Ho]. rewrite Hrun in H. injection H as -> -> ->.
  exists o1. split; [apply (lookup_output_train h (allocated false df None))|].
  split; [|apply as_array_facts].
  unfold preproc_frames, label_only in Hf.
  cbn [auto OHE standard_scale robust_scale numerical_impute
       categorical_impute label_encode bool_of names_of dict_of chosen
       mbind result_bind mret result_ret] in Hf.
  unfold outputs in Hf. rewrite fit_nothing in Hf.
  cbn [mbind result_bind length Nat.ltb Nat.leb app] in Hf.
  rewrite filter_not_in_nil in Hf.
  rewrite (transformed_frame_remainder df df eq_refl Hlabels) in Hf.
  cbn [mbind result_bind mret result_ret] in Hf.
  assert (o2 = None) as ->.
  { apply encode_frames_columns in Hf as [_ Hf]. destruct o2; tauto. }
  eapply encode_frames_encoded; eassumption.
Qed.

End Returned.

(** ** A key of the mapping that is not a column *)

Lemma encode_frames_app (pre rest : list (string * list string)) :
  forall train test,
    encode_frames (pre ++ rest) train test =
    match encode_frames pre train test with
    | Return (tr, te) => encode_frames rest tr te
    | Raise e => Raise e
    end.
Proof.
  induction pre as [|[c labels] pre IH]; intros train test; [reflexivity|].
  cbn [app encode_frames].
  destruct (encode_frame (LabelEncoder_fit labels) c train) as [e|train'];
    [reflexivity|].
  cbn [mbind result_bind mret result_ret].
  destruct test as [t|].
  - destruct (encode_frame (LabelEncoder_fit labels) c t) as [e|t'];
      [reflexivity|].
    cbn [mbind result_bind mret result_ret]. apply IH.
  - cbn [mbind result_bind mret result_ret]. apply IH.
Qed.

(** X8: if the keys before some key of the mapping are columns whose values
    are all listed, and that key is not a label of the train frame, the
    encoding loop raises [KeyError] for that key. *)
Theorem label_key_not_a_column (pre post : list (string * list string))
    (c : string) (labels : list string) (h : heap) (X1 : loc)
    (X2 : option loc) (train : DataFrame) (test : option DataFrame) :
  points_to h X1 X2 train test ->
  NoDup (map fst pre) ->
  names_columns_of pre train ->
  (forall t, test = Some t -> names_columns_of pre t) ->
  ~ some_unseen pre train test ->
  ~ In c (columns train) ->
  exists h',
    run (label_encoding (pre ++ (c, labels) :: post) X1 X2) h =
      (Raise (KeyError c), h').
Proof.
  intros Hp Hnd Htr Hte Hseen Hc.
  pose proof (run_label_encoding (pre ++ (c, labels) :: post) X1 X2 h train
                test Hp) as Hrun.
  rewrite encode_frames_app in Hrun.
  destruct (encode_frames_cases pre Hnd train test Htr Hte)
    as [(_ & [tr te] & Hr)|(Hyes & _)]; [|contradiction].
  rewrite Hr in Hrun.
  assert (Hcols : columns tr = columns train)
    by (apply encode_frames_columns in Hr; tauto).
  assert (Hk : encode_frames ((c, labels) :: post) tr te = Raise (KeyError c)).
  { cbn [encode_frames]. unfold encode_frame.
    rewrite getitem_missing by (rewrite Hcols; exact Hc). reflexivity. }
  rewrite Hk in Hrun. exact Hrun.
Qed.

(** ** Which exceptions a well-typed call can raise *)

Lemma raises_ok_bind {A B} (m : result A) (f : A -> result B) :
  raises_ok m -> (forall x, m = Return x -> raises_ok (f x)) ->
  raises_ok (m ≫= f).
Proof.
  intros Hm Hf e. destruct m as [e'|x]; cbn.
  - intros [= <-]. apply Hm. reflexivity.
  - apply Hf. reflexivity.
Qed.

Lemma raises_ok_mapM {A B} (f : A -> result B) (l : list A) :
  (forall x, raises_ok (f x)) -> raises_ok (mapM f l).
Proof.
  intros Hf. induction l as [|x l IH].
  - intros e [=].
  - cbn [mapM]. apply raises_ok_bind; [apply Hf|]. intros y _.
    apply raises_ok_bind; [exact IH|]. intros ys _ e [=].
Qed.

Lemma raises_ok_column_index (X : DataFrame) (n : string) :
  raises_ok (column_index X n).
Proof.
  unfold column_index. intros e.
  destruct (get_loc n X 0) as [|i [|j l]]; intros [= <-]; exact I.
Qed.

Lemma raises_ok_iloc (X : DataFrame) (idx : list nat) : raises_ok (iloc X idx).
Proof.
  unfold iloc. apply raises_ok_mapM. intros i e.
  destruct (X !! i); intros [= <-]. exact I.
Qed.

Lemma raises_ok_select (X : DataFrame) (names : list string) :
  raises_ok (select X names).
Proof.
  unfold select. apply raises_ok_bind.
  - apply raises_ok_mapM. intros n. apply raises_ok_column_index.
  - intros idx _. apply raises_ok_iloc.
Qed.

Lemma raises_ok_estimator_call {A} (r : string + A) :
  raises_ok (estimator_call r).
Proof. intros e. destruct r; intros [= <-]. exact I. Qed.

Lemma raises_ok_df_loc (X : DataFrame) (names : list string) :
  raises_ok (df_loc X names).
Proof.
  unfold df_loc. apply raises_ok_bind; [|intros cs _ e [=]].
  apply raises_ok_mapM. intros n e.
  destruct (labelled n X); intros [= <-]. exact I.
Qed.

Lemma raises_ok_result_types (ds : list dtype) : raises_ok (result_types ds).
Proof.
  unfold result_types. destruct ds as [|d ds]; [intros e [=]|].
  assert (H : forall acc : result dtype,
             raises_ok acc ->
             raises_ok (foldl (fun acc d' => a ← acc; result_type a d') acc ds)).
  { induction ds as [|d' ds IH]; intros acc Hacc; [exact Hacc|].
    cbn [foldl]. apply IH. apply raises_ok_bind; [exact Hacc|].
    intros a _ e. unfold result_type.
    destruct (dtype_eqb a d'); [intros [=]|].
    destruct a, d'; intros [= <-]; exact I. }
  apply H. intros e [=].
Qed.

Lemma raises_ok_np_hstack (Xs : list ndarray)
    (rest : option (dtype * ndarray)) : raises_ok (np_hstack Xs rest).
Proof.
  unfold np_hstack. destruct rest as [[dr Xrem]|];
    (apply raises_ok_bind; [apply raises_ok_result_types|intros d _ e [=]]).
Qed.

Lemma raises_ok_DataFrame_new (data : matrix) (names : list string) :
  raises_ok (DataFrame_new data names).
Proof.
  unfold DataFrame_new. intros e. destruct data as [d data|].
  - destruct (Nat.eqb _ _); intros [= <-]. exact I.
  - intros [= <-]. exact I.
Qed.

Lemma raises_ok_encode_frame (classes_ : list string) (c : string)
    (df : DataFrame) : raises_ok (encode_frame classes_ c df).
Proof.
  unfold encode_frame. apply raises_ok_bind.
  - unfold getitem. intros e.
    destruct (labelled c df) as [|x [|y l]]; intros [= <-]; exact I.
  - intros y _. apply raises_ok_bind; [|intros codes _ e [=]].
    unfold LabelEncoder_transform_column. destruct y as [|v y]; [intros e [=]|].
    destruct (numeric_array _ _).
    + intros e. destruct classes_; intros [= <-]; exact I.
    + unfold LabelEncoder_transform. apply raises_ok_mapM. intros v' e.
      destruct (encode_cell classes_ v'); intros [= <-]. exact I.
Qed.

Lemma raises_ok_encode_frames (items : list (string * list string)) :
  forall train test, raises_ok (encode_frames items train test).
Proof.
  induction items as [|[c labels] rest IH]; intros train test.
  - intros e [=].
  - cbn [encode_frames]. apply raises_ok_bind; [apply raises_ok_encode_frame|].
    intros train' _. apply raises_ok_bind.
    + destruct test as [t|]; [|intros e [=]].
      apply raises_ok_bind; [apply raises_ok_encode_frame|].
      intros t' _ e [=].
    + intros test' _. apply IH.
Qed.

Section Raised.
Context {E : Estimators}.

Lemma named_transformers_In (l : list (string * fitted * list string))
    (n : string) :
  is_Some (named_transformers_ l n) <-> In n (map (fun x => x.1.1) l).
Proof.
  induction l as [|[[m state] cols] l IH]; cbn.
  - split; [intros [? [=]]|tauto].
  - destruct (String.eqb_spec m n) as [->|Hne].
    + split; eauto.
    + rewrite IH. split; [tauto|]. intros [H|H]; [congruence|exact H].
Qed.

(** Fitting keeps the names of the transformers it fits. *)
Lemma fit_names (t : ColumnTransformer) (df : DataFrame)
    (ft : FittedColumnTransformer) :
  ColumnTransformer_fit t df = Return ft ->
  map (fun x => x.1.1) (transformers_ ft) =
  map (fun x => x.1.1)
      (filter (fun t => Is_true (nonempty t)) (transformers t)).
Proof.
  intros Hfit.
  destruct (fit_inv _ _ _ Hfit) as (cols & fl & _ & Hfl & -> & _).
  fold (fitted_entries t). clear Hfit. apply mapM_Return in Hfl.
  induction Hfl as [|e y l k Hy _ IH]; [reflexivity|].
  cbn [map]. rewrite IH. f_equal.
  destruct (fit_transform_one_inv _ _ _ Hy) as [-> _]. reflexivity.
Qed.

Lemma one_hot_in_names (drop : option string) (C N O S' R : list string) :
  In "one_hot"
     (map (fun x => x.1.1)
        (filter (fun t => Is_true (nonempty t))
           [ ("cat_imputer", SimpleImputer "constant" (Some "missing"), C);
             ("num_imputer", SimpleImputer "median" None, N);
             ("one_hot", OneHotEncoder drop, O);
             ("standard_scalar", StandardScaler, S');
             ("robust_scalar", RobustScaler, R) ])) <->
  O <> [].
Proof.
  destruct C, N, O, S', R; vm_compute; intuition congruence.
Qed.

Lemma one_hot_fitted (C N O S' R : list string) (df : DataFrame)
    (ft : FittedColumnTransformer) :
  ColumnTransformer_fit (transformer_manual C N O S' R) df = Return ft \/
  ColumnTransformer_fit (transformer_auto C N O S' R) df = Return ft ->
  O <> [] -> is_Some (named_transformers_ (transformers_ ft) "one_hot").
Proof.
  intros [Hfit|Hfit] Hne; apply named_transformers_In;
    rewrite (fit_names _ _ _ Hfit); apply one_hot_in_names; exact Hne.
Qed.

(** X9: after a successful fit of the transformer of either mode, a fitted
    one-hot encoder exists exactly when the one-hot list is non-empty: the
    guard [len(OHE) > 0] of line 139 is the condition under which line 140
    finds a fitted encoder to ask for its feature names. *)
Theorem one_hot_fitted_iff (C N O S' R : list string) (df : DataFrame)
    (ft : FittedColumnTransformer) :
  ColumnTransformer_fit (transformer_manual C N O S' R) df = Return ft \/
  ColumnTransformer_fit (transformer_auto C N O S' R) df = Return ft ->
  (is_Some (named_transformers_ (transformers_ ft) "one_hot") <-> O <> []).
Proof.
  intros Hfit. rewrite named_transformers_In.
  destruct Hfit as [Hfit|Hfit]; rewrite (fit_names _ _ _ Hfit);
    apply one_hot_in_names.
Qed.

Lemma raises_ok_sparse_output (Xs : list (bool * ndarray))
    (rest : option (dtype * ndarray)) : raises_ok (sparse_output Xs rest).
Proof.
  unfold sparse_output. intros e.
  destruct (existsb fst Xs); [|intros [=]].
  cbn zeta. destruct (Nat.eqb _ 0); intros [= <-]. exact I.
Qed.

Lemma raises_ok_hstack (sparse : bool) (Xs : list ndarray)
    (rest : option (dtype * ndarray)) :
  raises_ok (ColumnTransformer_hstack sparse Xs rest).
Proof.
  unfold ColumnTransformer_hstack. destruct sparse; [|apply raises_ok_np_hstack].
  intros e. destruct (existsb _ _); intros [= <-]. exact I.
Qed.

Lemma raises_ok_fit (t : ColumnTransformer) (df : DataFrame) :
  raises_ok (ColumnTransformer_fit t df).
Proof.
  unfold ColumnTransformer_fit. apply raises_ok_bind.
  - apply raises_ok_mapM. intros n. apply raises_ok_column_index.
  - intros cols _. apply raises_ok_bind.
    + apply raises_ok_mapM. intros [[n trans] c]. unfold fit_transform_one.
      apply raises_ok_bind; [apply raises_ok_select|]. intros Xsub _.
      apply raises_ok_bind; [apply raises_ok_estimator_call|].
      intros state _.
      apply raises_ok_bind; [apply raises_ok_estimator_call|].
      intros Xt _ e [=].
    + intros fl _. apply raises_ok_bind.
      * destruct (if String.eqb (remainder t) "passthrough" then _ else _)
          as [|i idx]; [intros e [=]|].
        apply raises_ok_bind; [apply raises_ok_iloc|]. intros Xrem _ e [=].
      * intros rest _.
        apply raises_ok_bind; [apply raises_ok_sparse_output|].
        intros sparse _.
        apply raises_ok_bind; [apply raises_ok_hstack|]. intros m _ e [=].
Qed.

Lemma raises_ok_transformed_frame (ft : FittedColumnTransformer)
    (df : DataFrame) (names : list string) :
  raises_ok (transformed_frame ft df names).
Proof.
  unfold transformed_frame. apply raises_ok_bind.
  - unfold ColumnTransformer_transform. apply raises_ok_bind.
    + intros e. destruct (List.filter _ (remainder_columns ft));
        intros [= <-]. exact I.
    + intros _ _. apply raises_ok_bind.
      * apply raises_ok_mapM. intros [[n state] c]. unfold transform_one.
        apply raises_ok_bind; [apply raises_ok_df_loc|]. intros Xsub _.
        apply raises_ok_estimator_call.
      * intros Xs _. apply raises_ok_bind; [|intros rest _; apply raises_ok_hstack].
        destruct (remainder_columns ft) as [|n names']; [intros e [=]|].
        apply raises_ok_bind; [apply raises_ok_df_loc|]. intros Xrem _ e [=].
  - intros data _. apply raises_ok_DataFrame_new.
Qed.

Lemma raises_ok_outputs (O : list string) (t : ColumnTransformer)
    (D : list (string * list string)) (df : DataFrame)
    (dft : option DataFrame) :
  (forall ft, ColumnTransformer_fit t df = Return ft -> O <> [] ->
              is_Some (named_transformers_ (transformers_ ft) "one_hot")) ->
  raises_ok (outputs O t D df dft).
Proof.
  intros Hone. unfold outputs.
  apply raises_ok_bind; [apply raises_ok_fit|]. intros ft Hft.
  apply raises_ok_bind.
  - destruct O as [|o O]; [intros e [=]|]. cbn [length Nat.ltb Nat.leb].
    destruct (Hone ft Hft ltac:(discriminate)) as [one_hot ->].
    apply raises_ok_estimator_call.
  - intros ohe _.
    apply raises_ok_bind; [apply raises_ok_transformed_frame|]. intros new _.
    apply raises_ok_bind.
    + destruct dft as [d|]; [|intros e [=]].
      apply raises_ok_bind; [apply raises_ok_transformed_frame|].
      intros t' _ e [=].
    + intros test _. apply raises_ok_encode_frames.
Qed.

Lemma raises_ok_preproc_frames (a : arguments) (df : DataFrame)
    (dft : option DataFrame) :
  raises_ok (preproc_frames a df dft).
Proof.
  unfold preproc_frames, chosen. destruct (bool_of (auto a)).
  - apply raises_ok_bind.
    + apply raises_ok_bind.
      * generalize [names_of (OHE a); names_of (standard_scale a);
                    names_of (robust_scale a); names_of (numerical_impute a);
                    names_of (categorical_impute a)].
        intros l. induction l as [|x l IH]; [intros e [=]|].
        cbn [check_manual_unset]. destruct (Nat.ltb 0 (length x)); [|exact IH].
        intros e [= <-]. exact I.
      * intros _ _. apply raises_ok_bind; [|intros _ _ e [=]].
        destruct (Nat.ltb 0 _); intros e [= <-]. exact I.
    + intros [[O Ss] t] Hr.
      destruct (check_manual_unset _) as [e|[]]; [discriminate Hr|].
      cbn [mbind result_bind] in Hr.
      destruct (Nat.ltb 0 _); [discriminate Hr|].
      cbn in Hr. injection Hr as <- <- <-.
      apply raises_ok_outputs. intros ft Hft Hne.
      apply (one_hot_fitted _ _ _ _ _ df ft (or_intror Hft)). exact Hne.
  - cbn [mbind result_bind mret result_ret].
    apply raises_ok_outputs. intros ft Hft Hne.
    apply (one_hot_fitted _ _ _ _ _ df ft (or_introl Hft)). exact Hne.
Qed.

End Raised.

Lemma check_arg_types_raises (args : list (string * pyval)) (e : exn) :
  check_arg_types args = Raise e -> TypeMismatch e.
Proof.
  induction args as [|[k v] args IH]; [discriminate|].
  rewrite check_arg_types_cons. destruct (permitted k v); [exact IH|].
  intros [= <-]. exact I.
Qed.

Lemma check_manual_unset_first (pre post : list (list string))
    (element : list string) :
  Forall (fun l => l = []) pre -> element <> [] ->
  check_manual_unset (pre ++ element :: post) =
    Raise (Exception_manual_with_auto element).
Proof.
  intros Hpre Hne. induction Hpre as [|x pre -> _ IH].
  - cbn. destruct element; [congruence|reflexivity].
  - exact IH.
Qed.

Lemma check_manual_unset_passes (l : list (list string)) :
  Forall (fun x => x = []) l -> check_manual_unset l = Return tt.
Proof. intros H. induction H as [|x l -> _ IH]; [reflexivity|exact IH]. Qed.

Section RaisedByCall.
Context {E : Estimators}.

(** X10: on existing tables, the call raises the type error exactly when
    some argument fails the type check; a call that passes the check raises
    only the conflict exceptions and what pandas and scikit-learn raise. *)
Theorem type_error_iff_ill_typed (a : arguments) (h : heap) :
  refs_valid a h ->
  ((exists e h', run (preproc a) h = (Raise e, h') /\ TypeMismatch e)
   <-> ~ well_typed a) /\
  (forall e h',
      well_typed a -> run (preproc a) h = (Raise e, h') ->
      raised_after_check e).
Proof.
  intros Hrefs.
  assert (Hafter : forall e h',
             well_typed a -> run (preproc a) h = (Raise e, h') ->
             raised_after_check e).
  { intros e h' Hwt Hrun.
    destruct (call_contents a h Hwt Hrefs) as (df & dft & Hdf & Hdft & _).
    pose proof (run_preproc a h df dft Hwt Hdf Hdft) as H. cbn zeta in H.
    destruct (preproc_frames a df dft) as [e0|[o1 o2]] eqn:Hf.
    - destruct H as [h'' H]. rewrite Hrun in H. injection H as -> _.
      apply (raises_ok_preproc_frames a df dft). exact Hf.
    - destruct H as [H _]. congruence. }
  split; [|exact Hafter]. split.
  - intros (e & h' & Hrun & He) Hwt.
    specialize (Hafter e h' Hwt Hrun). destruct e; contradiction.
  - intros Hwt. unfold well_typed in Hwt.
    destruct (check_arg_types (locals a)) as [e|[]] eqn:Hc; [|congruence].
    exists e, h. split; [apply preproc_type_error, Hc|].
    eapply check_arg_types_raises, Hc.
Qed.

(** X11: a well-typed call with [auto=True] reports the first non-empty
    list in the order one-hot, standard scale, robust scale, numerical
    impute, categorical impute (the exception carries that list); when the
    five lists are empty and the mapping is not, it raises the exception of
    line 77. *)
Theorem first_conflict_reported (a : arguments) (h : heap) :
  well_typed a -> auto a = PyBool true -> refs_valid a h ->
  (forall pre element post,
      manual_lists a = pre ++ element :: post ->
      Forall (fun l => l = []) pre -> element <> [] ->
      exists h',
        run (preproc a) h = (Raise (Exception_manual_with_auto element), h')) /\
  (Forall (fun l => l = []) (manual_lists a) ->
   dict_of (label_encode a) <> [] ->
   exists h', run (preproc a) h = (Raise Exception_label_with_auto, h')).
Proof.
  intros Hwt Hauto Hrefs.
  destruct (call_contents a h Hwt Hrefs) as (df & dft & Hdf & Hdft & _).
  pose proof (run_preproc a h df dft Hwt Hdf Hdft) as H. cbn zeta in H.
  unfold preproc_frames, chosen in H. rewrite Hauto in H. cbn [bool_of] in H.
  fold (manual_lists a) in H.
  split.
  - intros pre element post Hl Hpre Hne.
    rewrite Hl, (check_manual_unset_first pre post element Hpre Hne) in H.
    exact H.
  - intros Hall Hd.
    rewrite (check_manual_unset_passes _ Hall) in H.
    destruct (dict_of (label_encode a)) as [|kv D]; [congruence|].
    exact H.
Qed.

End RaisedByCall.

(** ** Unlisted columns at the end of the table *)

(** The positions of the listed columns, when these are the first columns
    of the table. *)
Lemma listed_positions (A B : DataFrame) (names : list string)
    (cols : list nat) :
  NoDup (columns (A ++ B)) ->
  (forall n, In n names <-> In n (columns A)) ->
  mapM (column_index (A ++ B)) names = Return cols ->
  forall j, j ∈ cols <-> j < length A.
Proof.
  intros Hnd Hnames Hcols j. apply mapM_Return in Hcols.
  assert (Hcolumns : columns (A ++ B) = columns A ++ columns B)
    by (unfold columns; apply map_app).
  assert (HlenA : length (columns A) = length A)
    by (unfold columns; apply length_map).
  split.
  - intros Hj.
    assert (Hn : exists n, In n names /\ column_index (A ++ B) n = Return j).
    { clear -Hcols Hj. induction Hcols as [|n i names cols Hni _ IH].
      - inversion Hj.
      - apply elem_of_cons in Hj as [->|Hj].
        + exists n. split; [left; reflexivity|exact Hni].
        + destruct (IH Hj) as (m & Hm & Hmi). exists m. split; [right|]; auto. }
    destruct Hn as (n & Hn & Hnj).
    apply column_index_lookup in Hnj. apply Hnames in Hn.
    apply list_elem_of_In, list_elem_of_lookup in Hn as [i Hi].
    assert (Hi' : columns (A ++ B) !! i = Some n)
      by (rewrite Hcolumns; apply lookup_app_l_Some, Hi).
    rewrite (NoDup_lookup _ _ _ _ Hnd Hnj Hi').
    apply lookup_lt_Some in Hi. lia.
  - intros Hj.
    destruct (lookup_lt_is_Some_2 (columns A) j ltac:(lia)) as [n Hn].
    assert (Hin : In n names).
    { apply Hnames, list_elem_of_In. eapply list_elem_of_lookup_2, Hn. }
    assert (Hn' : columns (A ++ B) !! j = Some n)
      by (rewrite Hcolumns; apply lookup_app_l_Some, Hn).
    clear -Hcols Hin Hn' Hnd. induction Hcols as [|m i names cols Hmi _ IH].
    + destruct Hin.
    + destruct Hin as [->|Hin].
      * apply column_index_lookup in Hmi.
        rewrite (NoDup_lookup _ _ _ _ Hnd Hn' Hmi). left.
      * right. apply IH, Hin.
Qed.

Lemma remaining_positions (a b : nat) (cols : list nat) :
  (forall j, j ∈ cols <-> j < a) ->
  filter (fun i => i ∉ cols) (seq 0 (a + b)) = seq a b.
Proof.
  intros Hcols. rewrite seq_app, filter_app. cbn [plus].
  assert (H1 : filter (fun i => i ∉ cols) (seq 0 a) = []).
  { assert (H : Forall (fun i => i < a) (seq 0 a)).
    { apply Forall_forall. intros i Hi. apply elem_of_seq in Hi. lia. }
    induction H as [|i l Hi _ IH]; [reflexivity|].
    rewrite filter_cons, decide_False; [exact IH|].
    intros Hn. apply Hn, Hcols, Hi. }
  assert (H2 : filter (fun i => i ∉ cols) (seq a b) = seq a b).
  { assert (H : Forall (fun i => a <= i) (seq a b)).
    { apply Forall_forall. intros i Hi. apply elem_of_seq in Hi. lia. }
    induction H as [|i l Hi _ IH]; [reflexivity|].
    rewrite filter_cons, decide_True, IH; [reflexivity|].
    intros Hn. apply Hcols in Hn. lia. }
  rewrite H1, H2. reflexivity.
Qed.

(** Reading a label that occurs only in the second part of a frame. *)
Lemma getitem_app_r (P Q : DataFrame) (n : string) :
  ~ In n (columns P) -> getitem (P ++ Q) n = getitem Q n.
Proof.
  intros Hn. unfold getitem.
  rewrite labelled_app, (labelled_missing n P Hn). reflexivity.
Qed.

Lemma encode_frames_other (items : list (string * list string)) :
  forall train test o1 o2 c,
    encode_frames items train test = Return (o1, o2) ->
    ~ In c (map fst items) -> getitem o1 c = getitem train c.
Proof.
  induction items as [|[k labels] rest IH]; intros train test o1 o2 c.
  - cbn. intros [= <- <-] _. reflexivity.
  - cbn [encode_frames map fst].
    destruct (encode_frame (LabelEncoder_fit labels) k train)
      as [e|train'] eqn:He; [discriminate|].
    cbn [mbind result_bind mret result_ret].
    destruct (encode_frame_inv _ _ _ _ He) as (y & codes & _ & _ & ->).
    intros Hr Hc.
    assert (Hrest : exists test', encode_frames rest (setitem train k codes) test'
                                  = Return (o1, o2)).
    { destruct test as [t|].
      - destruct (encode_frame (LabelEncoder_fit labels) k t) as [e|t'];
          [discriminate Hr|]. exists (Some t'). exact Hr.
      - exists None. exact Hr. }
    destruct Hrest as [test' Hrest].
    rewrite (IH _ _ _ _ c Hrest) by (intros H; apply Hc; right; exact H).
    apply getitem_setitem_ne. intros ->. apply Hc. left. reflexivity.
Qed.

(** A frame built from an array whose last columns are [last] and labels
    whose last ones are [names2] ends with those columns under those
    labels. *)
Lemma new_frame_tail (d : dtype) (blocks last : ndarray)
    (names1 names2 : list string) (new : DataFrame) :
  DataFrame_new (Dense d (blocks ++ last)) (names1 ++ names2) = Return new ->
  length last = length names2 ->
  length names2 <= length new /\
  forall i n vs,
    names2 !! i = Some n -> last !! i = Some vs ->
    new !! (length new - length names2 + i) = Some (Column n d vs).
Proof.
  intros Hnew Hlast.
  destruct (DataFrame_new_columns _ _ _ _ Hnew) as [Hc Hv].
  pose proof (DataFrame_new_dtype _ _ _ _ Hnew) as Hd.
  assert (Hlen : length new = length names1 + length names2).
  { apply (f_equal length) in Hc. unfold columns in Hc.
    rewrite length_app, !length_map in Hc. exact Hc. }
  assert (Hblocks : length blocks = length names1).
  { apply (f_equal length) in Hv. unfold values in Hv.
    rewrite length_app, !length_map in Hv. lia. }
  split; [lia|]. intros i n vs Hn Hvs.
  pose proof (lookup_lt_Some _ _ _ Hn) as Hlt.
  replace (length new - length names2 + i) with (length names1 + i) by lia.
  destruct (lookup_lt_is_Some_2 new (length names1 + i) ltac:(lia)) as [c' Hc'].
  rewrite Hc'. f_equal.
  assert (H1 : columns new !! (length names1 + i) = Some (cname c')).
  { unfold columns. rewrite lookup_map, Hc'. reflexivity. }
  rewrite Hc, lookup_app_r in H1 by lia.
  replace (length names1 + i - length names1) with i in H1 by lia.
  assert (H2 : values new !! (length names1 + i) = Some (cvalues c')).
  { unfold values. rewrite lookup_map, Hc'. reflexivity. }
  rewrite Hv, lookup_app_r in H2 by lia.
  replace (length names1 + i - length blocks) with i in H2 by lia.
  assert (H3 : cdtype c' = d).
  { rewrite Forall_forall in Hd. apply Hd.
    eapply list_elem_of_lookup_2, Hc'. }
  destruct c' as [n' d' vs']. cbn in *. congruence.
Qed.

Lemma setitem_lookup_ne (df : DataFrame) (k : string) (codes : list cell)
    (i : nat) (c : column) :
  df !! i = Some c -> cname c <> k -> setitem df k codes !! i = Some c.
Proof.
  intros Hi Hne. unfold setitem. rewrite lookup_map, Hi. cbn.
  rewrite (proj2 (String.eqb_neq _ _) Hne). reflexivity.
Qed.

(** The loop leaves in place every column whose label is not a key. *)
Lemma encode_frames_lookup (items : list (string * list string)) :
  forall train test o1 o2 i c,
    encode_frames items train test = Return (o1, o2) ->
    train !! i = Some c -> ~ In (cname c) (map fst items) ->
    o1 !! i = Some c /\ length o1 = length train.
Proof.
  induction items as [|[k labels] rest IH]; intros train test o1 o2 i c.
  - cbn. intros [= <- <-] Hi _. auto.
  - cbn [encode_frames map fst].
    destruct (encode_frame (LabelEncoder_fit labels) k train)
      as [e|train'] eqn:He; [discriminate|].
    cbn [mbind result_bind mret result_ret].
    destruct (encode_frame_inv _ _ _ _ He) as (y & codes & _ & _ & ->).
    intros Hr Hi Hc.
    assert (Hrest : exists test', encode_frames rest (setitem train k codes) test'
                                  = Return (o1, o2)).
    { destruct test as [t|].
      - destruct (encode_frame (LabelEncoder_fit labels) k t) as [e|t'];
          [discriminate Hr|]. exists (Some t'). exact Hr.
      - exists None. exact Hr. }
    destruct Hrest as [test' Hrest].
    destruct (IH _ _ _ _ i c Hrest) as [Ho Hlen].
    + apply setitem_lookup_ne; [exact Hi|].
      intros Heq. apply Hc. left. symmetry. exact Heq.
    + intros H. apply Hc. right. exact H.
    + split; [exact Ho|]. rewrite Hlen. unfold setitem. apply length_map.
Qed.

Lemma filter_unlisted (O names : list string) :
  (forall n, In n names -> ~ In n O) ->
  filter (fun x => Is_true (negb (name_in x O))) names = names.
Proof.
  intros H. induction names as [|n names IH]; [reflexivity|].
  rewrite filter_cons, IH by (intros m Hm; apply H; right; exact Hm).
  rewrite decide_True; [reflexivity|].
  destruct (name_in n O) eqn:Hn; [|exact I]. exfalso.
  unfold name_in in Hn. apply existsb_exists in Hn as (x & Hx & Heq).
  apply String.eqb_eq in Heq. subst x. apply (H n); [left; reflexivity|exact Hx].
Qed.

Lemma converted_object (dr : dtype) (data : ndarray) :
  converted dr object data = data.
Proof.
  unfold converted. destruct (dtype_eqb dr object); [reflexivity|].
  induction data as [|vs data IH]; [reflexivity|].
  cbn [map]. rewrite IH. f_equal.
  induction vs as [|v vs IHv]; [reflexivity|].
  cbn [map]. rewrite astype_object, IHv. reflexivity.
Qed.

Lemma converted_length (dr d : dtype) (data : ndarray) :
  length (converted dr d data) = length data.
Proof.
  unfold converted. destruct (dtype_eqb dr d); [reflexivity|apply length_map].
Qed.

Lemma to_numpy_length (df : DataFrame) : length (snd (to_numpy df)) = length df.
Proof. unfold to_numpy. cbn [snd]. apply length_map. Qed.

Lemma filter_none {A} (P : A -> Prop) `{!forall x, Decision (P x)}
    (l : list A) :
  (forall x, In x l -> ~ P x) -> filter P l = [].
Proof.
  induction l as [|x l IH]; intros Hl; [reflexivity|].
  rewrite filter_cons, decide_False by (apply Hl; left; reflexivity).
  apply IH. intros y Hy. apply Hl. right. exact Hy.
Qed.

Lemma filter_every {A} (P : A -> Prop) `{!forall x, Decision (P x)}
    (l : list A) :
  (forall x, In x l -> P x) -> filter P l = l.
Proof.
  induction l as [|x l IH]; intros Hl; [reflexivity|].
  rewrite filter_cons, decide_True by (apply Hl; left; reflexivity).
  rewrite IH; [reflexivity|]. intros y Hy. apply Hl. right. exact Hy.
Qed.

Section UnlistedLast.
Context {E : Estimators}.

(** When the listed columns are the first columns of the train table, the
    remainder columns are the others. *)
Lemma fit_remaining (C N O S' R : list string) (A B : DataFrame)
    (ft : FittedColumnTransformer) :
  ColumnTransformer_fit (transformer_manual C N O S' R) (A ++ B) = Return ft ->
  NoDup (columns (A ++ B)) ->
  (forall n, In n (C ++ N ++ O ++ S' ++ R) <-> In n (columns A)) ->
  remainder_columns ft = columns B.
Proof.
  intros Hfit Hnd Hnames.
  rewrite (fit_remainder_columns (transformer_manual C N O S' R) _ _
             Hnd eq_refl Hfit).
  cbn [transformer_manual transformers map snd concat]. rewrite app_nil_r.
  assert (Hcolumns : columns (A ++ B) = columns A ++ columns B)
    by (unfold columns; apply map_app).
  rewrite Hcolumns in Hnd |- *. apply NoDup_app in Hnd as (_ & Hdis & _).
  rewrite filter_app, filter_none, filter_every; [reflexivity| |].
  - intros n Hn Hin. apply list_elem_of_In, Hnames in Hin.
    apply (Hdis n); apply list_elem_of_In; assumption.
  - intros n Hn Hnot. apply Hnot, list_elem_of_In, Hnames, Hn.
Qed.

(** X12: in a manual call on a train table with distinct labels whose
    listed columns are exactly its first columns, the last columns of the
    train output are, position by position, the unlisted columns of the
    table: they carry the labels of those columns and, except those the
    mapping encodes, the dtype of the output array and the values that the
    array of the unlisted columns has when it is converted to that dtype.
    These are the values of the table when the unlisted columns have one
    dtype, or are held as objects, and the output array has that dtype or
    holds objects. *)
Theorem unlisted_columns_come_last (a : arguments) (h h' : heap) (Y1 : loc)
    (Y2 : option loc) (A B : DataFrame) :
  auto a = PyBool false ->
  refs_valid a h ->
  h !! frame_of (X_train a) = Some (A ++ B) ->
  NoDup (columns (A ++ B)) ->
  (forall n, In n (listed_columns a) <-> In n (columns A)) ->
  run (preproc a) h = (Return (Y1, Y2), h') ->
  exists out d,
    h' !! Y1 = Some out /\ length B <= length out /\
    forall i c,
      B !! i = Some c ->
      ~ In (cname c) (map fst (dict_of (label_encode a))) ->
      exists c', out !! (length out - length B + i) = Some c' /\
                 cname c' = cname c /\ cdtype c' = d /\
                 converted (fst (to_numpy B)) d (snd (to_numpy B)) !! i =
                   Some (cvalues c') /\
                 (no_conversion B -> d = fst (to_numpy B) \/ d = object ->
                  cvalues c' = cvalues c).
Proof.
  intros Hauto Hrefs Hdf Hnd Hnames Hrun.
  pose proof (preproc_returns_well_typed _ _ _ _ Hrun) as Hwt.
  destruct (call_contents a h Hwt Hrefs) as (df & dft & Hdf' & Hdft & _).
  assert (df = A ++ B) as -> by congruence.
  pose proof (run_preproc a h (A ++ B) dft Hwt Hdf Hdft) as H. cbn zeta in H.
  destruct (preproc_frames a (A ++ B) dft) as [e|[o1 o2]] eqn:Hf.
  { destruct H as [h'' H]. congruence. }
  destruct H as [H _]. rewrite Hrun in H. injection H as -> -> ->.
  unfold preproc_frames in Hf. rewrite Hauto in Hf.
  cbn [bool_of chosen mbind result_bind mret result_ret] in Hf.
  unfold outputs in Hf.
  destruct (ColumnTransformer_fit _ (A ++ B)) as [e|ft] eqn:Hfit;
    [discriminate Hf|].
  cbn [mbind result_bind] in Hf.
  pose proof (fit_remaining _ _ _ _ _ A B ft Hfit Hnd Hnames) as Hrem.
  match type of Hf with
  | context [mbind _ ?c] =>
      match type of c with
      | result (list string) => destruct c as [e|ohe]
      end
  end; [discriminate Hf|].
  cbn [mbind result_bind] in Hf.
  assert (Hlabels :
    ohe ++ filter (fun x => Is_true (negb (name_in x (names_of (OHE a)))))
                  (columns (A ++ B)) =
    (ohe ++ filter (fun x => Is_true (negb (name_in x (names_of (OHE a)))))
                   (columns A)) ++ columns B).
  { unfold columns at 1. rewrite map_app, filter_app, <- app_assoc.
    f_equal. f_equal. apply filter_unlisted. intros n HnB HnO.
    assert (HnA : In n (columns A)).
    { apply Hnames. unfold listed_columns. rewrite !in_app_iff. tauto. }
    unfold columns in Hnd. rewrite map_app in Hnd.
    apply NoDup_app in Hnd as (_ & Hdis & _).
    apply (Hdis n); apply list_elem_of_In; assumption. }
  rewrite Hlabels in Hf.
  destruct (transformed_frame ft (A ++ B) _) as [e|new] eqn:Hnew;
    [discriminate Hf|].
  cbn [mbind result_bind mret result_ret] in Hf.
  unfold transformed_frame in Hnew.
  destruct (ColumnTransformer_transform ft (A ++ B)) as [e|[d data|]] eqn:Hdata;
    [discriminate Hnew| |discriminate Hnew].
  cbn [mbind result_bind] in Hnew.
  destruct (transform_inv _ _ _ _ Hdata) as (blocks & Xrem & _ & Hloc & ->).
  rewrite Hrem in Hloc.
  assert (Xrem = B) as ->.
  { rewrite df_loc_columns in Hloc; [congruence|exact Hnd|].
    apply Forall_forall. intros c Hc. apply in_or_app. right.
    apply list_elem_of_In, Hc. }
  set (last := converted (fst (to_numpy B)) d (snd (to_numpy B))) in *.
  assert (Hlast : length last = length (columns B)).
  { unfold last, columns.
    rewrite converted_length, to_numpy_length, length_map. reflexivity. }
  destruct (new_frame_tail _ _ _ _ _ _ Hnew Hlast) as [Hlen Htail].
  assert (HlenB : length (columns B) = length B)
    by (unfold columns; apply length_map).
  rewrite HlenB in Hlen, Htail.
  assert (Hrest : exists test', encode_frames (dict_of (label_encode a)) new test'
                                = Return (o1, o2)).
  { destruct dft as [d0|].
    - destruct (transformed_frame ft d0 _) as [e|newt]; [discriminate Hf|].
      exists (Some newt). exact Hf.
    - exists None. exact Hf. }
  destruct Hrest as [test' Hrest].
  assert (Hsame : length o1 = length new).
  { apply encode_frames_columns in Hrest as [Hc _].
    apply (f_equal length) in Hc. unfold columns in Hc.
    rewrite !length_map in Hc. exact Hc. }
  exists o1, d.
  split; [apply (lookup_output_train h
                   (allocated (bool_of (auto a)) (A ++ B) dft))|].
  split; [lia|]. intros i c Hi Hkey.
  pose proof (lookup_lt_Some _ _ _ Hi) as Hlt.
  destruct (lookup_lt_is_Some_2 last i ltac:(lia)) as [vs Hvs].
  assert (Hn : columns B !! i = Some (cname c))
    by (unfold columns; rewrite lookup_map, Hi; reflexivity).
  pose proof (Htail i (cname c) vs Hn Hvs) as Hc'.
  exists (Column (cname c) d vs). rewrite Hsame.
  split; [eapply encode_frames_lookup; [exact Hrest|exact Hc'|exact Hkey]|].
  split; [reflexivity|]. split; [reflexivity|]. split; [exact Hvs|].
  intros Hno Hd. cbn [cvalues].
  assert (Hvalues : last = values B).
  { unfold last. rewrite (to_numpy_values B Hno).
    destruct Hd as [->| ->]; [apply converted_same|apply converted_object]. }
  rewrite Hvalues in Hvs. unfold values in Hvs.
  rewrite lookup_map, Hi in Hvs. cbn in Hvs. congruence.
Qed.

End UnlistedLast.

(** ** Instances of the further properties *)

Lemma encoding_loop_writes_codes_witness :
  exists train' test',
    points_to [[Column "grade" int64 [CInt 0; CInt 4]]] 0 None train' test' /\
    encoded Further.grade_mapping Scenario.grades train' /\
    match @None DataFrame, test' with
    | Some t, Some t' => encoded Further.grade_mapping t t'
    | None, None => True
    | _, _ => False
    end.
Proof.
  apply (encoding_loop_writes_codes Further.grade_mapping [Scenario.grades]
           _ 0 None Scenario.grades None).
  - repeat constructor. intros H. inversion H.
  - split; [reflexivity|exact I].
  - vm_compute. reflexivity.
Defined.

Lemma encoding_ignores_list_order_witness :
  run (label_encoding Further.grade_mapping 0 None) [Scenario.grades] =
  run (label_encoding Further.grade_mapping_sorted 0 None) [Scenario.grades].
Proof.
  apply (encoding_ignores_list_order Further.grade_mapping
           Further.grade_mapping_sorted 0 None [Scenario.grades]).
  constructor; [|constructor].
  split; [reflexivity|]. intros x. cbn. tauto.
Defined.

Lemma sorted_list_gives_positions_witness :
  LabelEncoder_transform (LabelEncoder_fit ["A"; "B"; "C"; "D"; "F"])
                         [CStr "A"; CStr "F"] =
  Return [CInt 0; CInt 4].
Proof.
  apply (sorted_list_gives_positions ["A"; "B"; "C"; "D"; "F"]
           [CStr "A"; CStr "F"] [CInt 0; CInt 4]).
  - cbn. repeat split; repeat constructor.
  - constructor; [exists "A", 0; repeat split|].
    constructor; [exists "F", 4; repeat split|constructor].
Defined.



Lemma output_labels_of_call_witness :
  exists df out ohe_columns,
    [Scenario.people] !! frame_of (X_train Scenario.automatic) = Some df /\
    Scenario.after_automatic !! 4 = Some out /\
    columns out =
      ohe_columns ++
      filter (fun x =>
                Is_true (negb (name_in x (one_hot_list Scenario.automatic df))))
             (columns df) /\
    (one_hot_list Scenario.automatic df = [] ->
     ohe_columns = [] /\ columns out = columns df) /\
    (one_hot_list Scenario.automatic df <> [] ->
     exists Xsub one_hot,
       select df (one_hot_list Scenario.automatic df) = Return Xsub /\
       columns Xsub = one_hot_list Scenario.automatic df /\
       fit (Estimators := Example.estimators)
           (OneHotEncoder (if bool_of (auto Scenario.automatic)
                           then Some "first" else None))
           Xsub = inr one_hot /\
       get_feature_names one_hot (one_hot_list Scenario.automatic df) =
         inr ohe_columns) /\
    (forall l, @None loc = Some l ->
               exists outt,
                 Scenario.after_automatic !! l = Some outt /\
                 columns outt = columns out).
Proof.
  apply (output_labels_of_call (E := Example.estimators)
           Scenario.automatic [Scenario.people] _ 4 None).
  - split; intros l [= <-]; cbn; eauto.
  - vm_compute. reflexivity.
Defined.

Lemma label_only_call_witness :
  exists out,
    [ Scenario.people; Scenario.people;
      [ Column "age" object [CFloat 30; CFloat 40; CFloat 50];
        Column "city" int64 [CInt 1; CInt 0; CInt 1] ] ] !! 2 = Some out /\
    encoded Further.city_mapping (as_array Scenario.people) out /\
    columns (as_array Scenario.people) = columns Scenario.people /\
    values (as_array Scenario.people) = snd (to_numpy Scenario.people) /\
    (no_conversion Scenario.people ->
     values (as_array Scenario.people) = values Scenario.people).
Proof.
  apply (label_only_call (E := Example.estimators) Further.city_mapping
           [Scenario.people] _ 0 2 None Scenario.people).
  - repeat constructor. intros H. inversion H.
  - distinct_labels.
  - reflexivity.
  - vm_compute. reflexivity.
Defined.

Lemma label_key_not_a_column_witness :
  exists h',
    run (label_encoding ([] ++ ("level", ["low"; "high"]) :: []) 0 None)
        [Scenario.grades] = (Raise (KeyError "level"), h').
Proof.
  apply (label_key_not_a_column [] [] "level" ["low"; "high"]
           [Scenario.grades] 0 None Scenario.grades None).
  - split; [reflexivity|exact I].
  - constructor.
  - intros c labels [].
  - intros t [=].
  - intros (c & labels & [] & _).
  - cbn. intuition discriminate.
Defined.

Lemma one_hot_fitted_iff_witness :
  is_Some (named_transformers_ (E := Example.estimators)
             (transformers_ Further.fitted_people) "one_hot")
  <-> ["city"] <> [].
Proof.
  apply (one_hot_fitted_iff (E := Example.estimators) [] [] ["city"] [] []
           Scenario.people Further.fitted_people).
  left. vm_compute. reflexivity.
Defined.

Lemma type_error_iff_ill_typed_witness :
  ((exists e h',
       run (preproc (E := Example.estimators) Scenario.list_as_table) [] =
         (Raise e, h') /\ TypeMismatch e)
   <-> ~ well_typed Scenario.list_as_table) /\
  (forall e h',
      well_typed Scenario.list_as_table ->
      run (preproc (E := Example.estimators) Scenario.list_as_table) [] =
        (Raise e, h') ->
      raised_after_check e).
Proof.
  apply (type_error_iff_ill_typed (E := Example.estimators)
           Scenario.list_as_table []).
  split; intros l [=].
Defined.

Lemma first_conflict_reported_witness :
  exists h',
    run (preproc (E := Example.estimators) Scenario.auto_with_list)
        [Scenario.people] = (Raise (Exception_manual_with_auto ["city"]), h').
Proof.
  apply (proj1 (first_conflict_reported (E := Example.estimators)
                  Scenario.auto_with_list [Scenario.people]
                  eq_refl eq_refl
                  ltac:(split; intros l [= <-]; cbn; eauto))
           [] ["city"] [[]; []; []; []]).
  - reflexivity.
  - constructor.
  - discriminate.
Defined.

Lemma unlisted_columns_come_last_witness :
  exists out d,
    [ Further.scaled_first ++ Further.unlisted_last;
      Further.scaled_first ++ Further.unlisted_last;
      [ Column "b" float64 [CFloat (-1); CFloat 1];
        Column "n" float64 [CFloat 9007199254740992; CFloat 2] ] ] !! 2 =
      Some out /\
    length Further.unlisted_last <= length out /\
    forall i c,
      Further.unlisted_last !! i = Some c ->
      ~ In (cname c) (map fst (dict_of (label_encode Scenario.scale_b))) ->
      exists c', out !! (length out - length Further.unlisted_last + i) = Some c' /\
                 cname c' = cname c /\ cdtype c' = d /\
                 converted (fst (to_numpy Further.unlisted_last)) d
                           (snd (to_numpy Further.unlisted_last)) !! i =
                   Some (cvalues c') /\
                 (no_conversion Further.unlisted_last ->
                  d = fst (to_numpy Further.unlisted_last) \/ d = object ->
                  cvalues c' = cvalues c).
Proof.
  apply (unlisted_columns_come_last (E := Example.estimators) Scenario.scale_b
           [Further.scaled_first ++ Further.unlisted_last] _ 2 None
           Further.scaled_first Further.unlisted_last).
  - reflexivity.
  - split; intros l [= <-]; cbn; eauto.
  - reflexivity.
  - distinct_labels.
  - intros n. cbn. tauto.
  - vm_compute. reflexivity.
Defined.
